(** * Account lifecycle and Strava linking of the club site: model and properties

    The development follows the Flask application under [src/app]:
    [models.py] (rows and their methods), [blueprints/auth.py],
    [blueprints/admin.py] and [blueprints/strava.py] (request handlers).

    Modelling conventions.
    - The database is a record of tables; a table is the list of its rows in
      primary-key order.  [Query.first] on a filter is the first matching row.
      Attribute assignments on a loaded row followed by [db.session.commit()]
      rewrite the row carrying that primary key.
    - A handler is a function from the committed database, the browser
      session and the request to the new database, the new session, the
      flashed messages, the notifications handed to the mail service and the
      HTTP answer.
    - What the handler obtains from outside (the clock, [secrets], the answers
      of the Strava API) is an argument of the handler.  All clock reads of a
      request see the same instant [now].
    - A text is the sequence of its Unicode code points, one character of
      [string] for each; the model holds the texts whose code points are
      below 256, the Latin-1 range, which has the Swedish alphabet.  On these
      [len], indexing, [str.lower] and [str.strip] are what Python computes.
      A letter outside ASCII is written by its code point, [Py.chr 246] for
      the o with diaeresis.  Float columns hold rationals: the handlers only
      copy them.
    - A [while] loop is run for a bounded number of rounds; [Hang] is the
      answer of a request whose loop has not ended by then.  The bound given
      to the username loop is shown to be enough; the bound of the fetch loop
      is an argument, since Strava may go on answering full pages.
    - Columns no handler modelled here reads or decides on ([bio],
      [avatar_url], [is_admin], [created_at], [updated_at]) are left out of
      the rows. *)

From Stdlib Require Import Ascii QArith.
From stdpp Require Import base strings pretty list numbers.

Open Scope string_scope.

(** ** Python string helpers *)

Module Py.

(** [chr(n)] for [n] below 256, as a text of one character. *)
Definition chr (n : nat) : string := String (ascii_of_nat n) EmptyString.

(** The lower-case mapping of the code points below 256: the capitals A to Z
    and the capitals from 192 to 222, without the multiplication sign 215,
    have their small letter 32 places on; every other one is left. *)
Definition lower_char (c : ascii) : ascii :=
  let n := nat_of_ascii c in
  if bool_decide (65 ≤ n ≤ 90 ∨ 192 ≤ n ≤ 214 ∨ 216 ≤ n ≤ 222)%nat
  then ascii_of_nat (n + 32) else c.

(** [str.lower()] *)
Fixpoint lower (s : string) : string :=
  match s with
  | EmptyString => EmptyString
  | String c r => String (lower_char c) (lower r)
  end.

(** [str.replace(' ', '')] *)
Fixpoint remove_spaces (s : string) : string :=
  match s with
  | EmptyString => EmptyString
  | String c r =>
      if bool_decide (c = " "%char) then remove_spaces r
      else String c (remove_spaces r)
  end.

(** [str.isspace] on the code points below 256: the space, the controls 9
    to 13 and 28 to 31, the next-line control 133 and the no-break space
    160. *)
Definition is_whitespace (c : ascii) : bool :=
  let n := nat_of_ascii c in
  bool_decide (n = 32 ∨ 9 ≤ n ≤ 13 ∨ 28 ≤ n ≤ 31 ∨ n = 133 ∨ n = 160)%nat.

Fixpoint lstrip (s : string) : string :=
  match s with
  | EmptyString => EmptyString
  | String c r => if is_whitespace c then lstrip r else s
  end.

Fixpoint rstrip (s : string) : string :=
  match s with
  | EmptyString => EmptyString
  | String c r =>
      match rstrip r with
      | EmptyString => if is_whitespace c then EmptyString else String c EmptyString
      | r' => String c r'
      end
  end.

(** [str.strip()] *)
Definition strip (s : string) : string := rstrip (lstrip s).

(** Truth value of a string: non-empty. *)
Definition truthy (s : string) : bool := negb (bool_decide (s = "")).

(** ['@' in s] *)
Fixpoint contains_char (c : ascii) (s : string) : bool :=
  match s with
  | EmptyString => false
  | String d r => bool_decide (c = d) || contains_char c r
  end.

(** [s[0]] of a non-empty string, as a string. *)
Definition head_str (s : string) : string :=
  match s with
  | EmptyString => EmptyString
  | String c _ => String c EmptyString
  end.

(** [a or b] on strings. *)
Definition or_str (a b : string) : string := if truthy a then a else b.

End Py.

(** ** models.py *)

Inductive UserState :=
  | PENDING_EMAIL_VERIFICATION
  | PENDING_APPROVAL
  | ACTIVE
  | REJECTED
  | SUSPENDED.

Inductive UserRole := USER | MODERATOR | ADMIN.

Global Instance UserState_eq_dec : EqDecision UserState.
Proof. solve_decision. Defined.
Global Instance UserRole_eq_dec : EqDecision UserRole.
Proof. solve_decision. Defined.

(** [UserRole.<r>.value] *)
Definition UserRole_value (r : UserRole) : string :=
  match r with
  | USER => "user"
  | MODERATOR => "moderator"
  | ADMIN => "admin"
  end.

(** The role whose value is [v], when [v in [r.value for r in UserRole]]. *)
Definition UserRole_of_value (v : string) : option UserRole :=
  List.find (λ r, bool_decide (UserRole_value r = v)) [USER; MODERATOR; ADMIN].

(** werkzeug's salted hash, idealised: a hash verifies exactly the password
    it was made from. *)
Inductive PasswordHash := Pbkdf2Sha256 (password : string).

Definition generate_password_hash (password : string) : PasswordHash :=
  Pbkdf2Sha256 password.

Definition check_password_hash (h : PasswordHash) (password : string) : bool :=
  match h with Pbkdf2Sha256 p => bool_decide (p = password) end.

Module User.

Record t := mk {
  id : nat;
  username : string;
  email : string;
  password_hash : PasswordHash;
  display_name : option string;
  state : UserState;
  role : UserRole;
  email_verified_at : option Z;
  approved_at : option Z;
  approved_by_id : option nat;
  rejection_reason : option string;
  suspended_reason : option string;
  leaderboard_opt_in : bool;
  last_seen : Z  (* [default=datetime.utcnow]: set when the row is inserted *)
}.

Definition with_state (v : UserState) (u : t) : t :=
  mk (id u) (username u) (email u) (password_hash u) (display_name u) v
     (role u) (email_verified_at u) (approved_at u) (approved_by_id u)
     (rejection_reason u) (suspended_reason u) (leaderboard_opt_in u)
     (last_seen u).

Definition with_email_verified_at (v : option Z) (u : t) : t :=
  mk (id u) (username u) (email u) (password_hash u) (display_name u) (state u)
     (role u) v (approved_at u) (approved_by_id u)
     (rejection_reason u) (suspended_reason u) (leaderboard_opt_in u)
     (last_seen u).

Definition with_approved_at (v : option Z) (u : t) : t :=
  mk (id u) (username u) (email u) (password_hash u) (display_name u) (state u)
     (role u) (email_verified_at u) v (approved_by_id u)
     (rejection_reason u) (suspended_reason u) (leaderboard_opt_in u)
     (last_seen u).

Definition with_approved_by_id (v : option nat) (u : t) : t :=
  mk (id u) (username u) (email u) (password_hash u) (display_name u) (state u)
     (role u) (email_verified_at u) (approved_at u) v
     (rejection_reason u) (suspended_reason u) (leaderboard_opt_in u)
     (last_seen u).

Definition with_rejection_reason (v : option string) (u : t) : t :=
  mk (id u) (username u) (email u) (password_hash u) (display_name u) (state u)
     (role u) (email_verified_at u) (approved_at u) (approved_by_id u)
     v (suspended_reason u) (leaderboard_opt_in u) (last_seen u).

Definition with_suspended_reason (v : option string) (u : t) : t :=
  mk (id u) (username u) (email u) (password_hash u) (display_name u) (state u)
     (role u) (email_verified_at u) (approved_at u) (approved_by_id u)
     (rejection_reason u) v (leaderboard_opt_in u) (last_seen u).

Definition with_last_seen (v : Z) (u : t) : t :=
  mk (id u) (username u) (email u) (password_hash u) (display_name u) (state u)
     (role u) (email_verified_at u) (approved_at u) (approved_by_id u)
     (rejection_reason u) (suspended_reason u) (leaderboard_opt_in u) v.

Definition check_password (u : t) (password : string) : bool :=
  check_password_hash (password_hash u) password.

Definition is_active_user (u : t) : bool := bool_decide (state u = ACTIVE).

Definition has_admin_access (u : t) : bool :=
  bool_decide (role u = ADMIN) || bool_decide (role u = MODERATOR).

Definition is_admin_role (u : t) : bool := bool_decide (role u = ADMIN).

(** [user.display_name or user.username] *)
Definition shown_name (u : t) : string :=
  match display_name u with
  | Some d => Py.or_str d (username u)
  | None => username u
  end.

End User.

Module EmailVerificationToken.

Record t := mk {
  id : nat;
  user_id : nat;
  token : string;
  expires_at : Z;
  used_at : option Z
}.

(** Seconds in [timedelta(hours=h)]. *)
Definition hours (h : Z) : Z := (h * 3600)%Z.

Definition create_for_user (now : Z) (secret : string) (new_id uid : nat) : t :=
  mk new_id uid secret (now + hours 24)%Z None.

Definition is_valid (now : Z) (v : t) : bool :=
  bool_decide (used_at v = None) && bool_decide (now < expires_at v)%Z.

Definition mark_used (now : Z) (v : t) : t :=
  mk (id v) (user_id v) (token v) (expires_at v) (Some now).

End EmailVerificationToken.

Inductive Purpose := connect_purpose | login_purpose | signup_purpose.

Global Instance Purpose_eq_dec : EqDecision Purpose.
Proof. solve_decision. Defined.

Module StravaOAuthState.

Record t := mk {
  id : nat;
  state : string;
  user_id : option nat;
  purpose : Purpose;
  expires_at : Z;
  used_at : option Z
}.

Definition minutes (m : Z) : Z := (m * 60)%Z.

Definition create (now : Z) (secret : string) (new_id : nat)
    (purpose : Purpose) (user_id : option nat) : t :=
  mk new_id secret user_id purpose (now + minutes 10)%Z None.

Definition is_valid (now : Z) (v : t) : bool :=
  bool_decide (used_at v = None) && bool_decide (now < expires_at v)%Z.

Definition mark_used (now : Z) (v : t) : t :=
  mk (id v) (state v) (user_id v) (purpose v) (expires_at v) (Some now).

End StravaOAuthState.

Module StravaToken.

Record t := mk {
  id : nat;
  user_id : nat;
  strava_athlete_id : Z;
  access_token : string;
  refresh_token : string;
  expires_at : Z
}.

Definition with_tokens (a r : string) (e : Z) (k : t) : t :=
  mk (id k) (user_id k) (strava_athlete_id k) a r e.

(** [time.time() > expires_at - 300] *)
Definition is_expired (now : Z) (k : t) : bool :=
  bool_decide (expires_at k - 300 < now)%Z.

End StravaToken.

(** A timestamp string of the Strava API, as [datetime.fromisoformat] sees
    it: either it parses to an instant or it raises [ValueError]. *)
Inductive IsoString := IsoInstant (t : Z) | IsoMalformed.

Definition fromisoformat (d : IsoString) : option Z :=
  match d with IsoInstant t => Some t | IsoMalformed => None end.

Module StravaActivity.

Record t := mk {
  id : nat;
  strava_id : Z;
  user_id : nat;
  name : option string;
  activity_type : option string;
  distance_meters : Q;
  moving_time_seconds : Z;
  elapsed_time_seconds : Z;
  total_elevation_gain : Q;
  start_date : option Z;
  start_date_local : option Z;
  average_speed : option Q;
  max_speed : option Q;
  synced_at : Z
}.

End StravaActivity.

(** The feed entry the admin approval writes ([Activity] with
    [activity_type='joined']). *)
Module Activity.

Record t := mk {
  id : nat;
  activity_type : string;
  message : string;
  user_id : nat
}.

End Activity.

(** The committed database. *)
Record Store := mkStore {
  users : list User.t;
  email_verification_tokens : list EmailVerificationToken.t;
  strava_oauth_states : list StravaOAuthState.t;
  strava_tokens : list StravaToken.t;
  strava_activities : list StravaActivity.t;
  activities : list Activity.t
}.

Definition with_users (v : list User.t) (s : Store) : Store :=
  mkStore v (email_verification_tokens s) (strava_oauth_states s)
          (strava_tokens s) (strava_activities s) (activities s).

Definition with_email_verification_tokens
    (v : list EmailVerificationToken.t) (s : Store) : Store :=
  mkStore (users s) v (strava_oauth_states s)
          (strava_tokens s) (strava_activities s) (activities s).

Definition with_strava_oauth_states
    (v : list StravaOAuthState.t) (s : Store) : Store :=
  mkStore (users s) (email_verification_tokens s) v
          (strava_tokens s) (strava_activities s) (activities s).

Definition with_strava_tokens (v : list StravaToken.t) (s : Store) : Store :=
  mkStore (users s) (email_verification_tokens s) (strava_oauth_states s)
          v (strava_activities s) (activities s).

Definition with_strava_activities
    (v : list StravaActivity.t) (s : Store) : Store :=
  mkStore (users s) (email_verification_tokens s) (strava_oauth_states s)
          (strava_tokens s) v (activities s).

Definition with_activities (v : list Activity.t) (s : Store) : Store :=
  mkStore (users s) (email_verification_tokens s) (strava_oauth_states s)
          (strava_tokens s) (strava_activities s) v.

Definition empty_store : Store := mkStore [] [] [] [] [] [].

(** ** The query layer *)

Module Query.

(** [Model.query.filter(p).first()] *)
Definition first {A} (p : A → bool) (rows : list A) : option A := List.find p rows.

(** [Model.query.get(i)] *)
Definition get {A} (key : A → nat) (i : nat) (rows : list A) : option A :=
  first (λ r, bool_decide (key r = i)) rows.

(** The primary key given to the next inserted row. *)
Definition new_id {A} (key : A → nat) (rows : list A) : nat :=
  S (max_list (key <$> rows)).

(** [db.session.add(r)] of a new row. *)
Definition add {A} (r : A) (rows : list A) : list A := rows ++ [r].

(** Commit of the attribute writes made on the loaded row [r]. *)
Definition save {A} (key : A → nat) (r : A) (rows : list A) : list A :=
  (λ x, if bool_decide (key x = key r) then r else x) <$> rows.

(** [Model.query.filter(p).delete()] *)
Definition delete {A} (p : A → bool) (rows : list A) : list A :=
  List.filter (λ r, negb (p r)) rows.

End Query.

(** ** Sessions, answers and notifications *)

Record Session := mkSession {
  session_user_id : option nat;
  session_remember : bool;
  pending_verification_user_id : option nat
}.

Definition anonymous : Session := mkSession None false None.

(** [login_user(user, remember=r)] *)
Definition login_user (u : User.t) (r : bool) (sess : Session) : Session :=
  mkSession (Some (User.id u)) r (pending_verification_user_id sess).

(** [logout_user()] *)
Definition logout_user (sess : Session) : Session :=
  mkSession None false (pending_verification_user_id sess).

(** [session['pending_verification_user_id'] = i] *)
Definition set_pending_verification (i : nat) (sess : Session) : Session :=
  mkSession (session_user_id sess) (session_remember sess) (Some i).

(** [current_user], through the application's [load_user]. *)
Definition current_user (s : Store) (sess : Session) : option User.t :=
  match session_user_id sess with
  | Some i => Query.get User.id i (users s)
  | None => None
  end.

Inductive Endpoint :=
  | main_index
  | auth_login
  | auth_signup
  | auth_verification_sent
  | auth_pending_approval
  | admin_dashboard
  | admin_approvals_list
  | admin_members_list
  | profile_view (username : string)
  | strava_connect
  | strava_callback
  | strava_login_callback
  | strava_sync.

Inductive Body :=
  | Redirect (target : Endpoint)
  | RedirectUrl (url : string)
  | RedirectAuthorize (callback_route : Endpoint) (state_value : string)
  | RenderTemplate (template : string)
  | NotFound404
  | ServerError (exception : string)
  | Hang.

Inductive Mail :=
  | approval_notification (user_id : nat)
  | rejection_notification (user_id : nat) (reason : string)
  | pending_approval_to_admins (user_id : nat).

(** A flashed message with its category. *)
Definition Flash : Type := string * string.

Record Result := mkResult {
  db : Store;
  session : Session;
  flashed : list Flash;
  mails : list Mail;
  response : Body
}.

Definition reply (s : Store) (sess : Session) (fl : list Flash) (b : Body) : Result :=
  mkResult s sess fl [] b.

(** The [login_required] decorator with the application's [login_view] and
    [login_message]. *)
Definition login_required (s : Store) (sess : Session)
    (view : User.t → Result) : Result :=
  match current_user s sess with
  | Some u => view u
  | None =>
      reply s sess [("Logga in for att komma at denna sida.", "message")]
            (Redirect auth_login)
  end.

(** ** blueprints/auth.py *)

Module Auth.

(** [POST /auth/login]; [post] is [request.method == 'POST'].  The last
    [else] of the chain on [user.state] answers a state outside [UserState];
    the column only ever receives values of the enumeration, so the chain is
    the [match] below. *)
Definition login (s : Store) (sess : Session) (post : bool)
    (form_username form_password : string) (remember : bool)
    (next : option string) : Result :=
  if bool_decide (is_Some (current_user s sess)) then
    reply s sess [] (Redirect main_index)
  else if post then
    let username := Py.strip form_username in
    let user :=
      Query.first (λ u, bool_decide (User.username u = username)
                        || bool_decide (User.email u = username)) (users s) in
    match user with
    | Some user =>
        if User.check_password user form_password then
          match User.state user with
          | PENDING_EMAIL_VERIFICATION =>
              reply s (set_pending_verification (User.id user) sess)
                    [("Du maste verifiera din e-postadress forst.", "warning")]
                    (Redirect auth_verification_sent)
          | PENDING_APPROVAL =>
              reply s sess
                    [("Ditt konto vantar pa godkannande fran en administrat"
                      +:+ Py.chr 246 +:+ "r.", "info")]
                    (Redirect auth_pending_approval)
          | REJECTED =>
              reply s sess
                    [("Ditt konto har inte godkants. Kontakta oss for mer information.", "error")]
                    (Redirect auth_login)
          | SUSPENDED =>
              reply s sess
                    [("Ditt konto har stagts av. Kontakta oss for mer information.", "error")]
                    (Redirect auth_login)
          | ACTIVE =>
              reply s (login_user user remember sess)
                    [("Valkommen tillbaka!", "success")]
                    (match next with
                     | Some url => if Py.truthy url then RedirectUrl url
                                   else Redirect main_index
                     | None => Redirect main_index
                     end)
          end
        else
          reply s sess [("Fel anvandarnamn eller losenord.", "error")]
                (RenderTemplate "auth/login.html")
    | None =>
        reply s sess [("Fel anvandarnamn eller losenord.", "error")]
              (RenderTemplate "auth/login.html")
    end
  else reply s sess [] (RenderTemplate "auth/login.html").

(** The validation messages of [signup], in the order they are appended. *)
Definition signup_errors (s : Store)
    (username email password confirm_password : string) : list string :=
  (if bool_decide (String.length username < 3)%nat
   then ["Anvandarnamn maste vara minst 3 tecken."] else [])
  ++ (if negb (Py.truthy email) || negb (Py.contains_char "@"%char email)
      then ["Ange en giltig e-postadress."] else [])
  ++ (if bool_decide (String.length password < 6)%nat
      then ["Losenord maste vara minst 6 tecken."] else [])
  ++ (if bool_decide (password = confirm_password) then []
      else ["Losenorden matchar inte."])
  ++ (match Query.first (λ u, bool_decide (User.username u = username)) (users s) with
      | Some _ => ["Anvandarnamnet ar redan taget."] | None => [] end)
  ++ (match Query.first (λ u, bool_decide (User.email u = email)) (users s) with
      | Some _ => ["E-postadressen ar redan registrerad."] | None => [] end).

(** Insertion of a fresh verification token for [uid]; the [unique]
    constraint on the token column refuses a repeated secret. *)
Definition add_verification_token (now : Z) (secret : string) (uid : nat)
    (s : Store) : option Store :=
  match Query.first (λ v, bool_decide (EmailVerificationToken.token v = secret))
                    (email_verification_tokens s) with
  | Some _ => None
  | None =>
      let i := Query.new_id EmailVerificationToken.id (email_verification_tokens s) in
      Some (with_email_verification_tokens
              (Query.add (EmailVerificationToken.create_for_user now secret i uid)
                         (email_verification_tokens s)) s)
  end.

(** [POST /auth/signup]; [secret] is the value of [secrets.token_urlsafe(48)]. *)
Definition signup (now : Z) (secret : string) (s : Store) (sess : Session)
    (post : bool)
    (form_username form_email form_display_name password confirm_password : string)
    : Result :=
  if bool_decide (is_Some (current_user s sess)) then
    reply s sess [] (Redirect main_index)
  else if post then
    let username := Py.lower (Py.strip form_username) in
    let email := Py.lower (Py.strip form_email) in
    let display_name := Py.strip form_display_name in
    match signup_errors s username email password confirm_password with
    | [] =>
        let user :=
          User.mk (Query.new_id User.id (users s)) username email
                  (generate_password_hash password)
                  (Some (Py.or_str display_name username))
                  PENDING_EMAIL_VERIFICATION USER None None None None None false
                  now in
        match add_verification_token now secret (User.id user)
                (with_users (Query.add user (users s)) s) with
        | Some s' =>
            reply s' (set_pending_verification (User.id user) sess)
                  [("Konto skapat! Kolla din e-post for att verifiera kontot.", "success")]
                  (Redirect auth_verification_sent)
        | None => reply s sess [] (ServerError "IntegrityError")
        end
    | errors =>
        reply s sess ((λ e, (e, "error")) <$> errors)
              (RenderTemplate "auth/signup.html")
    end
  else reply s sess [] (RenderTemplate "auth/signup.html").

(** [GET /auth/verify-email/<token>] *)
Definition verify_email (now : Z) (s : Store) (sess : Session)
    (token : string) : Result :=
  match Query.first (λ v, bool_decide (EmailVerificationToken.token v = token))
                    (email_verification_tokens s) with
  | None =>
      reply s sess [("Ogiltig verifieringslanke.", "error")] (Redirect auth_login)
  | Some verification =>
      if negb (EmailVerificationToken.is_valid now verification) then
        reply s (set_pending_verification
                   (EmailVerificationToken.user_id verification) sess)
              [("Verifieringslanken har gatt ut. Beg" +:+ Py.chr 228 +:+ "r en ny.",
                "error")]
              (Redirect auth_verification_sent)
      else
        match Query.get User.id (EmailVerificationToken.user_id verification)
                        (users s) with
        | None => reply s sess [] (ServerError "AttributeError")
        | Some user =>
            let verification := EmailVerificationToken.mark_used now verification in
            let user := User.with_state PENDING_APPROVAL user in
            let user := User.with_email_verified_at (Some now) user in
            reply (with_users (Query.save User.id user (users s))
                     (with_email_verification_tokens
                        (Query.save EmailVerificationToken.id verification
                                    (email_verification_tokens s)) s))
                  sess
                  [("E-postadress verifierad! Ditt konto vantar nu pa godkannande.", "success")]
                  (Redirect auth_pending_approval)
        end
  end.

(** [not user_id] on the session or looked-up id. *)
Definition id_truthy (o : option nat) : option nat :=
  match o with
  | Some (S n) => Some (S n)
  | _ => None
  end.

(** [POST /auth/resend-verification] *)
Definition resend_verification (now : Z) (secret : string) (s : Store)
    (sess : Session) (form_email : string) : Result :=
  let user_id :=
    match id_truthy (pending_verification_user_id sess) with
    | Some i => Some i
    | None =>
        let email := Py.lower (Py.strip form_email) in
        if Py.truthy email then
          match Query.first (λ u, bool_decide (User.email u = email)) (users s) with
          | Some user =>
              if bool_decide (User.state user = PENDING_EMAIL_VERIFICATION)
              then id_truthy (Some (User.id user)) else None
          | None => None
          end
        else None
    end in
  match user_id with
  | None =>
      reply s sess [("Kunde inte hitta kontot. Forsok registrera dig igen.", "error")]
            (Redirect auth_signup)
  | Some user_id =>
      match Query.get User.id user_id (users s) with
      | None =>
          reply s sess [("Kunde inte hitta kontot.", "error")] (Redirect auth_signup)
      | Some user =>
          if bool_decide (User.state user = PENDING_EMAIL_VERIFICATION) then
            match add_verification_token now secret (User.id user) s with
            | Some s' =>
                reply s' sess [("Ett nytt verifieringsmail har skickats!", "success")]
                      (Redirect auth_verification_sent)
            | None => reply s sess [] (ServerError "IntegrityError")
            end
          else
            reply s sess [("Kontot ar redan verifierat.", "info")] (Redirect auth_login)
      end
  end.

(** [GET /auth/logout] *)
Definition logout (s : Store) (sess : Session) : Result :=
  login_required s sess (λ _,
    reply s (logout_user sess) [("Du har loggat ut.", "info")] (Redirect main_index)).

End Auth.

(** ** blueprints/admin.py *)

Module Admin.

(** The [admin_required] decorator, under [login_required]. *)
Definition admin_required (s : Store) (sess : Session)
    (view : User.t → Result) : Result :=
  login_required s sess (λ cu,
    if negb (User.has_admin_access cu) then
      reply s sess [("Du har inte behorighet att se denna sida.", "error")]
            (Redirect main_index)
    else view cu).

(** [reason if reason else None] *)
Definition reason_or_none (reason : string) : option string :=
  if Py.truthy reason then Some reason else None.

(** [POST /admin/approvals/<id>/approve] *)
Definition approve_user (now : Z) (s : Store) (sess : Session) (id : nat) : Result :=
  admin_required s sess (λ cu,
    match Query.get User.id id (users s) with
    | None => reply s sess [] NotFound404
    | Some user =>
        if negb (bool_decide (User.state user = PENDING_APPROVAL)) then
          reply s sess [("Denna anvandare vantar inte pa godkannande.", "warning")]
                (Redirect admin_approvals_list)
        else
          let user := User.with_state ACTIVE user in
          let user := User.with_approved_at (Some now) user in
          let user := User.with_approved_by_id (Some (User.id cu)) user in
          let activity :=
            Activity.mk (Query.new_id Activity.id (activities s)) "joined"
              (User.shown_name user +:+ " gick med i Klubbans Vanner!")
              (User.id user) in
          mkResult
            (with_activities (Query.add activity (activities s))
               (with_users (Query.save User.id user (users s)) s))
            sess
            [(User.shown_name user +:+ " har godkants!", "success")]
            [approval_notification (User.id user)]
            (Redirect admin_approvals_list)
    end).

(** [POST /admin/approvals/<id>/reject] *)
Definition reject_user (s : Store) (sess : Session) (id : nat)
    (form_reason : string) : Result :=
  admin_required s sess (λ cu,
    match Query.get User.id id (users s) with
    | None => reply s sess [] NotFound404
    | Some user =>
        if negb (bool_decide (User.state user = PENDING_APPROVAL)) then
          reply s sess [("Denna anvandare vantar inte pa godkannande.", "warning")]
                (Redirect admin_approvals_list)
        else
          let reason := Py.strip form_reason in
          let user := User.with_state REJECTED user in
          let user := User.with_rejection_reason (reason_or_none reason) user in
          mkResult
            (with_users (Query.save User.id user (users s)) s)
            sess
            [(User.shown_name user +:+ " har avvisats.", "info")]
            [rejection_notification (User.id user) reason]
            (Redirect admin_approvals_list)
    end).

(** [POST /admin/members/<id>/suspend] *)
Definition members_suspend (s : Store) (sess : Session) (id : nat)
    (form_reason : string) : Result :=
  admin_required s sess (λ cu,
    if bool_decide (id = User.id cu) then
      reply s sess [("Du kan inte stanga av dig sjalv!", "error")]
            (Redirect admin_members_list)
    else
      match Query.get User.id id (users s) with
      | None => reply s sess [] NotFound404
      | Some member =>
          if User.is_admin_role member && negb (User.is_admin_role cu) then
            reply s sess [("Du kan inte stanga av en administrator.", "error")]
                  (Redirect admin_members_list)
          else
            let reason := Py.strip form_reason in
            let member := User.with_state SUSPENDED member in
            let member := User.with_suspended_reason (reason_or_none reason) member in
            reply (with_users (Query.save User.id member (users s)) s) sess
                  [(User.shown_name member +:+ " har stangts av.", "info")]
                  (Redirect admin_members_list)
      end).

(** [POST /admin/members/<id>/reactivate] *)
Definition members_reactivate (s : Store) (sess : Session) (id : nat) : Result :=
  admin_required s sess (λ cu,
    match Query.get User.id id (users s) with
    | None => reply s sess [] NotFound404
    | Some member =>
        if negb (bool_decide (User.state member = SUSPENDED)
                 || bool_decide (User.state member = REJECTED)) then
          reply s sess [("Denna anvandare ar inte avstangd eller avvisad.", "warning")]
                (Redirect admin_members_list)
        else
          let member := User.with_state ACTIVE member in
          let member := User.with_suspended_reason None member in
          let member := User.with_rejection_reason None member in
          reply (with_users (Query.save User.id member (users s)) s) sess
                [(User.shown_name member +:+ " har ateraktiverats!", "success")]
                (Redirect admin_members_list)
    end).

(** [filename.rsplit('.', 1)[1]] when ['.' in filename]: what follows the last
    dot. *)
Fixpoint after_last_dot (filename : string) : option string :=
  match filename with
  | EmptyString => None
  | String c rest =>
      match after_last_dot rest with
      | Some ext => Some ext
      | None => if bool_decide (c = "."%char) then Some rest else None
      end
  end.

(** [ALLOWED_EXTENSIONS] of [config.py], which is also the default of
    [allowed_file]. *)
Definition ALLOWED_EXTENSIONS : list string := ["png"; "jpg"; "jpeg"; "gif"; "webp"].

Definition allowed_file (allowed : list string) (filename : string) : bool :=
  match after_last_dot filename with
  | Some ext => bool_decide (Py.lower ext ∈ allowed)
  | None => false
  end.

(** [POST /admin/members/<id>/edit].  A form field that is not sent is [None].
    The avatar upload writes a file and the [avatar_url] column, [bio] and
    [is_admin] are columns outside the rows; the commit is refused when the
    e-mail is missing ([nullable=False]) or is the e-mail of another row
    ([unique=True]). *)
Definition members_edit (s : Store) (sess : Session) (id : nat) (post : bool)
    (form_display_name form_email form_role form_new_password : option string)
    : Result :=
  admin_required s sess (λ cu,
    match Query.get User.id id (users s) with
    | None => reply s sess [] NotFound404
    | Some member =>
        if post then
          let role :=
            if User.is_admin_role cu then
              match form_role with
              | Some new_role =>
                  match UserRole_of_value new_role with
                  | Some r => r
                  | None => User.role member
                  end
              | None => User.role member
              end
            else User.role member in
          let password_hash :=
            match form_new_password with
            | Some new_password =>
                if Py.truthy new_password then generate_password_hash new_password
                else User.password_hash member
            | None => User.password_hash member
            end in
          match form_email with
          | None => reply s sess [] (ServerError "IntegrityError")
          | Some email =>
              match Query.first (λ x, bool_decide (User.email x = email)
                                      && negb (bool_decide (User.id x = User.id member)))
                                (users s) with
              | Some _ => reply s sess [] (ServerError "IntegrityError")
              | None =>
                  let member :=
                    User.mk (User.id member) (User.username member) email
                            password_hash form_display_name (User.state member)
                            role (User.email_verified_at member)
                            (User.approved_at member) (User.approved_by_id member)
                            (User.rejection_reason member)
                            (User.suspended_reason member)
                            (User.leaderboard_opt_in member)
                            (User.last_seen member) in
                  reply (with_users (Query.save User.id member (users s)) s) sess
                        [("Medlemmen har uppdaterats!", "success")]
                        (Redirect admin_members_list)
              end
          end
        else reply s sess [] (RenderTemplate "admin/members/form.html")
    end).

End Admin.

(** ** The Strava API, as the handlers see it *)

Record Athlete := mkAthlete {
  athlete_id : option Z;
  firstname : string;
  lastname : string;
  city : option string
}.

(** JSON answer of the token endpoint to an authorization code. *)
Record TokenData := mkTokenData {
  athlete : Athlete;
  td_access_token : string;
  td_refresh_token : string;
  td_expires_at : Z
}.

(** JSON answer of the token endpoint to a refresh token. *)
Record RefreshData := mkRefreshData {
  rd_access_token : string;
  rd_refresh_token : string;
  rd_expires_at : Z
}.

(** One element of the [/athlete/activities] answer; an absent key is [None]. *)
Record ActivityData := mkActivityData {
  ad_id : Z;
  ad_type : option string;
  ad_name : option string;
  ad_distance : option Q;
  ad_moving_time : option Z;
  ad_elapsed_time : option Z;
  ad_total_elevation_gain : option Q;
  ad_start_date : option IsoString;
  ad_start_date_local : option IsoString;
  ad_average_speed : option Q;
  ad_max_speed : option Q
}.

(** The remote endpoints; [None] is an answer whose status is not 200. *)
Record StravaApi := mkStravaApi {
  api_token_exchange : string → option TokenData;
  api_token_refresh : string → option RefreshData;
  api_athlete_activities :
    string → option Z → nat → nat → option (list ActivityData)
}.

(** ** blueprints/strava.py *)

Module Strava.

(** [request.args.get(k)] followed by [if not v]. *)
Definition arg (v : option string) : option string :=
  match v with
  | Some x => if Py.truthy x then Some x else None
  | None => None
  end.

Definition create_oauth_state (now : Z) (secret : string) (purpose : Purpose)
    (user_id : option nat) (s : Store) : option (Store * string) :=
  match Query.first (λ v, bool_decide (StravaOAuthState.state v = secret))
                    (strava_oauth_states s) with
  | Some _ => None
  | None =>
      let i := Query.new_id StravaOAuthState.id (strava_oauth_states s) in
      let state := StravaOAuthState.create now secret i purpose user_id in
      Some (with_strava_oauth_states (Query.add state (strava_oauth_states s)) s,
            StravaOAuthState.state state)
  end.

(** Returns the committed store and either the state row or the error
    message. *)
Definition validate_oauth_state (now : Z) (s : Store) (state_value : string)
    (purpose : Purpose) : Store * (StravaOAuthState.t + string) :=
  match Query.first (λ v, bool_decide (StravaOAuthState.state v = state_value))
                    (strava_oauth_states s) with
  | None => (s, inr "Ogiltig state-parameter.")
  | Some state =>
      if negb (StravaOAuthState.is_valid now state) then
        (s, inr "State har gatt ut. Forsok igen.")
      else if negb (bool_decide (StravaOAuthState.purpose state = purpose)) then
        (s, inr "Felaktig state-purpose.")
      else
        let state := StravaOAuthState.mark_used now state in
        (with_strava_oauth_states
           (Query.save StravaOAuthState.id state (strava_oauth_states s)) s,
         inl state)
  end.

Definition exchange_code_for_token (api : StravaApi) (code : string)
    : option TokenData := api_token_exchange api code.

Definition refresh_access_token (api : StravaApi) (s : Store)
    (strava_token : StravaToken.t) : Store * option StravaToken.t :=
  match api_token_refresh api (StravaToken.refresh_token strava_token) with
  | None => (s, None)
  | Some data =>
      let k := StravaToken.with_tokens (rd_access_token data)
                 (rd_refresh_token data) (rd_expires_at data) strava_token in
      (with_strava_tokens (Query.save StravaToken.id k (strava_tokens s)) s, Some k)
  end.

Definition get_valid_token (now : Z) (api : StravaApi) (s : Store)
    (strava_token : StravaToken.t) : Store * option string :=
  if StravaToken.is_expired now strava_token then
    match refresh_access_token api s strava_token with
    | (s', Some k) => (s', Some (StravaToken.access_token k))
    | (s', None) => (s', None)
    end
  else (s, Some (StravaToken.access_token strava_token)).

(** The default of the [per_page] parameter of [fetch_strava_activities]. *)
Definition default_per_page : nat := 50.

Definition fetch_strava_activities (api : StravaApi) (access_token : string)
    (after_timestamp : Z) (page per_page : nat) : option (list ActivityData) :=
  api_athlete_activities api access_token
    (if bool_decide (after_timestamp = 0%Z) then None else Some after_timestamp)
    page per_page.

Definition username_taken (s : Store) (username : string) : bool :=
  bool_decide (is_Some (Query.first (λ u, bool_decide (User.username u = username))
                                    (users s))).

(** The [while] of [generate_username_from_strava], run for at most [fuel]
    tests of its condition; [None] when they are used up. *)
Fixpoint username_loop (fuel : nat) (s : Store) (base_username username : string)
    (counter : nat) : option string :=
  match fuel with
  | O => None
  | S fuel =>
      if username_taken s username then
        username_loop fuel s base_username (base_username +:+ pretty counter)
                      (S counter)
      else Some username
  end.

Definition base_username (athlete : Athlete) : string :=
  let first := Py.remove_spaces (Py.lower (firstname athlete)) in
  let last := Py.remove_spaces (Py.lower (lastname athlete)) in
  let base :=
    if Py.truthy first && Py.truthy last then first +:+ Py.head_str last
    else if Py.truthy first then first
    else "strava" +:+ (match athlete_id athlete with
                       | Some i => pretty i
                       | None => ""
                       end) in
  if bool_decide (String.length base < 3)%nat then "user" +:+ base else base.

Definition generate_username_from_strava (s : Store) (athlete : Athlete)
    : option string :=
  username_loop (S (length (users s))) s (base_username athlete)
                (base_username athlete) 1.

(** [current_user.strava_token] *)
Definition strava_token_of (s : Store) (u : User.t) : option StravaToken.t :=
  Query.first (λ k, bool_decide (StravaToken.user_id k = User.id u)) (strava_tokens s).

(** Insertion of a [StravaToken] row under the [unique] constraints on
    [user_id] and [strava_athlete_id]. *)
Definition add_strava_token (user_id : nat) (strava_athlete_id : Z)
    (data : TokenData) (s : Store) : option Store :=
  match Query.first (λ k, bool_decide (StravaToken.user_id k = user_id)
                          || bool_decide (StravaToken.strava_athlete_id k
                                          = strava_athlete_id))
                    (strava_tokens s) with
  | Some _ => None
  | None =>
      let k := StravaToken.mk (Query.new_id StravaToken.id (strava_tokens s))
                 user_id strava_athlete_id (td_access_token data)
                 (td_refresh_token data) (td_expires_at data) in
      Some (with_strava_tokens (Query.add k (strava_tokens s)) s)
  end.

(** [GET /strava/login] *)
Definition strava_login (now : Z) (secret : string) (s : Store) (sess : Session)
    : Result :=
  if bool_decide (is_Some (current_user s sess)) then
    reply s sess [] (Redirect main_index)
  else
    match create_oauth_state now secret login_purpose None s with
    | Some (s', state) => reply s' sess [] (RedirectAuthorize strava_login_callback state)
    | None => reply s sess [] (ServerError "IntegrityError")
    end.

(** Insertion of a [User] row under the [unique] constraints on [username]
    and [email]. *)
Definition add_user (u : User.t) (s : Store) : option Store :=
  match Query.first (λ x, bool_decide (User.username x = User.username u)
                          || bool_decide (User.email x = User.email u))
                    (users s) with
  | Some _ => None
  | None => Some (with_users (Query.add u (users s)) s)
  end.

(** [GET /strava/login/callback]; [secret] is the value of
    [secrets.token_urlsafe(32)] used as the password of a created user. *)
Definition login_callback (now : Z) (api : StravaApi) (secret : string)
    (s : Store) (sess : Session) (error state_value code : option string)
    : Result :=
  let back fl s := reply s sess [(fl, "error")] (Redirect auth_login) in
  match arg error with
  | Some _ => back "Strava-inloggning avbruten." s
  | None =>
  match arg state_value with
  | None => back "Saknar state-parameter." s
  | Some state_value =>
  match validate_oauth_state now s state_value login_purpose with
  | (s, inr error_msg) => back error_msg s
  | (s, inl state) =>
  match arg code with
  | None => back "Ingen auktoriseringskod fran Strava." s
  | Some code =>
  match exchange_code_for_token api code with
  | None => back "Kunde inte ansluta till Strava. Forsok igen." s
  | Some token_data =>
  let athlete := athlete token_data in
  match athlete_id athlete with
  | None => back "Kunde inte hamta Strava-profil." s
  | Some strava_athlete_id =>
  if bool_decide (strava_athlete_id = 0%Z) then
    back "Kunde inte hamta Strava-profil." s
  else
  match Query.first (λ k, bool_decide (StravaToken.strava_athlete_id k
                                       = strava_athlete_id))
                    (strava_tokens s) with
  | Some existing_token =>
      match Query.get User.id (StravaToken.user_id existing_token) (users s) with
      | None => reply s sess [] (ServerError "AttributeError")
      | Some user =>
          if negb (bool_decide (User.state user = ACTIVE)) then
            if bool_decide (User.state user = PENDING_APPROVAL) then
              reply s sess [("Ditt konto vantar pa godkannande.", "info")]
                    (Redirect auth_pending_approval)
            else if bool_decide (User.state user = SUSPENDED) then
              back "Ditt konto har stangts av." s
            else back "Ditt konto ar inte aktivt." s
          else
            let existing_token :=
              StravaToken.with_tokens (td_access_token token_data)
                (td_refresh_token token_data) (td_expires_at token_data)
                existing_token in
            let user := User.with_last_seen now user in
            reply (with_users (Query.save User.id user (users s))
                     (with_strava_tokens
                        (Query.save StravaToken.id existing_token (strava_tokens s))
                        s))
                  (login_user user true sess)
                  [("Valkommen tillbaka, " +:+ User.shown_name user +:+ "!", "success")]
                  (Redirect main_index)
      end
  | None =>
      match generate_username_from_strava s athlete with
      | None => reply s sess [] Hang
      | Some username =>
          let display_name :=
            Py.strip (firstname athlete +:+ " " +:+ lastname athlete) in
          let user :=
            User.mk (Query.new_id User.id (users s)) username
                    ("strava_" +:+ pretty strava_athlete_id +:+ "@strava.local")
                    (generate_password_hash secret)
                    (Some (Py.or_str display_name username))
                    PENDING_APPROVAL USER (Some now) None None None None false
                    now in
          match add_user user s with
          | None => reply s sess [] (ServerError "IntegrityError")
          | Some s' =>
              match add_strava_token (User.id user) strava_athlete_id token_data s' with
              | None => reply s sess [] (ServerError "IntegrityError")
              | Some s'' =>
                  mkResult s'' sess
                    [("Konto skapat! Ditt konto vantar nu pa godkannande.", "success")]
                    [pending_approval_to_admins (User.id user)]
                    (Redirect auth_pending_approval)
              end
          end
      end
  end end end end end end end.

(** [GET /strava/connect] *)
Definition connect (now : Z) (secret : string) (s : Store) (sess : Session)
    : Result :=
  login_required s sess (λ cu,
    let profile := Redirect (profile_view (User.username cu)) in
    if negb (bool_decide (User.state cu = ACTIVE)) then
      reply s sess [("Du maste ha ett aktivt konto for att koppla Strava.", "error")]
            profile
    else
      match strava_token_of s cu with
      | Some _ => reply s sess [("Du ar redan kopplad till Strava!", "info")] profile
      | None =>
          match create_oauth_state now secret connect_purpose (Some (User.id cu)) s with
          | Some (s', state) => reply s' sess [] (RedirectAuthorize strava_callback state)
          | None => reply s sess [] (ServerError "IntegrityError")
          end
      end).

(** [GET /strava/callback] *)
Definition callback (now : Z) (api : StravaApi) (s : Store) (sess : Session)
    (error state_value code : option string) : Result :=
  login_required s sess (λ cu,
  let back fl s :=
    reply s sess [(fl, "error")] (Redirect (profile_view (User.username cu))) in
  match arg error with
  | Some _ => back "Strava-koppling avbruten." s
  | None =>
  match arg state_value with
  | None => back "Saknar state-parameter." s
  | Some state_value =>
  match validate_oauth_state now s state_value connect_purpose with
  | (s, inr error_msg) => back error_msg s
  | (s, inl state) =>
  if negb (bool_decide (StravaOAuthState.user_id state = Some (User.id cu))) then
    back "Ogiltig state for denna anvandare." s
  else
  match arg code with
  | None => back "Ingen auktoriseringskod fran Strava." s
  | Some code =>
  match exchange_code_for_token api code with
  | None => back "Kunde inte koppla till Strava. Forsok igen." s
  | Some token_data =>
  let athlete := athlete token_data in
  let existing_token :=
    match athlete_id athlete with
    | Some a => Query.first (λ k, bool_decide (StravaToken.strava_athlete_id k = a))
                            (strava_tokens s)
    | None => None
    end in
  let linked_elsewhere :=
    match existing_token with
    | Some k => negb (bool_decide (StravaToken.user_id k = User.id cu))
    | None => false
    end in
  if linked_elsewhere then
    back "Detta Strava-konto ar redan kopplat till en annan anvandare." s
  else
    let done s' :=
      reply s' sess [("Strava-konto kopplat! Synkar aktiviteter...", "success")]
            (Redirect strava_sync) in
    match strava_token_of s cu with
    | Some strava_token =>
        let strava_token :=
          StravaToken.with_tokens (td_access_token token_data)
            (td_refresh_token token_data) (td_expires_at token_data) strava_token in
        done (with_strava_tokens
                (Query.save StravaToken.id strava_token (strava_tokens s)) s)
    | None =>
        match athlete_id athlete with
        | None => reply s sess [] (ServerError "IntegrityError")
        | Some a =>
            match add_strava_token (User.id cu) a token_data s with
            | None => reply s sess [] (ServerError "IntegrityError")
            | Some s' => done s'
            end
        end
    end
  end end end end end).

(** [GET /strava/disconnect]; the statistics cache is not part of the store. *)
Definition disconnect (s : Store) (sess : Session) : Result :=
  login_required s sess (λ cu,
    let profile := Redirect (profile_view (User.username cu)) in
    match strava_token_of s cu with
    | Some strava_token =>
        reply (with_strava_tokens
                 (Query.delete (λ k, bool_decide (StravaToken.id k
                                                  = StravaToken.id strava_token))
                               (strava_tokens s))
                 (with_strava_activities
                    (Query.delete (λ a, bool_decide (StravaActivity.user_id a
                                                     = User.id cu))
                                  (strava_activities s)) s))
              sess [("Strava-konto bortkopplat.", "success")] profile
    | None => reply s sess [] profile
    end).

(** [start_date] of the first row of the user's activities ordered by
    [start_date] descending (rows without a date sort last). *)
Definition latest_start_date (user_id : nat) (rows : list StravaActivity.t)
    : option Z :=
  foldr (λ a acc,
           if bool_decide (StravaActivity.user_id a = user_id) then
             match StravaActivity.start_date a, acc with
             | Some t, Some m => Some (Z.max t m)
             | Some t, None => Some t
             | None, _ => acc
             end
           else acc) None rows.

(** [d.get(k, 0)] *)
Definition get_or {A} (d : A) (v : option A) : A :=
  match v with Some x => x | None => d end.

Definition parse_date (v : option IsoString) : option Z :=
  match v with Some d => fromisoformat d | None => None end.

(** Body of the [for] over one page: the rows of [strava_activities] and
    [synced_count] before and after one element. *)
Definition ingest (now : Z) (user_id : nat)
    (acc : list StravaActivity.t * nat) (activity_data : ActivityData)
    : list StravaActivity.t * nat :=
  let (rows, synced_count) := acc in
  if negb (bool_decide (ad_type activity_data = Some "Ride")) then acc
  else
    match Query.first (λ a, bool_decide (StravaActivity.strava_id a
                                         = ad_id activity_data)) rows with
    | Some existing =>
        let existing :=
          StravaActivity.mk
            (StravaActivity.id existing) (StravaActivity.strava_id existing)
            (StravaActivity.user_id existing)
            (ad_name activity_data)
            (StravaActivity.activity_type existing)
            (get_or 0%Q (ad_distance activity_data))
            (get_or 0%Z (ad_moving_time activity_data))
            (StravaActivity.elapsed_time_seconds existing)
            (get_or 0%Q (ad_total_elevation_gain activity_data))
            (StravaActivity.start_date existing)
            (StravaActivity.start_date_local existing)
            (ad_average_speed activity_data)
            (ad_max_speed activity_data)
            now in
        (Query.save StravaActivity.id existing rows, synced_count)
    | None =>
        let strava_activity :=
          StravaActivity.mk
            (Query.new_id StravaActivity.id rows) (ad_id activity_data) user_id
            (ad_name activity_data)
            (ad_type activity_data)
            (get_or 0%Q (ad_distance activity_data))
            (get_or 0%Z (ad_moving_time activity_data))
            (get_or 0%Z (ad_elapsed_time activity_data))
            (get_or 0%Q (ad_total_elevation_gain activity_data))
            (parse_date (ad_start_date activity_data))
            (parse_date (ad_start_date_local activity_data))
            (ad_average_speed activity_data)
            (ad_max_speed activity_data)
            now in
        (Query.add strava_activity rows, S synced_count)
    end.

(** State of the fetch loop.  [requests] is a ghost trace of the calls made
    to the API, each with its [page] and [per_page]. *)
Record SyncRun := mkSyncRun {
  run_rows : list StravaActivity.t;
  synced_count : nat;
  requests : list (nat * nat)
}.

(** The [while True] of [sync], run for at most [fuel] page requests; [None]
    when they are used up before a [break]. *)
Fixpoint sync_loop (fuel : nat) (now : Z) (api : StravaApi)
    (access_token : string) (after_timestamp : Z) (user_id : nat)
    (page : nat) (run : SyncRun) : option SyncRun :=
  match fuel with
  | O => None
  | S fuel =>
      let asked := (requests run ++ [(page, default_per_page)])%list in
      match fetch_strava_activities api access_token after_timestamp page
                                    default_per_page with
      | None | Some [] => Some (mkSyncRun (run_rows run) (synced_count run) asked)
      | Some activities =>
          let (rows, count) :=
            foldl (ingest now user_id) (run_rows run, synced_count run) activities in
          let run := mkSyncRun rows count asked in
          if bool_decide (length activities < 50)%nat then Some run
          else sync_loop fuel now api access_token after_timestamp user_id
                         (S page) run
      end
  end.

(** Seconds in [timedelta(days=d)] and [timedelta(hours=h)]. *)
Definition days (d : Z) : Z := (d * 86400)%Z.
Definition hours (h : Z) : Z := (h * 3600)%Z.

(** [GET /strava/sync] *)
Definition sync (fuel : nat) (now : Z) (api : StravaApi) (s : Store)
    (sess : Session) : Result :=
  login_required s sess (λ cu,
    match strava_token_of s cu with
    | None =>
        reply s sess [("Du maste forst koppla ditt Strava-konto.", "error")]
              (Redirect strava_connect)
    | Some strava_token =>
        if negb (bool_decide (User.state cu = ACTIVE)) then
          reply s sess
                [("Du maste ha ett aktivt konto for att synka aktiviteter.", "error")]
                (Redirect (profile_view (User.username cu)))
        else
          match get_valid_token now api s strava_token with
          | (s, None) =>
              reply s sess
                    [("Kunde inte autentisera med Strava. Koppla om ditt konto.", "error")]
                    (Redirect strava_connect)
          | (s, Some access_token) =>
              if negb (Py.truthy access_token) then
                reply s sess
                      [("Kunde inte autentisera med Strava. Koppla om ditt konto.", "error")]
                      (Redirect strava_connect)
              else
              let after_timestamp :=
                match latest_start_date (User.id cu) (strava_activities s) with
                | Some start_date => (start_date - hours 1)%Z
                | None => (now - days 90)%Z
                end in
              match sync_loop fuel now api access_token after_timestamp
                              (User.id cu) 1
                              (mkSyncRun (strava_activities s) 0 []) with
              | None => reply s sess [] Hang
              | Some run =>
                  reply (with_strava_activities (run_rows run) s) sess
                        [(pretty (synced_count run)
                          +:+ " nya aktiviteter synkade fran Strava!", "success")]
                        (Redirect (profile_view (User.username cu)))
              end
          end
    end).

(** [f"{n:02d}"] *)
Definition pad2 (n : Z) : string :=
  if bool_decide (0 ≤ n < 10)%Z then "0" +:+ pretty n else pretty n.

(** [format_time]; [None] is the SQL [NULL] of an empty sum. *)
Definition format_time (seconds : option Z) : string :=
  match seconds with
  | None => "0:00"
  | Some seconds =>
      if bool_decide (seconds = 0%Z) then "0:00"
      else
        let hours := (seconds `div` 3600)%Z in
        let minutes := ((seconds `mod` 3600) `div` 60)%Z in
        let secs := (seconds `mod` 60)%Z in
        if bool_decide (0 < hours)%Z then
          pretty hours +:+ ":" +:+ pad2 minutes +:+ ":" +:+ pad2 secs
        else pretty minutes +:+ ":" +:+ pad2 secs
  end.

End Strava.

(** ** blueprints/profile.py *)

Module Profile.

(** [POST /profile/edit]; [bio] is a column outside the rows. *)
Definition edit (s : Store) (sess : Session) (post : bool)
    (form_display_name : string) (form_leaderboard_opt_in : option string)
    : Result :=
  login_required s sess (λ cu,
    if post then
      let display_name := Py.strip form_display_name in
      let leaderboard_opt_in := bool_decide (form_leaderboard_opt_in = Some "on") in
      let cu :=
        User.mk (User.id cu) (User.username cu) (User.email cu)
                (User.password_hash cu)
                (if Py.truthy display_name then Some display_name
                 else User.display_name cu)
                (User.state cu) (User.role cu) (User.email_verified_at cu)
                (User.approved_at cu) (User.approved_by_id cu)
                (User.rejection_reason cu) (User.suspended_reason cu)
                leaderboard_opt_in (User.last_seen cu) in
      reply (with_users (Query.save User.id cu (users s)) s) sess
            [("Profil uppdaterad!", "success")]
            (Redirect (profile_view (User.username cu)))
    else reply s sess [] (RenderTemplate "profile/edit.html")).

End Profile.

(** ** The application as a transition system *)

(** The routes of the modelled blueprints with what the client sends and
    what the handler draws from [secrets]. *)
Inductive Request :=
  | AuthLogin (post : bool) (username password : string) (remember : bool)
              (next : option string)
  | AuthSignup (secret : string) (post : bool)
               (username email display_name password confirm_password : string)
  | AuthVerifyEmail (token : string)
  | AuthResendVerification (secret : string) (email : string)
  | AuthLogout
  | AdminApproveUser (id : nat)
  | AdminRejectUser (id : nat) (reason : string)
  | AdminMembersSuspend (id : nat) (reason : string)
  | AdminMembersReactivate (id : nat)
  | StravaLogin (secret : string)
  | StravaLoginCallback (secret : string) (error state_value code : option string)
  | StravaConnect (secret : string)
  | StravaCallback (error state_value code : option string)
  | StravaDisconnect
  | StravaSync (fuel : nat).

Definition handle (now : Z) (api : StravaApi) (req : Request)
    (s : Store) (sess : Session) : Result :=
  match req with
  | AuthLogin post u p r n => Auth.login s sess post u p r n
  | AuthSignup secret post u e d p c => Auth.signup now secret s sess post u e d p c
  | AuthVerifyEmail token => Auth.verify_email now s sess token
  | AuthResendVerification secret e => Auth.resend_verification now secret s sess e
  | AuthLogout => Auth.logout s sess
  | AdminApproveUser id => Admin.approve_user now s sess id
  | AdminRejectUser id reason => Admin.reject_user s sess id reason
  | AdminMembersSuspend id reason => Admin.members_suspend s sess id reason
  | AdminMembersReactivate id => Admin.members_reactivate s sess id
  | StravaLogin secret => Strava.strava_login now secret s sess
  | StravaLoginCallback secret e v c => Strava.login_callback now api secret s sess e v c
  | StravaConnect secret => Strava.connect now secret s sess
  | StravaCallback e v c => Strava.callback now api s sess e v c
  | StravaDisconnect => Strava.disconnect s sess
  | StravaSync fuel => Strava.sync fuel now api s sess
  end.

(** Databases the application can be in after any number of requests, from
    any clients, starting from [init]. *)
Inductive reachable (init : Store) : Store → Prop :=
  | reachable_init : reachable init init
  | reachable_request s now api req sess :
      reachable init s → reachable init (db (handle now api req s sess)).

(** ** Properties stated over the model *)

(** Edges of the account state machine: verification, approval, rejection,
    suspension, reactivation. *)
Definition legal_transition (a b : UserState) : bool :=
  match a, b with
  | PENDING_EMAIL_VERIFICATION, PENDING_APPROVAL => true
  | PENDING_APPROVAL, ACTIVE => true
  | PENDING_APPROVAL, REJECTED => true
  | ACTIVE, SUSPENDED => true
  | SUSPENDED, ACTIVE => true
  | REJECTED, ACTIVE => true
  | _, _ => false
  end.

(** The reason columns agree with the state: at most one is set, and only in
    its own state. *)
Definition reasons_state_gated (u : User.t) : Prop :=
  (User.rejection_reason u ≠ None → User.state u = REJECTED) ∧
  (User.suspended_reason u ≠ None → User.state u = SUSPENDED).

(** No two rows of [strava_tokens] share a primary key or an athlete id. *)
Definition links_unique (s : Store) : Prop :=
  NoDup (StravaToken.id <$> strava_tokens s) ∧
  NoDup (StravaToken.strava_athlete_id <$> strava_tokens s).

(** No two rows of [strava_activities] share a primary key or a Strava id. *)
Definition activities_unique (rows : list StravaActivity.t) : Prop :=
  NoDup (StravaActivity.id <$> rows) ∧
  NoDup (StravaActivity.strava_id <$> rows).


(** What the user sees of an answer. *)
Definition visible (r : Result) : list Flash * Body := (flashed r, response r).

(** The [i]-th name tried by [generate_username_from_strava]. *)
Definition candidate (base : string) (i : nat) : string :=
  match i with
  | O => base
  | S _ => base +:+ pretty i
  end.

(** An answer of the activities endpoint that ends the fetch loop. *)
Definition last_page (answer : option (list ActivityData)) : bool :=
  match answer with
  | None => true
  | Some l => bool_decide (length l < 50)%nat
  end.

(** The reading of "a used token and an expired token fail differently" on
    [verify_email]: what the user sees differs between the two. *)
Definition used_and_expired_distinguished : Prop :=
  ∀ now s sess t1 t2 v1 v2,
    Query.first (λ v, bool_decide (EmailVerificationToken.token v = t1))
                (email_verification_tokens s) = Some v1 →
    Query.first (λ v, bool_decide (EmailVerificationToken.token v = t2))
                (email_verification_tokens s) = Some v2 →
    EmailVerificationToken.used_at v1 ≠ None →
    (now < EmailVerificationToken.expires_at v1)%Z →
    EmailVerificationToken.used_at v2 = None →
    (EmailVerificationToken.expires_at v2 ≤ now)%Z →
    visible (Auth.verify_email now s sess t1)
    ≠ visible (Auth.verify_email now s sess t2).

(** The verification link [t] of the user [uid] has been used: the row the
    lookup finds carries a time of use.  The table has its primary key. *)
Definition email_token_used (t : string) (uid : nat) (s : Store) : Prop :=
  NoDup (EmailVerificationToken.id <$> email_verification_tokens s) ∧
  ∃ v, Query.first (λ v, bool_decide (EmailVerificationToken.token v = t))
                   (email_verification_tokens s) = Some v ∧
       EmailVerificationToken.used_at v ≠ None ∧
       EmailVerificationToken.user_id v = uid.

(** The OAuth state [sv] has been used. *)
Definition oauth_state_used (sv : string) (s : Store) : Prop :=
  NoDup (StravaOAuthState.id <$> strava_oauth_states s) ∧
  ∃ st, Query.first (λ x, bool_decide (StravaOAuthState.state x = sv))
                    (strava_oauth_states s) = Some st ∧
        StravaOAuthState.used_at st ≠ None.

(** The requests for the pages [p], [p+1], ..., each of [default_per_page]. *)
Definition page_requests (p n : nat) : list (nat * nat) :=
  (λ q, (q, Strava.default_per_page)) <$> seq p n.

(** The state of the account [i], if there is one. *)
Definition state_of (i : nat) (s : Store) : option UserState :=
  User.state <$> Query.get User.id i (users s).

(** ** A small club, for the examples *)

Module Demo.

Definition klubban : User.t :=
  User.mk 1 "klubban" "klubban@klubbansvanners.se"
          (generate_password_hash "klubban2026") (Some "Klubban")
          ACTIVE ADMIN (Some 0%Z) None None None None true 0.

(** The database after [flask create-admin]. *)
Definition start : Store := with_users [klubban] empty_store.

Definition admin_session : Session := mkSession (Some 1%nat) false None.

Definition anna_session : Session := mkSession (Some 2%nat) false None.

Definition anna_athlete : Athlete := mkAthlete (Some 77%Z) "Anna" "Berg" None.

(** A Strava that knows one athlete and has no activities. *)
Definition api : StravaApi :=
  mkStravaApi (λ _, Some (mkTokenData anna_athlete "access" "refresh" 99999))
              (λ _, None) (λ _ _ _ _, Some []).

(** Anna signs up at 100, asks for a second mail at 200. *)
Definition signed_up : Result :=
  handle 100 api
         (AuthSignup "T1" true " Anna " "anna@example.org" "" "hemligt" "hemligt")
         start anonymous.

Definition resent : Result :=
  handle 200 api (AuthResendVerification "T2" "") (db signed_up) (session signed_up).

(** She follows the first link at 300. *)
Definition verified : Result :=
  handle 300 api (AuthVerifyEmail "T1") (db resent) (session resent).

(** The administrator approves her at 400. *)
Definition approved : Result :=
  handle 400 api (AdminApproveUser 2) (db verified) admin_session.

(** Had she followed the second link instead, the first one is left to run
    out. *)
Definition verified_second : Result :=
  handle 300 api (AuthVerifyEmail "T2") (db resent) (session resent).

(** Anna starts the connect flow at 500 and comes back from Strava at 510. *)
Definition connecting : Result :=
  handle 500 api (StravaConnect "S1") (db approved) anna_session.

Definition linked : Result :=
  handle 510 api (StravaCallback None (Some "S1") (Some "code"))
         (db connecting) anna_session.

(** The administrator starts a connect flow of his own at 600. *)
Definition admin_connecting : Result :=
  handle 600 api (StravaConnect "S2") (db linked) admin_session.

(** A newcomer whose Strava profile is also called Anna logs in with
    Strava at 700 and comes back at 710. *)
Definition newcomer : Athlete := mkAthlete (Some 88%Z) "Anna" "" None.

Definition api_newcomer : StravaApi :=
  mkStravaApi (λ _, Some (mkTokenData newcomer "access88" "refresh88" 99999))
              (λ _, None) (λ _ _ _ _, Some []).

Definition strava_login_started : Result :=
  handle 700 api (StravaLogin "S3") (db linked) anonymous.

Definition strava_originated : Result :=
  handle 710 api_newcomer (StravaLoginCallback "drawn-secret" None (Some "S3") (Some "code"))
         (db strava_login_started) anonymous.

(** Before the newcomer comes, a visitor signs up at 650 under the address
    the Strava login is going to give the newcomer. *)
Definition squatted : Result :=
  handle 650 api
         (AuthSignup "T3" true "bengt" "strava_88@strava.local" "" "hemligt"
                     "hemligt")
         (db linked) anonymous.

Definition squatted_login_started : Result :=
  handle 700 api (StravaLogin "S3") (db squatted) anonymous.

Definition squatted_callback : Result :=
  handle 710 api_newcomer
         (StravaLoginCallback "drawn-secret" None (Some "S3") (Some "code"))
         (db squatted_login_started) anonymous.

(** A Strava profile with letters outside ASCII: the A with ring 197 and the
    O with diaeresis 214. *)
Definition asa : Athlete :=
  mkAthlete (Some 99%Z) (Py.chr 197 +:+ "sa") (Py.chr 214 +:+ "berg") None.

(** Before approving her, the administrator suspends Anna at 350. *)
Definition suspended_while_pending : Result :=
  handle 350 api (AdminMembersSuspend 2 "") (db verified) admin_session.

(** After her approval, Anna follows the second link at 450. *)
Definition verified_again : Result :=
  handle 450 api (AuthVerifyEmail "T2") (db approved) anonymous.

(** Instead of approving her, the administrator rejects Anna at 400 with a
    reason; then he suspends her with another reason, or she follows the
    second link. *)
Definition rejected : Result :=
  handle 400 api (AdminRejectUser 2 "spam") (db verified) admin_session.

Definition rejected_then_suspended : Result :=
  handle 450 api (AdminMembersSuspend 2 "abuse") (db rejected) admin_session.

Definition rejected_then_verified : Result :=
  handle 450 api (AuthVerifyEmail "T2") (db rejected) anonymous.

(** A ride as the activities endpoint lists it. *)
Definition ride (i : Z) (name : string) (distance : Q) : ActivityData :=
  mkActivityData i (Some "Ride") (Some name) (Some distance) (Some 3600%Z)
                 (Some 4000%Z) (Some 120%Q) (Some (IsoInstant 450)) None
                 (Some 7%Q) None.

(** A Strava whose activity list has two full pages and a third of ten. *)
Definition api_three_pages : StravaApi :=
  mkStravaApi (λ _, None) (λ _, None)
    (λ _ _ page per_page,
       if bool_decide (page = 1 ∨ page = 2)%nat
       then Some (replicate per_page (ride 5 "Morgonrunda" 42000))
       else if bool_decide (page = 3)%nat
            then Some (replicate 10 (ride 6 "Kvallsrunda" 18000))
            else Some []).

(** A Strava whose activity list is exactly one full page. *)
Definition api_one_full_page : StravaApi :=
  mkStravaApi (λ _, None) (λ _, None)
    (λ _ _ page per_page,
       if bool_decide (page = 1)%nat
       then Some (replicate per_page (ride 5 "Morgonrunda" 42000))
       else Some []).

(** With that list Anna synchronises at 520 and again at 530. *)
Definition first_sync : Result :=
  handle 520 api_three_pages (StravaSync 7) (db linked) anna_session.

Definition second_sync : Result :=
  handle 530 api_three_pages (StravaSync 7) (db first_sync) anna_session.

(** The administrator makes Anna a moderator. *)
Definition promoted : Result :=
  Admin.members_edit (db approved) admin_session 2 true (Some "Anna")
                     (Some "anna@example.org") (Some "moderator") None.

End Demo.

(** ** Further properties stated over the model *)

(** No two accounts share a primary key, a username or an e-mail. *)
Definition users_unique (s : Store) : Prop :=
  NoDup (User.id <$> users s) ∧
  NoDup (User.username <$> users s) ∧
  NoDup (User.email <$> users s).

(** The columns of an account that identify it and let it in. *)
Definition same_identity (u u' : User.t) : Prop :=
  User.id u' = User.id u ∧ User.username u' = User.username u ∧
  User.email u' = User.email u ∧ User.password_hash u' = User.password_hash u ∧
  User.role u' = User.role u.

(** What one request does to the table of users: nothing, a write to one row
    that keeps its identity, or the insertion of one row with a fresh key,
    username and e-mail. *)
Inductive users_step (s : Store) : list User.t → Prop :=
  | users_same : users_step s (users s)
  | users_saved u u' :
      u ∈ users s → same_identity u u' →
      users_step s (Query.save User.id u' (users s))
  | users_added u' :
      User.id u' = Query.new_id User.id (users s) →
      (∀ x, x ∈ users s →
            User.username x ≠ User.username u' ∧ User.email x ≠ User.email u') →
      users_step s (users s ++ [u']).

(** The columns of a link that say who is linked to whom. *)
Definition same_link (k k' : StravaToken.t) : Prop :=
  StravaToken.id k' = StravaToken.id k ∧
  StravaToken.user_id k' = StravaToken.user_id k ∧
  StravaToken.strava_athlete_id k' = StravaToken.strava_athlete_id k.

(** What a request other than a disconnect does to the table of links:
    nothing, new credentials on one row, or the insertion of a row for an
    existing user and an athlete that both had none. *)
Inductive links_kept (s s' : Store) : Prop :=
  | links_same : strava_tokens s' = strava_tokens s → links_kept s s'
  | links_refreshed k a r e :
      k ∈ strava_tokens s →
      strava_tokens s'
      = Query.save StravaToken.id (StravaToken.with_tokens a r e k) (strava_tokens s) →
      links_kept s s'
  | links_added k :
      StravaToken.id k = Query.new_id StravaToken.id (strava_tokens s) →
      (∀ x, x ∈ strava_tokens s →
            StravaToken.user_id x ≠ StravaToken.user_id k ∧
            StravaToken.strava_athlete_id x ≠ StravaToken.strava_athlete_id k) →
      is_Some (Query.get User.id (StravaToken.user_id k) (users s')) →
      strava_tokens s' = (strava_tokens s ++ [k])%list →
      links_kept s s'.

(** What any request does to it: one of these, or the removal of one row. *)
Inductive links_step (s s' : Store) : Prop :=
  | links_step_kept : links_kept s s' → links_step s s'
  | links_removed k :
      k ∈ strava_tokens s →
      strava_tokens s'
      = Query.delete (λ x, bool_decide (StravaToken.id x = StravaToken.id k))
                     (strava_tokens s) →
      links_step s s'.

(** The table of links is well formed: keys are distinct, a user has at most
    one link, and the user of every link exists. *)
Definition links_wf (s : Store) : Prop :=
  NoDup (User.id <$> users s) ∧
  NoDup (StravaToken.id <$> strava_tokens s) ∧
  NoDup (StravaToken.user_id <$> strava_tokens s) ∧
  ∀ k, k ∈ strava_tokens s →
       is_Some (Query.get User.id (StravaToken.user_id k) (users s)).

(** The columns of a stored activity that say which activity it is and
    whose. *)
Definition activity_key (a : StravaActivity.t) : nat * Z * nat * option string :=
  (StravaActivity.id a, StravaActivity.strava_id a, StravaActivity.user_id a,
   StravaActivity.activity_type a).

(** [rows'] is [rows], row by row with the same keys, followed by [n] rides
    of the user [uid]. *)
Definition extended_by (uid : nat) (rows rows' : list StravaActivity.t) (n : nat)
    : Prop :=
  ∃ kept new,
    rows' = (kept ++ new)%list ∧
    activity_key <$> kept = activity_key <$> rows ∧
    length new = n ∧
    Forall (λ a, StravaActivity.user_id a = uid
                 ∧ StravaActivity.activity_type a = Some "Ride") new.

(** * Properties *)

Open Scope list_scope.
Open Scope nat_scope.

(** ** Lemmas on the query layer *)

Section query.
Context {A : Type} (key : A → nat).
Implicit Types (p : A → bool) (rows : list A) (r : A).

Lemma first_Some p rows r :
  Query.first p rows = Some r → r ∈ rows ∧ p r = true.
Proof.
  unfold Query.first. intros H. apply find_some in H as [Hin Hp].
  split; [by apply list_elem_of_In | done].
Qed.

Lemma first_None p rows r :
  Query.first p rows = None → r ∈ rows → p r = false.
Proof.
  unfold Query.first. intros H Hin.
  apply (find_none _ _ H). by apply list_elem_of_In.
Qed.

Lemma first_is_Some p rows r :
  r ∈ rows → p r = true → is_Some (Query.first p rows).
Proof.
  intros Hin Hp. destruct (Query.first p rows) eqn:E; [eauto|].
  rewrite (first_None _ _ _ E Hin) in Hp. discriminate.
Qed.

Lemma get_Some i rows r :
  Query.get key i rows = Some r → r ∈ rows ∧ key r = i.
Proof.
  unfold Query.get. intros H. apply first_Some in H as [? H].
  by apply bool_decide_eq_true in H.
Qed.

Lemma first_app_Some p rows rows' r :
  Query.first p rows = Some r → Query.first p (rows ++ rows') = Some r.
Proof.
  unfold Query.first. induction rows as [|y rows IH]; [done|]. cbn [find app].
  by destruct (p y).
Qed.

Lemma first_app_None p rows rows' :
  Query.first p rows = None →
  Query.first p (rows ++ rows') = Query.first p rows'.
Proof.
  unfold Query.first. induction rows as [|y rows IH]; [done|]. cbn [find app].
  by destruct (p y).
Qed.

(** A write to rows that the filter does not select, of a row it does not
    select, does not change what the filter finds first. *)
Lemma first_save_other p rows r' :
  (∀ x, x ∈ rows → key x = key r' → p x = false) → p r' = false →
  Query.first p (Query.save key r' rows) = Query.first p rows.
Proof.
  unfold Query.first, Query.save. intros Hrows Hr'.
  induction rows as [|x rows IH]; [done|]. rewrite fmap_cons. cbn [find].
  rewrite IH by (intros y Hy; apply Hrows; by right).
  case_bool_decide as Hx; [|done].
  by rewrite Hr', (Hrows x) by (done || by left).
Qed.

Lemma save_length r rows : length (Query.save key r rows) = length rows.
Proof. unfold Query.save. by rewrite length_fmap. Qed.

Lemma first_save p rows r r' :
  Query.first p rows = Some r → key r' = key r → p r' = true →
  Query.first p (Query.save key r' rows) = Some r'.
Proof.
  unfold Query.first, Query.save. intros H Hk Hp.
  induction rows as [|x rows IH]; simpl in *; [done|].
  case_bool_decide as Hx.
  - by rewrite Hp.
  - destruct (p x) eqn:Epx; [|by apply IH].
    by simplify_eq.
Qed.

Lemma get_save i rows r r' :
  Query.get key i rows = Some r → key r' = i →
  Query.get key i (Query.save key r' rows) = Some r'.
Proof.
  intros H Hk. pose proof (get_Some _ _ _ H) as [_ Hr].
  unfold Query.get in *. eapply first_save; [done|congruence|].
  by apply bool_decide_eq_true.
Qed.

Lemma get_save_ne i rows r' :
  key r' ≠ i →
  Query.get key i (Query.save key r' rows) = Query.get key i rows.
Proof.
  unfold Query.get, Query.first, Query.save. intros Hk.
  induction rows as [|x rows IH]; [done|].
  rewrite fmap_cons. cbn [find]. rewrite IH.
  repeat case_bool_decide; congruence.
Qed.

(** A write that keeps the column [g] of every row it touches keeps the
    column. *)
Lemma save_fmap {B} (g : A → B) rows r' :
  (∀ x, x ∈ rows → key x = key r' → g x = g r') →
  g <$> Query.save key r' rows = g <$> rows.
Proof.
  unfold Query.save. intros H. rewrite <- list_fmap_compose.
  apply Forall_fmap_ext_1, list.Forall_forall. intros x Hx. cbv [compose].
  case_bool_decide; [symmetry; by apply H | done].
Qed.

Lemma save_NoDup {B} (g : A → B) rows r r' :
  NoDup (key <$> rows) → r ∈ rows → key r' = key r → g r' = g r →
  g <$> Query.save key r' rows = g <$> rows.
Proof.
  intros Hnd Hin Hk Hg. apply save_fmap. intros x Hx Hkx.
  rewrite Hg. f_equal.
  apply list_elem_of_lookup in Hx as [i Hi], Hin as [j Hj].
  assert (i = j) as ->; [|congruence].
  eapply NoDup_lookup; [exact Hnd| |]; rewrite list_lookup_fmap.
  - by rewrite Hi.
  - rewrite Hj. simpl. f_equal. congruence.
Qed.

Lemma new_id_fresh rows r : r ∈ rows → key r ≠ Query.new_id key rows.
Proof.
  intros Hin. unfold Query.new_id.
  assert (key r ≤ max_list (key <$> rows))%nat; [|lia].
  apply max_list_elem_of_le, list_elem_of_fmap. eauto.
Qed.

Lemma add_NoDup_key rows r :
  NoDup (key <$> rows) → key r = Query.new_id key rows →
  NoDup (key <$> Query.add r rows).
Proof.
  intros Hnd Hk. unfold Query.add. rewrite fmap_app. apply list.NoDup_app.
  split_and!; [done| |apply NoDup_singleton].
  intros k Hin Hk'. apply list_elem_of_fmap in Hin as (x & -> & Hx).
  apply list_elem_of_singleton in Hk'. rewrite Hk in Hk'.
  by eapply new_id_fresh.
Qed.

Lemma delete_NoDup {B} (g : A → B) p rows :
  NoDup (g <$> rows) → NoDup (g <$> Query.delete p rows).
Proof.
  unfold Query.delete. intros Hnd.
  eapply sublist_NoDup; [exact Hnd|].
  apply fmap_sublist. clear Hnd. induction rows as [|x rows IH]; [done|].
  cbn [List.filter]. destruct (negb (p x)); by constructor.
Qed.
End query.

(** ** The helpers on small inputs *)

Example strip_both_ends : Py.strip "  Anna Berg  " = "Anna Berg".
Proof. reflexivity. Qed.

Example lower_ascii : Py.lower "Anna-Karin 7" = "anna-karin 7".
Proof. reflexivity. Qed.

Example base_username_first_and_last :
  Strava.base_username (mkAthlete (Some 77%Z) "Bo Ek" "Lind" None) = "boekl".
Proof. reflexivity. Qed.

Example base_username_first_only :
  Strava.base_username (mkAthlete (Some 77%Z) "Anna" "" None) = "anna".
Proof. reflexivity. Qed.

Example base_username_short :
  Strava.base_username (mkAthlete (Some 77%Z) "A" "B" None) = "userab".
Proof. reflexivity. Qed.

Example base_username_synthetic :
  Strava.base_username (mkAthlete (Some 77%Z) "" "Lind" None) = "strava77".
Proof. reflexivity. Qed.

Example lower_latin1 :
  Py.lower (Py.chr 197 +:+ "SA " +:+ Py.chr 214 +:+ "berg" +:+ Py.chr 215)
  = Py.chr 229 +:+ "sa " +:+ Py.chr 246 +:+ "berg" +:+ Py.chr 215.
Proof. reflexivity. Qed.

Example strip_latin1_spaces :
  Py.strip (Py.chr 160 +:+ " Anna" +:+ Py.chr 133) = "Anna".
Proof. reflexivity. Qed.

Example base_username_latin1 :
  Strava.base_username Demo.asa = Py.chr 229 +:+ "sa" +:+ Py.chr 246.
Proof. reflexivity. Qed.

Example signup_short_username_latin1 :
  Auth.signup_errors empty_store (Py.chr 229 +:+ "k") "ak@example.org"
                     ("hemli" +:+ Py.chr 246) ("hemli" +:+ Py.chr 246)
  = ["Anvandarnamn maste vara minst 3 tecken."].
Proof. reflexivity. Qed.

Example signup_short_username :
  Auth.signup_errors empty_store "ab" "ab@example.org" "hemligt" "hemligt"
  = ["Anvandarnamn maste vara minst 3 tecken."].
Proof. reflexivity. Qed.

Example token_valid_until_expiry :
  let v := EmailVerificationToken.create_for_user 100 "T" 1 2 in
  EmailVerificationToken.is_valid 86499 v = true ∧
  EmailVerificationToken.is_valid 86500 v = false ∧
  EmailVerificationToken.is_valid 200 (EmailVerificationToken.mark_used 150 v) = false.
Proof. by vm_compute. Qed.

(** ** Single-use tokens *)

Section tokens.

Implicit Types (s : Store) (sess : Session) (now : Z).

Lemma email_token_mark_used_invalid now now' v :
  EmailVerificationToken.is_valid now' (EmailVerificationToken.mark_used now v) = false.
Proof. done. Qed.

Lemma oauth_state_mark_used_invalid now now' v :
  StravaOAuthState.is_valid now' (StravaOAuthState.mark_used now v) = false.
Proof. done. Qed.

Lemma email_token_invalid_iff now v :
  EmailVerificationToken.is_valid now v = false ↔
  EmailVerificationToken.used_at v ≠ None
  ∨ (EmailVerificationToken.expires_at v ≤ now)%Z.
Proof.
  unfold EmailVerificationToken.is_valid.
  rewrite andb_false_iff, !bool_decide_eq_false. split.
  - intros [?|?]; [by left | right; lia].
  - intros [?|?]; [by left | right; lia].
Qed.

Lemma oauth_state_invalid_iff now v :
  StravaOAuthState.is_valid now v = false ↔
  StravaOAuthState.used_at v ≠ None ∨ (StravaOAuthState.expires_at v ≤ now)%Z.
Proof.
  unfold StravaOAuthState.is_valid.
  rewrite andb_false_iff, !bool_decide_eq_false. split.
  - intros [?|?]; [by left | right; lia].
  - intros [?|?]; [by left | right; lia].
Qed.

(** After a successful [validate_oauth_state], the same value is refused as
    expired, whenever and for whatever purpose it is presented. *)
Lemma validate_oauth_state_once now s v p s1 row :
  Strava.validate_oauth_state now s v p = (s1, inl row) →
  ∀ now' p',
    Strava.validate_oauth_state now' s1 v p'
    = (s1, inr "State har gatt ut. Forsok igen.").
Proof.
  unfold Strava.validate_oauth_state at 1.
  destruct (Query.first _ (strava_oauth_states s)) as [st|] eqn:E; [|done].
  destruct (negb (StravaOAuthState.is_valid now st)); [done|].
  destruct (negb (bool_decide (StravaOAuthState.purpose st = p))); [done|].
  intros [= <- <-] now' p'. unfold Strava.validate_oauth_state. simpl.
  erewrite (first_save StravaOAuthState.id); [| exact E | done |].
  - by rewrite oauth_state_mark_used_invalid.
  - apply first_Some in E as [_ E]. exact E.
Qed.

(** [C2], as stated, does not hold: on [verify_email] a used link and an
    expired link are answered alike. *)
Lemma used_and_expired_not_distinguished : ¬ used_and_expired_distinguished.
Proof.
  intros H.
  apply (H 86550%Z (db Demo.verified_second) anonymous "T2" "T1"
           (EmailVerificationToken.mk 2 2 "T2" 86600 (Some 300%Z))
           (EmailVerificationToken.mk 1 2 "T1" 86500 None));
    [..|vm_compute; reflexivity]; vm_compute; done.
Qed.

End tokens.

(** ** E-mail verification *)

(** [C5].  Following a valid verification link marks the token row used at
    [now] and rewrites its owner, who was waiting for the verification, to
    [PENDING_APPROVAL] with [email_verified_at = now]; nothing else of the
    owner changes. *)
Theorem verify_email_consumes_valid_token now s sess token v u :
  Query.first (λ v, bool_decide (EmailVerificationToken.token v = token))
              (email_verification_tokens s) = Some v →
  EmailVerificationToken.is_valid now v = true →
  Query.get User.id (EmailVerificationToken.user_id v) (users s) = Some u →
  User.state u = PENDING_EMAIL_VERIFICATION →
  let r := Auth.verify_email now s sess token in
  ∃ v' u',
    Query.first (λ v, bool_decide (EmailVerificationToken.token v = token))
                (email_verification_tokens (db r)) = Some v' ∧
    EmailVerificationToken.used_at v' = Some now ∧
    Query.get User.id (EmailVerificationToken.user_id v) (users (db r)) = Some u' ∧
    User.state u' = PENDING_APPROVAL ∧
    User.email_verified_at u' = Some now ∧
    u' = User.with_email_verified_at (Some now) (User.with_state PENDING_APPROVAL u) ∧
    legal_transition (User.state u) (User.state u') = true ∧
    response r = Redirect auth_pending_approval.
Proof.
  intros E Hv Eu Hst r. subst r. unfold Auth.verify_email.
  rewrite E, Hv, Eu. cbn [negb db reply].
  exists (EmailVerificationToken.mark_used now v),
         (User.with_email_verified_at (Some now) (User.with_state PENDING_APPROVAL u)).
  split.
  { cbn [email_verification_tokens with_users with_email_verification_tokens].
    eapply (first_save EmailVerificationToken.id); [exact E|done|].
    apply first_Some in E as [_ E]. exact E. }
  split; [done|]. split.
  { cbn [users with_users].
    eapply (get_save User.id); [exact Eu|]. by apply get_Some in Eu as [_ ?]. }
  by rewrite Hst.
Qed.

Lemma verify_email_consumes_valid_token_witness :
  let s := db Demo.resent in
  let v := EmailVerificationToken.mk 1 2 "T1" 86500 None in
  let u := User.mk 2 "anna" "anna@example.org" (generate_password_hash "hemligt")
                   (Some "anna") PENDING_EMAIL_VERIFICATION USER
                   None None None None None false 100 in
  (Query.first (λ v, bool_decide (EmailVerificationToken.token v = "T1"))
               (email_verification_tokens s) = Some v ∧
   EmailVerificationToken.is_valid 300 v = true ∧
   Query.get User.id (EmailVerificationToken.user_id v) (users s) = Some u ∧
   User.state u = PENDING_EMAIL_VERIFICATION) ∧
  ∃ v' u',
    Query.first (λ v, bool_decide (EmailVerificationToken.token v = "T1"))
                (email_verification_tokens (db (Auth.verify_email 300 s anonymous "T1")))
    = Some v' ∧
    EmailVerificationToken.used_at v' = Some 300%Z ∧
    Query.get User.id (EmailVerificationToken.user_id v)
              (users (db (Auth.verify_email 300 s anonymous "T1"))) = Some u' ∧
    User.state u' = PENDING_APPROVAL ∧
    User.email_verified_at u' = Some 300%Z ∧
    u' = User.with_email_verified_at (Some 300%Z) (User.with_state PENDING_APPROVAL u) ∧
    legal_transition (User.state u) (User.state u') = true ∧
    response (Auth.verify_email 300 s anonymous "T1") = Redirect auth_pending_approval.
Proof.
  intros s v u. split.
  - vm_compute. repeat split.
  - apply (verify_email_consumes_valid_token 300 s anonymous "T1" v u);
      vm_compute; reflexivity.
Defined.

(** ** The connect flow *)

Section connect.

Implicit Types (s : Store) (sess : Session) (now : Z) (api : StravaApi).

Lemma validate_oauth_state_valid now s v p st :
  Query.first (λ x, bool_decide (StravaOAuthState.state x = v))
              (strava_oauth_states s) = Some st →
  StravaOAuthState.is_valid now st = true →
  StravaOAuthState.purpose st = p →
  Strava.validate_oauth_state now s v p
  = (with_strava_oauth_states
       (Query.save StravaOAuthState.id (StravaOAuthState.mark_used now st)
                   (strava_oauth_states s)) s,
     inl (StravaOAuthState.mark_used now st)).
Proof.
  intros E Hv Hp. unfold Strava.validate_oauth_state. rewrite E, Hv.
  cbn [negb]. by rewrite bool_decide_eq_true_2.
Qed.

(** [validate_oauth_state] writes to the table of OAuth states only. *)
Lemma validate_oauth_state_frame now s v p :
  let s1 := (Strava.validate_oauth_state now s v p).1 in
  users s1 = users s ∧ strava_tokens s1 = strava_tokens s ∧
  strava_activities s1 = strava_activities s.
Proof.
  unfold Strava.validate_oauth_state.
  destruct (Query.first _ _) as [st|]; [|done].
  destruct (negb _); [done|]. by destruct (negb _).
Qed.

(** [C10].  In the connect callback a valid connect state presented by a
    member who does not own it is refused with the owner message and no link
    row changes; yet the state row is marked used, so that any later callback
    with the same value, by anyone, is refused as expired. *)
Theorem callback_consumes_state_before_owner_check
    now api s sess cu error state_value code v st :
  current_user s sess = Some cu →
  Strava.arg error = None →
  Strava.arg state_value = Some v →
  Query.first (λ x, bool_decide (StravaOAuthState.state x = v))
              (strava_oauth_states s) = Some st →
  StravaOAuthState.is_valid now st = true →
  StravaOAuthState.purpose st = connect_purpose →
  StravaOAuthState.user_id st ≠ Some (User.id cu) →
  let r := Strava.callback now api s sess error state_value code in
  flashed r = [("Ogiltig state for denna anvandare.", "error")] ∧
  strava_tokens (db r) = strava_tokens s ∧
  Query.first (λ x, bool_decide (StravaOAuthState.state x = v))
              (strava_oauth_states (db r))
  = Some (StravaOAuthState.mark_used now st) ∧
  ∀ now' api' sess' cu' code',
    current_user (db r) sess' = Some cu' →
    let r' := Strava.callback now' api' (db r) sess' error state_value code' in
    flashed r' = [("State har gatt ut. Forsok igen.", "error")] ∧ db r' = db r.
Proof.
  intros Hcu Herr Hsv E Hv Hp Hown r.
  pose proof (validate_oauth_state_valid _ _ _ _ _ E Hv Hp) as Hval.
  assert (db r = (Strava.validate_oauth_state now s v connect_purpose).1
          ∧ flashed r = [("Ogiltig state for denna anvandare.", "error")])
    as [Hdb Hfl].
  { subst r. unfold Strava.callback, login_required.
    rewrite Hcu, Herr, Hsv, Hval. cbn [StravaOAuthState.user_id
      StravaOAuthState.mark_used]. by rewrite bool_decide_eq_false_2. }
  split; [done|]. rewrite Hdb, Hval. cbn [fst].
  split; [done|]. split.
  { cbn [strava_oauth_states with_strava_oauth_states].
    eapply (first_save StravaOAuthState.id); [exact E|done|].
    apply first_Some in E as [_ E]. exact E. }
  intros now' api' sess' cu' code' Hcu'. cbv zeta.
  pose proof (validate_oauth_state_once _ _ _ _ _ _ Hval now' connect_purpose)
    as Honce.
  unfold Strava.callback, login_required.
  by rewrite Hcu', Herr, Hsv, Honce.
Qed.

Lemma callback_consumes_state_before_owner_check_witness :
  let s := db Demo.connecting in
  let st := StravaOAuthState.mk 1 "S1" (Some 2) connect_purpose 1100 None in
  let r := Strava.callback 510 Demo.api s Demo.admin_session None (Some "S1")
                           (Some "code") in
  (current_user s Demo.admin_session = Some Demo.klubban ∧
   Query.first (λ x, bool_decide (StravaOAuthState.state x = "S1"))
               (strava_oauth_states s) = Some st ∧
   StravaOAuthState.is_valid 510 st = true ∧
   StravaOAuthState.purpose st = connect_purpose ∧
   StravaOAuthState.user_id st ≠ Some (User.id Demo.klubban)) ∧
  flashed r = [("Ogiltig state for denna anvandare.", "error")] ∧
  strava_tokens (db r) = strava_tokens s ∧
  Query.first (λ x, bool_decide (StravaOAuthState.state x = "S1"))
              (strava_oauth_states (db r))
  = Some (StravaOAuthState.mark_used 510 st) ∧
  ∀ now' api' sess' cu' code',
    current_user (db r) sess' = Some cu' →
    let r' := Strava.callback now' api' (db r) sess' None (Some "S1") code' in
    flashed r' = [("State har gatt ut. Forsok igen.", "error")] ∧ db r' = db r.
Proof.
  intros s st r. split.
  - vm_compute. repeat split. discriminate.
  - apply (callback_consumes_state_before_owner_check 510 Demo.api s
             Demo.admin_session Demo.klubban None (Some "S1") (Some "code")
             "S1" st); vm_compute; (reflexivity || discriminate).
Defined.

End connect.

(** ** One link per athlete *)

Section links.

Implicit Types (s : Store) (sess : Session) (now : Z) (api : StravaApi)
  (k : StravaToken.t).

Lemma links_unique_tokens s s' :
  strava_tokens s' = strava_tokens s → links_unique s → links_unique s'.
Proof. unfold links_unique. by intros ->. Qed.

(** Two link rows for the same athlete are the same row. *)
Lemma links_unique_inj s k1 k2 :
  links_unique s → k1 ∈ strava_tokens s → k2 ∈ strava_tokens s →
  StravaToken.strava_athlete_id k1 = StravaToken.strava_athlete_id k2 → k1 = k2.
Proof.
  intros [_ Hnd] H1 H2 Ha.
  apply list_elem_of_lookup in H1 as [i Hi], H2 as [j Hj].
  assert (i = j) as ->; [|congruence].
  eapply NoDup_lookup; [exact Hnd| |]; rewrite list_lookup_fmap.
  - by rewrite Hi.
  - rewrite Hj. simpl. by rewrite Ha.
Qed.

Lemma save_tokens_unique s s' k a r e :
  links_unique s → k ∈ strava_tokens s →
  strava_tokens s'
  = Query.save StravaToken.id (StravaToken.with_tokens a r e k) (strava_tokens s) →
  links_unique s'.
Proof.
  intros [Hid Hath] Hin Heq. unfold links_unique. rewrite Heq. split.
  - by erewrite (save_NoDup StravaToken.id StravaToken.id).
  - by erewrite (save_NoDup StravaToken.id StravaToken.strava_athlete_id).
Qed.

Lemma add_strava_token_tokens uid a data s s' :
  Strava.add_strava_token uid a data s = Some s' →
  users s' = users s ∧
  ∃ k, strava_tokens s' = strava_tokens s ++ [k] ∧
       StravaToken.id k = Query.new_id StravaToken.id (strava_tokens s) ∧
       StravaToken.user_id k = uid ∧ StravaToken.strava_athlete_id k = a ∧
       ∀ x, x ∈ strava_tokens s →
            StravaToken.user_id x ≠ uid ∧ StravaToken.strava_athlete_id x ≠ a.
Proof.
  unfold Strava.add_strava_token.
  destruct (Query.first _ _) eqn:E; [done|]. intros [= <-].
  split; [done|]. eexists. split_and!; try reflexivity.
  intros x Hx. pose proof (first_None _ _ _ E Hx) as Hf.
  apply orb_false_iff in Hf as [H1 H2].
  by apply bool_decide_eq_false in H1, H2.
Qed.

Lemma add_strava_token_unique uid a data s s' :
  Strava.add_strava_token uid a data s = Some s' →
  links_unique s → links_unique s'.
Proof.
  intros H [Hid Hath].
  apply add_strava_token_tokens in H as (_ & k & Htok & Hk & _ & Ha & Hfresh).
  unfold links_unique. rewrite Htok. split.
  - by apply (add_NoDup_key StravaToken.id).
  - rewrite fmap_app. apply list.NoDup_app. split_and!; [done| |apply NoDup_singleton].
    intros b Hin Hb. apply list_elem_of_fmap in Hin as (x & -> & Hx).
    apply list_elem_of_singleton in Hb. destruct (Hfresh x Hx) as [_ Hne]. congruence.
Qed.

Lemma add_verification_token_frame now secret uid s s' :
  Auth.add_verification_token now secret uid s = Some s' →
  users s' = users s ∧ strava_tokens s' = strava_tokens s ∧
  strava_oauth_states s' = strava_oauth_states s.
Proof.
  unfold Auth.add_verification_token. destruct (Query.first _ _); [done|].
  by intros [= <-].
Qed.

Lemma create_oauth_state_frame now secret p uid s s' v :
  Strava.create_oauth_state now secret p uid s = Some (s', v) →
  users s' = users s ∧ strava_tokens s' = strava_tokens s.
Proof.
  unfold Strava.create_oauth_state. destruct (Query.first _ _); [done|].
  by intros [= <- <-].
Qed.

Lemma add_user_frame u s s' :
  Strava.add_user u s = Some s' →
  users s' = users s ++ [u] ∧ strava_tokens s' = strava_tokens s ∧
  ∀ x, x ∈ users s →
       User.username x ≠ User.username u ∧ User.email x ≠ User.email u.
Proof.
  unfold Strava.add_user. destruct (Query.first _ _) eqn:E; [done|].
  intros [= <-]. split_and!; try done.
  intros x Hx. pose proof (first_None _ _ _ E Hx) as Hf.
  apply orb_false_iff in Hf as [H1 H2].
  by apply bool_decide_eq_false in H1, H2.
Qed.

Lemma strava_token_of_elem s u k :
  Strava.strava_token_of s u = Some k →
  k ∈ strava_tokens s ∧ StravaToken.user_id k = User.id u.
Proof.
  intros H. apply first_Some in H as [? H].
  by apply bool_decide_eq_true in H.
Qed.

Lemma login_callback_links_unique now api secret s sess e v c :
  links_unique s →
  links_unique (db (Strava.login_callback now api secret s sess e v c)).
Proof.
  intros Hs. unfold Strava.login_callback.
  destruct (Strava.arg e); [done|]. destruct (Strava.arg v) as [sv|]; [|done].
  pose proof (validate_oauth_state_frame now s sv login_purpose) as (_ & Htok & _).
  destruct (Strava.validate_oauth_state now s sv login_purpose) as [s1 [st|msg]];
    cbn [fst] in Htok; pose proof (links_unique_tokens _ _ Htok Hs) as Hs1;
    [|done].
  destruct (Strava.arg c); [|done].
  destruct (Strava.exchange_code_for_token _ _) as [td|]; [|done].
  destruct (athlete_id (athlete td)) as [a|]; [|done].
  case_bool_decide; [done|].
  destruct (Query.first _ (strava_tokens s1)) as [k|] eqn:Ek.
  - destruct (Query.get _ _ _) as [u|]; [|done].
    destruct (negb _); [by repeat case_bool_decide|].
    cbn [db reply]. eapply save_tokens_unique; [exact Hs1| |done].
    by apply first_Some in Ek as [? _].
  - destruct (Strava.generate_username_from_strava _ _); [|done].
    destruct (Strava.add_user _ s1) as [sa|] eqn:E2; [|done].
    destruct (Strava.add_strava_token _ _ _ sa) as [sb|] eqn:E3; [|done].
    cbn [db]. eapply add_strava_token_unique; [exact E3|].
    apply add_user_frame in E2 as (_ & Ht & _).
    by eapply links_unique_tokens.
Qed.

Lemma callback_links_unique now api s sess e v c :
  links_unique s → links_unique (db (Strava.callback now api s sess e v c)).
Proof.
  intros Hs. unfold Strava.callback, login_required.
  destruct (current_user s sess) as [cu|]; [|done].
  destruct (Strava.arg e); [done|]. destruct (Strava.arg v) as [sv|]; [|done].
  pose proof (validate_oauth_state_frame now s sv connect_purpose) as (_ & Htok & _).
  destruct (Strava.validate_oauth_state now s sv connect_purpose) as [s1 [st|msg]];
    cbn [fst] in Htok; pose proof (links_unique_tokens _ _ Htok Hs) as Hs1;
    [|done].
  destruct (negb _); [done|].
  destruct (Strava.arg c); [|done].
  destruct (Strava.exchange_code_for_token _ _) as [td|]; [|done].
  match goal with |- context [if ?b then _ else _] => destruct b end; [done|].
  destruct (Strava.strava_token_of s1 cu) as [k|] eqn:Ek.
  - cbn [db reply]. eapply save_tokens_unique; [exact Hs1| |done].
    by apply strava_token_of_elem in Ek as [? _].
  - destruct (athlete_id (athlete td)) as [a|]; [|done].
    destruct (Strava.add_strava_token _ _ _ s1) as [sa|] eqn:E2; [|done].
    cbn [db reply]. by eapply add_strava_token_unique.
Qed.

Lemma disconnect_links_unique s sess :
  links_unique s → links_unique (db (Strava.disconnect s sess)).
Proof.
  intros [Hid Hath]. unfold Strava.disconnect, login_required.
  destruct (current_user s sess) as [cu|]; [|done].
  destruct (Strava.strava_token_of s cu); [|done].
  cbn [db reply]. split; cbn [strava_tokens with_strava_tokens];
    by apply delete_NoDup.
Qed.

Lemma get_valid_token_links_unique now api s k :
  links_unique s → k ∈ strava_tokens s →
  let s1 := (Strava.get_valid_token now api s k).1 in
  links_unique s1 ∧ users s1 = users s.
Proof.
  intros Hs Hk. unfold Strava.get_valid_token, Strava.refresh_access_token.
  destruct (StravaToken.is_expired now k); [|done].
  destruct (api_token_refresh api _); [|done].
  cbn [fst]. split; [|done]. by eapply save_tokens_unique.
Qed.

Lemma sync_links_unique fuel now api s sess :
  links_unique s → links_unique (db (Strava.sync fuel now api s sess)).
Proof.
  intros Hs. unfold Strava.sync, login_required.
  destruct (current_user s sess) as [cu|]; [|done].
  destruct (Strava.strava_token_of s cu) as [k|] eqn:Ek; [|done].
  destruct (negb _); [done|].
  apply strava_token_of_elem in Ek as [Hk _].
  pose proof (get_valid_token_links_unique now api s k Hs Hk) as [Hs1 _].
  destruct (Strava.get_valid_token now api s k) as [s1 [tok|]]; [|done].
  cbn [fst] in Hs1. destruct (negb _); [done|].
  by destruct (Strava.sync_loop _ _ _ _ _ _ _ _).
Qed.

(** The handlers of [auth.py] and [admin.py] and the two flow starters do
    not write to [strava_tokens]. *)
Lemma other_handlers_keep_tokens now api req s sess :
  match req with
  | StravaLoginCallback _ _ _ _ | StravaCallback _ _ _ | StravaDisconnect
  | StravaSync _ => True
  | _ => strava_tokens (db (handle now api req s sess)) = strava_tokens s
  end.
Proof.
  destruct req; try done; cbn [handle].
  - unfold Auth.login. repeat case_match; done.
  - unfold Auth.signup. repeat case_match; try done.
    cbn [db reply].
    match goal with H : Auth.add_verification_token _ _ _ _ = Some _ |- _ =>
      apply add_verification_token_frame in H as (_ & -> & _) end. done.
  - unfold Auth.verify_email. repeat case_match; done.
  - unfold Auth.resend_verification. repeat case_match; try done;
      cbn [db reply];
      match goal with H : Auth.add_verification_token _ _ _ _ = Some _ |- _ =>
        apply add_verification_token_frame in H as (_ & -> & _) end; done.
  - unfold Auth.logout, login_required. repeat case_match; done.
  - unfold Admin.approve_user, Admin.admin_required, login_required.
    repeat case_match; done.
  - unfold Admin.reject_user, Admin.admin_required, login_required.
    repeat case_match; done.
  - unfold Admin.members_suspend, Admin.admin_required, login_required.
    repeat case_match; done.
  - unfold Admin.members_reactivate, Admin.admin_required, login_required.
    repeat case_match; done.
  - unfold Strava.strava_login. repeat case_match; try done; cbn [db reply].
    match goal with H : Strava.create_oauth_state _ _ _ _ _ = Some _ |- _ =>
      apply create_oauth_state_frame in H as (_ & ->) end. done.
  - unfold Strava.connect, login_required. repeat case_match; try done;
      cbn [db reply].
    match goal with H : Strava.create_oauth_state _ _ _ _ _ = Some _ |- _ =>
      apply create_oauth_state_frame in H as (_ & ->) end. done.
Qed.

Lemma handle_links_unique now api req s sess :
  links_unique s → links_unique (db (handle now api req s sess)).
Proof.
  intros Hs. pose proof (other_handlers_keep_tokens now api req s sess) as H.
  destruct req; try (by eapply links_unique_tokens); cbn [handle].
  - by apply login_callback_links_unique.
  - by apply callback_links_unique.
  - by apply disconnect_links_unique.
  - by apply sync_links_unique.
Qed.

Lemma reachable_links_unique init s :
  links_unique init → reachable init s → links_unique s.
Proof. induction 2; [done|]. by apply handle_links_unique. Qed.

(** [C3].  In every database the application reaches from one whose links
    are unique, two link rows for the same athlete are one row, and so belong
    to one user.  There, a connect callback that gets as far as the exchange
    and learns an athlete already linked to another member answers with the
    "already linked" error and leaves the table of links as it was. *)
Theorem athlete_linked_to_one_user init s :
  links_unique init → reachable init s →
  (∀ k1 k2,
     k1 ∈ strava_tokens s → k2 ∈ strava_tokens s →
     StravaToken.strava_athlete_id k1 = StravaToken.strava_athlete_id k2 →
     k1 = k2 ∧ StravaToken.user_id k1 = StravaToken.user_id k2) ∧
  (∀ now api sess cu error state_value code v st c token_data a k,
     current_user s sess = Some cu →
     Strava.arg error = None →
     Strava.arg state_value = Some v →
     Query.first (λ x, bool_decide (StravaOAuthState.state x = v))
                 (strava_oauth_states s) = Some st →
     StravaOAuthState.is_valid now st = true →
     StravaOAuthState.purpose st = connect_purpose →
     StravaOAuthState.user_id st = Some (User.id cu) →
     Strava.arg code = Some c →
     Strava.exchange_code_for_token api c = Some token_data →
     athlete_id (athlete token_data) = Some a →
     k ∈ strava_tokens s →
     StravaToken.strava_athlete_id k = a →
     StravaToken.user_id k ≠ User.id cu →
     let r := Strava.callback now api s sess error state_value code in
     visible r
     = ([("Detta Strava-konto ar redan kopplat till en annan anvandare.", "error")],
        Redirect (profile_view (User.username cu))) ∧
     strava_tokens (db r) = strava_tokens s).
Proof.
  intros Hinit Hreach.
  pose proof (reachable_links_unique _ _ Hinit Hreach) as Hs. split.
  - intros k1 k2 H1 H2 Ha.
    assert (k1 = k2) as -> by by eapply links_unique_inj. done.
  - intros now api sess cu error state_value code v st c token_data a k
      Hcu Herr Hsv E Hv Hp Hown Hc Hex Ha Hk Hka Hku r.
    pose proof (validate_oauth_state_valid _ _ _ _ _ E Hv Hp) as Hval.
    subst r. unfold Strava.callback, login_required.
    rewrite Hcu, Herr, Hsv, Hval.
    cbn [StravaOAuthState.user_id StravaOAuthState.mark_used].
    rewrite bool_decide_eq_true_2 by done. cbn [negb].
    rewrite Hc, Hex, Ha. cbn [strava_tokens with_strava_oauth_states].
    destruct (Query.first _ (strava_tokens s)) as [k'|] eqn:Ek.
    + apply first_Some in Ek as [Hk' Hk'a]. apply bool_decide_eq_true in Hk'a.
      assert (k' = k) as -> by (eapply links_unique_inj; [done..|congruence]).
      by rewrite bool_decide_eq_false_2.
    + pose proof (first_None _ _ _ Ek Hk) as Hf.
      apply bool_decide_eq_false in Hf. done.
Qed.

Lemma demo_reachable : reachable Demo.start (db Demo.admin_connecting).
Proof. unfold Demo.admin_connecting. do 7 apply reachable_request. apply reachable_init. Defined.

Lemma athlete_linked_to_one_user_witness :
  let s := db Demo.admin_connecting in
  let k := StravaToken.mk 1 2 77 "access" "refresh" 99999 in
  let st := StravaOAuthState.mk 2 "S2" (Some 1) connect_purpose 1200 None in
  let r := Strava.callback 610 Demo.api s Demo.admin_session None (Some "S2")
                           (Some "code") in
  (links_unique Demo.start ∧ reachable Demo.start s) ∧
  (k ∈ strava_tokens s ∧
   current_user s Demo.admin_session = Some Demo.klubban ∧
   Query.first (λ x, bool_decide (StravaOAuthState.state x = "S2"))
               (strava_oauth_states s) = Some st ∧
   StravaOAuthState.is_valid 610 st = true ∧
   StravaToken.user_id k ≠ User.id Demo.klubban) ∧
  (k = k ∧ StravaToken.user_id k = StravaToken.user_id k) ∧
  visible r
  = ([("Detta Strava-konto ar redan kopplat till en annan anvandare.", "error")],
     Redirect (profile_view "klubban")) ∧
  strava_tokens (db r) = strava_tokens s.
Proof.
  intros s k st r.
  assert (links_unique Demo.start) as Hinit by (split; constructor).
  assert (k ∈ strava_tokens s) as Hk by (vm_compute; constructor).
  destruct (athlete_linked_to_one_user Demo.start s Hinit demo_reachable)
    as [Hone Hrej].
  split; [split; [exact Hinit|exact demo_reachable]|].
  split; [vm_compute; repeat split; (assumption || discriminate)|].
  split; [exact (Hone k k Hk Hk eq_refl)|].
  apply (Hrej 610%Z Demo.api Demo.admin_session Demo.klubban None (Some "S2")
              (Some "code") "S2" st "code"
              (mkTokenData Demo.anna_athlete "access" "refresh" 99999) 77%Z k);
    try exact Hk; vm_compute; (reflexivity || discriminate).
Defined.

End links.

(** ** Accounts created from a Strava login *)

Section usernames.

Implicit Types (s : Store) (base : string) (i j fuel : nat).

Lemma pretty_N_go_nonempty (x : N) (t : string) :
  t ≠ "" → pretty_N_go x t ≠ "".
Proof.
  revert t. induction (N.lt_wf_0 x) as [x _ IH]. intros t Ht.
  destruct (decide (x = 0)%N) as [->|Hx].
  - by rewrite pretty_N_go_0.
  - rewrite pretty_N_go_step by lia. apply IH; [|done].
    apply N.div_lt; lia.
Qed.

Lemma pretty_nat_nonempty (n : nat) : pretty n ≠ "".
Proof.
  unfold pretty, pretty_nat, pretty, pretty_N.
  case_decide; [done|].
  rewrite pretty_N_go_step by lia. by apply pretty_N_go_nonempty.
Qed.

Lemma append_empty_r (a b : string) : a +:+ b = a → b = "".
Proof.
  induction a as [|c a IH]; simpl; [done|]. intros [= H]. by apply IH.
Qed.

Lemma candidate_inj base : Inj (=) (=) (candidate base).
Proof.
  intros [|i] [|j] H; simpl in H; [done| | |].
  - symmetry in H. apply append_empty_r in H. by apply pretty_nat_nonempty in H.
  - apply append_empty_r in H. by apply pretty_nat_nonempty in H.
  - apply (inj (String.append base)) in H. by apply (inj pretty) in H.
Qed.

Lemma username_taken_elem s name :
  Strava.username_taken s name = true → name ∈ User.username <$> users s.
Proof.
  unfold Strava.username_taken. intros H. apply bool_decide_eq_true in H as [u Hu].
  apply first_Some in Hu as [Hin Hu]. apply bool_decide_eq_true in Hu.
  apply list_elem_of_fmap. eauto.
Qed.

Lemma username_free_elem s name :
  Strava.username_taken s name = false →
  ∀ u, u ∈ users s → User.username u ≠ name.
Proof.
  unfold Strava.username_taken. intros H u Hu Hname.
  apply bool_decide_eq_false in H. apply H.
  eapply first_is_Some; [exact Hu|]. by apply bool_decide_eq_true.
Qed.

(** Among the first [length (users s) + 1] names tried, one is free. *)
Lemma candidate_free_exists s base :
  ∃ j, j < S (length (users s)) ∧
       Strava.username_taken s (candidate base j) = false.
Proof.
  set (n := length (users s)).
  destruct (decide (Forall (λ j, Strava.username_taken s (candidate base j) = true)
                           (seq 0 (S n)))) as [Hall|Hex].
  - exfalso.
    assert (length (candidate base <$> seq 0 (S n))
            ≤ length (User.username <$> users s)) as Hlen.
    { apply submseteq_length, NoDup_submseteq.
      - apply NoDup_fmap_2; [apply candidate_inj | apply NoDup_seq].
      - intros name Hin. apply list_elem_of_fmap in Hin as (j & -> & Hj).
        apply username_taken_elem.
        rewrite list.Forall_forall in Hall. by apply Hall. }
    rewrite !length_fmap, length_seq in Hlen. lia.
  - apply not_Forall_Exists in Hex; [|apply _].
    apply list.Exists_exists in Hex as (j & Hj & Hfree).
    apply elem_of_seq in Hj. exists j. split; [lia|].
    cbv [compose] in Hfree. by destruct (Strava.username_taken _ _).
Qed.

(** Given enough tests, the loop stops at the first free name. *)
Lemma username_loop_finds fuel s base i :
  (∃ j, j < fuel ∧ Strava.username_taken s (candidate base (i + j)) = false) →
  ∃ j, j < fuel ∧
       Strava.username_loop fuel s base (candidate base i) (S i)
       = Some (candidate base (i + j)) ∧
       Strava.username_taken s (candidate base (i + j)) = false ∧
       ∀ j', j' < j → Strava.username_taken s (candidate base (i + j')) = true.
Proof.
  revert i. induction fuel as [|fuel IH]; intros i (j & Hj & Hfree); [lia|].
  cbn [Strava.username_loop].
  destruct (Strava.username_taken s (candidate base i)) eqn:Hi.
  - destruct j as [|j]; [rewrite Nat.add_0_r in Hfree; congruence|].
    destruct (IH (S i)) as (j1 & Hj1 & Hloop & Hfree1 & Hmin).
    { exists j. split; [lia|]. by replace (S i + j) with (i + S j) by lia. }
    exists (S j1). replace (i + S j1) with (S i + j1) by lia.
    split_and!; [lia|exact Hloop|exact Hfree1|].
    intros [|j'] Hlt; [by rewrite Nat.add_0_r|].
    replace (i + S j') with (S i + j') by lia. apply Hmin. lia.
  - exists 0. rewrite Nat.add_0_r. split_and!; [lia|done|done|lia].
Qed.

(** [generate_username_from_strava] returns: the name it yields is the first
    free one among the base name and its numbered variants. *)
Lemma generate_username_from_strava_total s athlete :
  ∃ j, Strava.generate_username_from_strava s athlete
       = Some (candidate (Strava.base_username athlete) j) ∧
       Strava.username_taken s (candidate (Strava.base_username athlete) j) = false ∧
       ∀ j', j' < j →
             Strava.username_taken s (candidate (Strava.base_username athlete) j')
             = true.
Proof.
  destruct (username_loop_finds (S (length (users s))) s
              (Strava.base_username athlete) 0) as (j & _ & Hloop & Hfree & Hmin).
  { apply candidate_free_exists. }
  exists j. by split_and!.
Qed.

End usernames.

Section origination.

Implicit Types (s : Store) (sess : Session) (now : Z) (api : StravaApi).

Lemma first_None_intro {A} (p : A → bool) (rows : list A) :
  (∀ r, r ∈ rows → p r = false) → Query.first p rows = None.
Proof.
  intros H. destruct (Query.first p rows) as [r|] eqn:E; [|done].
  apply first_Some in E as [Hin Hp]. by rewrite (H r Hin) in Hp.
Qed.

Lemma length_append (a b : string) :
  String.length (a +:+ b) = String.length a + String.length b.
Proof. induction a as [|c a IH]; [done|]. simpl. by rewrite IH. Qed.

(** The base name has at least three characters. *)
Lemma base_username_length athlete : 3 ≤ String.length (Strava.base_username athlete).
Proof.
  unfold Strava.base_username. case_bool_decide as H; [|lia].
  rewrite length_append. cbn. lia.
Qed.

(** Without a first name the base name is the synthetic one. *)
Lemma base_username_fallback athlete a :
  athlete_id athlete = Some a →
  Py.remove_spaces (Py.lower (firstname athlete)) = "" →
  Strava.base_username athlete = "strava" +:+ pretty a.
Proof. unfold Strava.base_username. by intros -> ->. Qed.

(** The origination where it works.  A login callback that passes the state
    check, gets a token answer for its code and learns a non-zero athlete id
    that no link row carries inserts one user, provided the address
    [strava_<id>@strava.local] is not registered: in [PENDING_APPROVAL], with
    [email_verified_at = now], with the hash of the drawn secret as password,
    and named by the first free name among the base name and the base name
    followed by 1, 2, ...; it inserts the link row of that user, hands the
    pending-approval notice for that user to the mail service, and opens no
    session.  The base name has at least three characters; it is the first
    name and the initial of the last name in small letters without spaces,
    or the first name alone, each behind ["user"] when shorter than three,
    or ["strava"] and the athlete id when there is no first name. *)
Theorem login_callback_originates_user
    now api secret s sess error state_value code v st c token_data a :
  Strava.arg error = None →
  Strava.arg state_value = Some v →
  Query.first (λ x, bool_decide (StravaOAuthState.state x = v))
              (strava_oauth_states s) = Some st →
  StravaOAuthState.is_valid now st = true →
  StravaOAuthState.purpose st = login_purpose →
  Strava.arg code = Some c →
  Strava.exchange_code_for_token api c = Some token_data →
  athlete_id (athlete token_data) = Some a →
  a ≠ 0%Z →
  Query.first (λ k, bool_decide (StravaToken.strava_athlete_id k = a))
              (strava_tokens s) = None →
  Query.first (λ u, bool_decide (User.email u
                                 = "strava_" +:+ pretty a +:+ "@strava.local"))
              (users s) = None →
  Forall (λ k, StravaToken.user_id k ∈ User.id <$> users s) (strava_tokens s) →
  let r := Strava.login_callback now api secret s sess error state_value code in
  let base := Strava.base_username (athlete token_data) in
  ∃ j user link,
    users (db r) = users s ++ [user] ∧
    strava_tokens (db r) = strava_tokens s ++ [link] ∧
    mails r = [pending_approval_to_admins (User.id user)] ∧
    response r = Redirect auth_pending_approval ∧
    session r = sess ∧
    User.state user = PENDING_APPROVAL ∧
    User.email_verified_at user = Some now ∧
    User.password_hash user = generate_password_hash secret ∧
    (∀ p, User.check_password user p = true ↔ p = secret) ∧
    User.username user = candidate base j ∧
    (∀ j', j' < j → Strava.username_taken s (candidate base j') = true) ∧
    (∀ u, u ∈ users s →
          User.username u ≠ User.username user ∧ User.id u ≠ User.id user) ∧
    (Py.remove_spaces (Py.lower (firstname (athlete token_data))) = "" →
     base = "strava" +:+ pretty a) ∧
    (3 ≤ String.length base ∧
     let first := Py.remove_spaces (Py.lower (firstname (athlete token_data))) in
     let last := Py.remove_spaces (Py.lower (lastname (athlete token_data))) in
     first ≠ "" →
     let name := if Py.truthy last then first +:+ Py.head_str last else first in
     base = if bool_decide (String.length name < 3) then "user" +:+ name
            else name) ∧
    User.email user = "strava_" +:+ pretty a +:+ "@strava.local" ∧
    User.last_seen user = now ∧
    StravaToken.user_id link = User.id user ∧
    StravaToken.strava_athlete_id link = a.
Proof.
  intros Herr Hsv E Hv Hp Hc Hex Ha Ha0 Hnolink Hmail Hfk r base.
  pose proof (validate_oauth_state_valid _ _ _ _ _ E Hv Hp) as Hval.
  set (s1 := with_strava_oauth_states
               (Query.save StravaOAuthState.id (StravaOAuthState.mark_used now st)
                           (strava_oauth_states s)) s) in *.
  destruct (generate_username_from_strava_total s1 (athlete token_data))
    as (j & Hgen & Hfree & Hmin).
  fold base in Hgen, Hfree, Hmin.
  set (user := User.mk (Query.new_id User.id (users s1)) (candidate base j)
                 ("strava_" +:+ pretty a +:+ "@strava.local")
                 (generate_password_hash secret)
                 (Some (Py.or_str
                          (Py.strip (firstname (athlete token_data) +:+ " "
                                     +:+ lastname (athlete token_data)))
                          (candidate base j)))
                 PENDING_APPROVAL USER (Some now) None None None None false
                 now).
  assert (Strava.add_user user s1 = Some (with_users (users s ++ [user]) s1))
    as Hadd.
  { unfold Strava.add_user. rewrite first_None_intro; [done|].
    intros x Hx. apply orb_false_iff. split; apply bool_decide_eq_false.
    - by apply (username_free_elem s1).
    - pose proof (first_None _ _ _ Hmail Hx) as Hf.
      by apply bool_decide_eq_false in Hf. }
  set (link := StravaToken.mk (Query.new_id StravaToken.id (strava_tokens s))
                 (User.id user) a (td_access_token token_data)
                 (td_refresh_token token_data) (td_expires_at token_data)).
  assert (Strava.add_strava_token (User.id user) a token_data
            (with_users (users s ++ [user]) s1)
          = Some (with_strava_tokens (strava_tokens s ++ [link])
                    (with_users (users s ++ [user]) s1))) as Hlink.
  { unfold Strava.add_strava_token. rewrite first_None_intro; [done|].
    intros k Hk. cbn [strava_tokens with_users] in Hk.
    apply orb_false_iff. split; apply bool_decide_eq_false.
    - intros Hid. rewrite list.Forall_forall in Hfk.
      apply Hfk, list_elem_of_fmap in Hk as (u & Hku & Hu).
      apply (new_id_fresh User.id) in Hu. unfold user in Hid.
      cbn [User.id] in Hid. change (users s1) with (users s) in Hid. congruence.
    - pose proof (first_None _ _ _ Hnolink Hk) as Hf.
      by apply bool_decide_eq_false in Hf. }
  assert (r = mkResult (with_strava_tokens (strava_tokens s ++ [link])
                          (with_users (users s ++ [user]) s1))
                sess
                [("Konto skapat! Ditt konto vantar nu pa godkannande.", "success")]
                [pending_approval_to_admins (User.id user)]
                (Redirect auth_pending_approval)) as ->.
  { subst r. unfold Strava.login_callback.
    rewrite Herr, Hsv, Hval, Hc, Hex, Ha. fold s1.
    rewrite bool_decide_eq_false_2 by done.
    change (strava_tokens s1) with (strava_tokens s). rewrite Hnolink, Hgen.
    fold base. fold user. by rewrite Hadd, Hlink. }
  exists j, user, link. split_and!; try done.
  - intros p. cbn. by rewrite bool_decide_eq_true.
  - intros u Hu. split.
    + by apply (username_free_elem s1).
    + by apply (new_id_fresh User.id).
  - by apply base_username_fallback.
  - apply base_username_length.
  - intros first last Hfirst name. subst base name first last.
    unfold Strava.base_username, Py.truthy.
    rewrite (bool_decide_eq_false_2 (_ = "")) by done. cbn [negb andb].
    by destruct (negb _).
Qed.

Lemma login_callback_originates_user_witness :
  let s := db Demo.strava_login_started in
  let st := StravaOAuthState.mk 2 "S3" None login_purpose 1300 None in
  let token_data := mkTokenData Demo.newcomer "access88" "refresh88" 99999 in
  (Query.first (λ x, bool_decide (StravaOAuthState.state x = "S3"))
               (strava_oauth_states s) = Some st ∧
   StravaOAuthState.is_valid 710 st = true ∧
   Query.first (λ k, bool_decide (StravaToken.strava_athlete_id k = 88%Z))
               (strava_tokens s) = None ∧
   Query.first (λ u, bool_decide (User.email u = "strava_88@strava.local"))
               (users s) = None ∧
   Forall (λ k, StravaToken.user_id k ∈ User.id <$> users s) (strava_tokens s)) ∧
  User.username <$> users (db Demo.strava_originated) = ["klubban"; "anna"; "anna1"] ∧
  ∃ j user link,
    users (db Demo.strava_originated) = users s ++ [user] ∧
    strava_tokens (db Demo.strava_originated) = strava_tokens s ++ [link] ∧
    mails Demo.strava_originated = [pending_approval_to_admins (User.id user)] ∧
    response Demo.strava_originated = Redirect auth_pending_approval ∧
    session Demo.strava_originated = anonymous ∧
    User.state user = PENDING_APPROVAL ∧
    User.email_verified_at user = Some 710%Z ∧
    User.password_hash user = generate_password_hash "drawn-secret" ∧
    (∀ p, User.check_password user p = true ↔ p = "drawn-secret") ∧
    User.username user = candidate (Strava.base_username Demo.newcomer) j ∧
    (∀ j', j' < j →
           Strava.username_taken s (candidate (Strava.base_username Demo.newcomer) j')
           = true) ∧
    (∀ u, u ∈ users s →
          User.username u ≠ User.username user ∧ User.id u ≠ User.id user) ∧
    (Py.remove_spaces (Py.lower (firstname Demo.newcomer)) = "" →
     Strava.base_username Demo.newcomer = "strava" +:+ pretty 88%Z) ∧
    (3 ≤ String.length (Strava.base_username Demo.newcomer) ∧
     let first := Py.remove_spaces (Py.lower (firstname Demo.newcomer)) in
     let last := Py.remove_spaces (Py.lower (lastname Demo.newcomer)) in
     first ≠ "" →
     let name := if Py.truthy last then first +:+ Py.head_str last else first in
     Strava.base_username Demo.newcomer
     = if bool_decide (String.length name < 3) then "user" +:+ name else name) ∧
    User.email user = "strava_" +:+ pretty 88%Z +:+ "@strava.local" ∧
    User.last_seen user = 710%Z ∧
    StravaToken.user_id link = User.id user ∧
    StravaToken.strava_athlete_id link = 88%Z.
Proof.
  intros s st token_data. split; [|split; [vm_compute; reflexivity|]].
  - vm_compute. repeat split. repeat constructor.
  - apply (login_callback_originates_user 710 Demo.api_newcomer "drawn-secret" s
             anonymous None (Some "S3") (Some "code") "S3" st "code" token_data 88);
      try (vm_compute; (reflexivity || discriminate)).
    vm_compute. repeat constructor.
Defined.

(** While an account holds the address [strava_<id>@strava.local], a first
    login with Strava by the athlete with that id founds no account: the
    insertion of the user breaks the unique constraint on the address, the
    request ends in that error, and no user, no link and no mail comes of it.
    The state it came with is spent all the same. *)
Lemma login_callback_blocked_by_placeholder
    now api secret s sess error state_value code v st c token_data a x :
  Strava.arg error = None →
  Strava.arg state_value = Some v →
  Query.first (λ x, bool_decide (StravaOAuthState.state x = v))
              (strava_oauth_states s) = Some st →
  StravaOAuthState.is_valid now st = true →
  StravaOAuthState.purpose st = login_purpose →
  Strava.arg code = Some c →
  Strava.exchange_code_for_token api c = Some token_data →
  athlete_id (athlete token_data) = Some a →
  a ≠ 0%Z →
  Query.first (λ k, bool_decide (StravaToken.strava_athlete_id k = a))
              (strava_tokens s) = None →
  x ∈ users s →
  User.email x = "strava_" +:+ pretty a +:+ "@strava.local" →
  let r := Strava.login_callback now api secret s sess error state_value code in
  response r = ServerError "IntegrityError" ∧
  users (db r) = users s ∧ strava_tokens (db r) = strava_tokens s ∧
  mails r = [] ∧ flashed r = [] ∧ session r = sess ∧
  Query.first (λ x, bool_decide (StravaOAuthState.state x = v))
              (strava_oauth_states (db r))
  = Some (StravaOAuthState.mark_used now st).
Proof.
  intros Herr Hsv E Hv Hp Hc Hex Ha Ha0 Hnolink Hx Hmail r.
  pose proof (validate_oauth_state_valid _ _ _ _ _ E Hv Hp) as Hval.
  set (s1 := with_strava_oauth_states
               (Query.save StravaOAuthState.id (StravaOAuthState.mark_used now st)
                           (strava_oauth_states s)) s) in *.
  destruct (generate_username_from_strava_total s1 (athlete token_data))
    as (j & Hgen & _).
  assert (r = reply s1 sess [] (ServerError "IntegrityError")) as ->.
  { subst r. unfold Strava.login_callback.
    rewrite Herr, Hsv, Hval, Hc, Hex, Ha. fold s1.
    rewrite bool_decide_eq_false_2 by done.
    change (strava_tokens s1) with (strava_tokens s). rewrite Hnolink, Hgen.
    unfold Strava.add_user. cbn [User.username User.email].
    change (users s1) with (users s).
    destruct (first_is_Some
                (λ y, bool_decide (User.username y
                                   = candidate (Strava.base_username
                                                  (athlete token_data)) j)
                      || bool_decide (User.email y
                                      = "strava_" +:+ pretty a +:+ "@strava.local"))
                (users s) x Hx) as [y ->]; [|done].
    apply orb_true_iff. right. by apply bool_decide_eq_true. }
  cbn [response db reply users strava_tokens mails flashed session].
  split_and!; try done.
  subst s1. cbn [strava_oauth_states with_strava_oauth_states].
  eapply (first_save StravaOAuthState.id); [exact E|done|].
  apply first_Some in E as [_ E]. exact E.
Qed.

(** [C7], evaluated where the code misses it.  A visitor signs up as "bengt"
    with the address [strava_88@strava.local]; the sign-up is accepted.  The
    athlete 88, whom no link row carries, then logs in with Strava for the
    first time, with a state that is valid and a code Strava accepts: the
    request ends in the error of the unique constraint on the address, and
    there is no new user, no link and no notice to the administrators.
    Without the visitor's account the same request founds the account
    "anna1" in [PENDING_APPROVAL] and sends the notice. *)
Theorem placeholder_address_blocks_origination :
  (response Demo.squatted = Redirect auth_verification_sent ∧
   User.email <$> users (db Demo.squatted)
   = ["klubban@klubbansvanners.se"; "anna@example.org"; "strava_88@strava.local"]) ∧
  (let s := db Demo.squatted_login_started in
   Query.first (λ x, bool_decide (StravaOAuthState.state x = "S3"))
               (strava_oauth_states s)
   = Some (StravaOAuthState.mk 2 "S3" None login_purpose 1300 None) ∧
   Strava.exchange_code_for_token Demo.api_newcomer "code"
   = Some (mkTokenData Demo.newcomer "access88" "refresh88" 99999) ∧
   Query.first (λ k, bool_decide (StravaToken.strava_athlete_id k = 88%Z))
               (strava_tokens s) = None ∧
   response Demo.squatted_callback = ServerError "IntegrityError" ∧
   users (db Demo.squatted_callback) = users s ∧
   strava_tokens (db Demo.squatted_callback) = strava_tokens s ∧
   mails Demo.squatted_callback = [] ∧
   session Demo.squatted_callback = anonymous) ∧
  (response Demo.strava_originated = Redirect auth_pending_approval ∧
   (λ u, (User.username u, User.state u)) <$> users (db Demo.strava_originated)
   = [("klubban", ACTIVE); ("anna", ACTIVE); ("anna1", PENDING_APPROVAL)] ∧
   mails Demo.strava_originated = [pending_approval_to_admins 3]).
Proof. vm_compute. by repeat split. Qed.

End origination.

(** ** The login gate *)

Section login.

Implicit Types (s : Store) (sess : Session).




End login.

(** ** The fetch loop of the activity sync *)

Section pagination.

Implicit Types (now after : Z) (api : StravaApi) (run : Strava.SyncRun).

Lemma page_requests_cons p n :
  page_requests p (S n) = (p, Strava.default_per_page) :: page_requests (S p) n.
Proof. done. Qed.

(** From page [page] on: if the next [k] answers are full pages and the one
    after is not, [k + 1] requests are made, in order, and the loop ends. *)
Lemma sync_loop_requests fuel now api tok after uid page run k :
  Forall (λ p, last_page (Strava.fetch_strava_activities api tok after p
                            Strava.default_per_page) = false) (seq page k) →
  last_page (Strava.fetch_strava_activities api tok after (page + k)
               Strava.default_per_page) = true →
  k < fuel →
  ∃ run', Strava.sync_loop fuel now api tok after uid page run = Some run' ∧
          Strava.requests run' = Strava.requests run ++ page_requests page (S k).
Proof.
  revert fuel page run.
  induction k as [|k IH]; intros fuel page run Hfull Hlast Hfuel;
    (destruct fuel as [|fuel]; [lia|]); cbn [Strava.sync_loop].
  - rewrite Nat.add_0_r in Hlast.
    destruct (Strava.fetch_strava_activities _ _ _ _ _) as [[|x l]|];
      [by eexists..| |by eexists].
    cbn [last_page] in Hlast. destruct (foldl _ _ _) as [rows count].
    rewrite Hlast. by eexists.
  - cbn [seq] in Hfull. apply list.Forall_cons in Hfull as [Hpage Hfull].
    destruct (Strava.fetch_strava_activities api tok after page _)
      as [[|x l]|]; [done| |done].
    cbn [last_page] in Hpage. destruct (foldl _ _ _) as [rows count].
    rewrite Hpage.
    edestruct (IH fuel (S page)) as (run' & Hrun & Hreq);
      [exact Hfull| by replace (S page + k) with (page + S k) by lia | lia |].
    exists run'. split; [exact Hrun|]. rewrite Hreq. cbn [Strava.requests].
    by rewrite page_requests_cons, <- app_assoc.
Qed.

(** [C8].  The loop asks for page 1, 2, ... with [per_page = 50].  If the
    first [n - 1] answers hold at least 50 elements and the [n]-th answer is
    a failure, empty, or shorter than 50, the loop makes exactly the [n]
    requests for pages 1 to [n] and ends; in particular an answer of exactly
    50 elements is never the last one. *)
Theorem sync_loop_stops_at_first_short_page fuel now api tok after uid rows n :
  0 < n → n ≤ fuel →
  Forall (λ p, last_page (Strava.fetch_strava_activities api tok after p
                            Strava.default_per_page) = false) (seq 1 (n - 1)) →
  last_page (Strava.fetch_strava_activities api tok after n
               Strava.default_per_page) = true →
  (∃ run, Strava.sync_loop fuel now api tok after uid 1 (Strava.mkSyncRun rows 0 [])
          = Some run ∧
          Strava.requests run = (λ p, (p, 50)) <$> seq 1 n ∧
          length (Strava.requests run) = n) ∧
  (∀ l : list ActivityData, length l = 50 → last_page (Some l) = false) ∧
  (∀ l : list ActivityData, length l < 50 → last_page (Some l) = true) ∧
  last_page None = true.
Proof.
  intros Hn Hfuel Hfull Hlast. split; [|split_and!].
  - destruct (sync_loop_requests fuel now api tok after uid 1
                (Strava.mkSyncRun rows 0 []) (n - 1)) as (run & Hrun & Hreq);
      [done|by replace (1 + (n - 1)) with n by lia|lia|].
    exists run. replace (S (n - 1)) with n in Hreq by lia.
    split; [done|]. cbn [Strava.requests app] in Hreq. rewrite Hreq.
    split; [done|]. unfold page_requests. by rewrite length_fmap, length_seq.
  - intros l Hl. cbn. apply bool_decide_eq_false. lia.
  - intros l Hl. cbn. by apply bool_decide_eq_true.
  - done.
Qed.

Lemma sync_loop_stops_at_first_short_page_witness :
  let fetch p := Strava.fetch_strava_activities Demo.api_three_pages "access" 0 p
                   Strava.default_per_page in
  (length <$> fetch 1 = Some 50 ∧ length <$> fetch 2 = Some 50 ∧
   length <$> fetch 3 = Some 10 ∧ 0 < 3 ∧ 3 ≤ 7) ∧
  (∃ run, Strava.sync_loop 7 500 Demo.api_three_pages "access" 0 2 1
                           (Strava.mkSyncRun [] 0 []) = Some run ∧
          Strava.requests run = (λ p, (p, 50)) <$> seq 1 3 ∧
          length (Strava.requests run) = 3) ∧
  (∀ l : list ActivityData, length l = 50 → last_page (Some l) = false) ∧
  (∀ l : list ActivityData, length l < 50 → last_page (Some l) = true) ∧
  last_page None = true.
Proof.
  intros fetch. split.
  - vm_compute. repeat split; lia.
  - apply (sync_loop_stops_at_first_short_page 7 500 Demo.api_three_pages
             "access" 0 2 [] 3); [lia | lia | | vm_compute; reflexivity].
    vm_compute. repeat constructor.
Defined.

(** A single answer of exactly 50 elements is followed by a second request,
    here answered by the empty page. *)
Example sync_loop_full_page_asks_again :
  Strava.requests <$> Strava.sync_loop 7 500 Demo.api_one_full_page "access" 0 2 1
                                (Strava.mkSyncRun [] 0 [])
  = Some [(1, 50); (2, 50)].
Proof. vm_compute. reflexivity. Qed.

End pagination.

(** ** Ingestion of activities *)

Section ingestion.

Implicit Types (now : Z) (uid count : nat) (rows : list StravaActivity.t)
  (a b c : ActivityData) (i : Z).

Lemma first_add {A} (p : A → bool) (l : list A) (r : A) :
  Query.first p l = None → p r = true → Query.first p (Query.add r l) = Some r.
Proof.
  unfold Query.first, Query.add. intros Hnone Hp.
  induction l as [|x l IH]; cbn [find app] in *; [by rewrite Hp|].
  destruct (p x); [done|]. by apply IH.
Qed.



Lemma first_strava_id rows i r :
  Query.first (λ x, bool_decide (StravaActivity.strava_id x = i)) rows = Some r →
  r ∈ rows ∧ StravaActivity.strava_id r = i.
Proof.
  intros H. apply first_Some in H as [? H]. by apply bool_decide_eq_true in H.
Qed.

(** One element of a page that is not a ride changes nothing. *)
Lemma ingest_not_ride now uid acc c :
  ad_type c ≠ Some "Ride" → Strava.ingest now uid acc c = acc.
Proof.
  intros H. unfold Strava.ingest. destruct acc as [rows count].
  by rewrite bool_decide_eq_false_2.
Qed.

(** A ride whose id is not stored is inserted and counted. *)
Lemma ingest_new now uid rows count c :
  ad_type c = Some "Ride" →
  Query.first (λ x, bool_decide (StravaActivity.strava_id x = ad_id c)) rows = None →
  ∃ row, Strava.ingest now uid (rows, count) c = (rows ++ [row], S count) ∧
         StravaActivity.id row = Query.new_id StravaActivity.id rows ∧
         StravaActivity.strava_id row = ad_id c ∧
         StravaActivity.user_id row = uid ∧
         StravaActivity.activity_type row = Some "Ride".
Proof.
  intros Hride Hnone. unfold Strava.ingest.
  rewrite bool_decide_eq_true_2 by done. cbn [negb]. rewrite Hnone.
  eexists. split; [reflexivity|]. by split_and!.
Qed.

(** A ride whose id is stored rewrites that row and is not counted. *)
Lemma ingest_existing now uid rows count c r :
  ad_type c = Some "Ride" →
  Query.first (λ x, bool_decide (StravaActivity.strava_id x = ad_id c)) rows = Some r →
  ∃ row, Strava.ingest now uid (rows, count) c
         = (Query.save StravaActivity.id row rows, count) ∧
         StravaActivity.id row = StravaActivity.id r ∧
         StravaActivity.strava_id row = StravaActivity.strava_id r ∧
         StravaActivity.user_id row = StravaActivity.user_id r ∧
         StravaActivity.activity_type row = StravaActivity.activity_type r ∧
         StravaActivity.elapsed_time_seconds row
         = StravaActivity.elapsed_time_seconds r ∧
         StravaActivity.start_date row = StravaActivity.start_date r ∧
         StravaActivity.start_date_local row = StravaActivity.start_date_local r ∧
         StravaActivity.name row = ad_name c ∧
         StravaActivity.distance_meters row = Strava.get_or 0%Q (ad_distance c) ∧
         StravaActivity.moving_time_seconds row
         = Strava.get_or 0%Z (ad_moving_time c) ∧
         StravaActivity.total_elevation_gain row
         = Strava.get_or 0%Q (ad_total_elevation_gain c) ∧
         StravaActivity.average_speed row = ad_average_speed c ∧
         StravaActivity.max_speed row = ad_max_speed c ∧
         StravaActivity.synced_at row = now.
Proof.
  intros Hride Hsome. unfold Strava.ingest.
  rewrite bool_decide_eq_true_2 by done. cbn [negb]. rewrite Hsome.
  eexists. split; [reflexivity|]. by split_and!.
Qed.

(** One step of the page loop keeps the table well-formed and the stored
    ids, and stores the id of a ride. *)
Lemma ingest_step now uid rows count c :
  activities_unique rows →
  let r := Strava.ingest now uid (rows, count) c in
  activities_unique r.1 ∧
  (∀ i, i ∈ StravaActivity.strava_id <$> rows →
        i ∈ StravaActivity.strava_id <$> r.1) ∧
  (ad_type c = Some "Ride" → ad_id c ∈ StravaActivity.strava_id <$> r.1) ∧
  (ad_type c ≠ Some "Ride" ∨ ad_id c ∈ StravaActivity.strava_id <$> rows →
   r.2 = count ∧ length r.1 = length rows ∧
   StravaActivity.strava_id <$> r.1 = StravaActivity.strava_id <$> rows).
Proof.
  intros [Hid Hsid] r. subst r.
  destruct (decide (ad_type c = Some "Ride")) as [Hride|Hnot].
  2:{ rewrite ingest_not_ride by done. split_and!; try done. }
  destruct (Query.first (λ x, bool_decide (StravaActivity.strava_id x = ad_id c))
                        rows) as [r|] eqn:E.
  - destruct (ingest_existing now uid rows count c r Hride E)
      as (row & -> & Hrid & Hrsid & _).
    apply first_strava_id in E as [Hin Hr]. cbn [fst snd].
    assert (StravaActivity.strava_id <$> Query.save StravaActivity.id row rows
            = StravaActivity.strava_id <$> rows) as Hsame
      by by eapply (save_NoDup StravaActivity.id).
    assert (StravaActivity.id <$> Query.save StravaActivity.id row rows
            = StravaActivity.id <$> rows) as Hsameid
      by by eapply (save_NoDup StravaActivity.id).
    rewrite Hsame. split_and!.
    + split; by rewrite ?Hsame, ?Hsameid.
    + done.
    + intros _. apply list_elem_of_fmap. exists r. by split.
    + intros _. split_and!; [done|apply save_length|done].
  - destruct (ingest_new now uid rows count c Hride E)
      as (row & -> & Hrid & Hrsid & _).
    cbn [fst snd]. rewrite fmap_app. split_and!.
    + split.
      * by apply (add_NoDup_key StravaActivity.id).
      * rewrite fmap_app. apply list.NoDup_app.
        split_and!; [done| |apply NoDup_singleton].
        intros i Hi Hi'. apply list_elem_of_singleton in Hi'. subst i.
        apply list_elem_of_fmap in Hi as (x & Hx & Hin).
        pose proof (first_None _ _ _ E Hin) as Hf.
        apply bool_decide_eq_false in Hf. congruence.
    + intros i Hi. apply elem_of_app. by left.
    + intros _. apply elem_of_app. right. rewrite <- Hrsid. by left.
    + intros [Hnot|Hin]; [done|]. exfalso.
      apply list_elem_of_fmap in Hin as (x & Hx & Hin).
      pose proof (first_None _ _ _ E Hin) as Hf.
      apply bool_decide_eq_false in Hf. congruence.
Qed.

(** A page all of whose rides are already stored inserts nothing. *)
Lemma ingest_known_page now uid l : ∀ rows count,
  activities_unique rows →
  (∀ c, c ∈ l → ad_type c = Some "Ride" →
        ad_id c ∈ StravaActivity.strava_id <$> rows) →
  let r := foldl (Strava.ingest now uid) (rows, count) l in
  r.2 = count ∧ length r.1 = length rows ∧ activities_unique r.1.
Proof.
  induction l as [|c l IH]; intros rows count Hu Hknown; [done|].
  cbn [foldl]. destruct (ingest_step now uid rows count c Hu)
    as (Hu' & _ & _ & Hsame).
  destruct Hsame as (Hc & Hlen & Hsid).
  { destruct (decide (ad_type c = Some "Ride")); [right|by left].
    apply Hknown; [by left|done]. }
  destruct (Strava.ingest now uid (rows, count) c) as [rows' count'].
  cbn [fst snd] in *. subst count'. rewrite <- Hlen. apply IH; [done|].
  intros c' Hc' Hride. rewrite Hsid. apply Hknown; [by right|done].
Qed.



(** The whole route, twice over the same list of activities: the first run
    stores the two rides of the list, the second stores and counts none. *)
Example sync_twice_counts_once :
  flashed Demo.first_sync = [("2 nya aktiviteter synkade fran Strava!", "success")] ∧
  flashed Demo.second_sync = [("0 nya aktiviteter synkade fran Strava!", "success")] ∧
  StravaActivity.strava_id <$> strava_activities (db Demo.first_sync) = [5%Z; 6%Z] ∧
  StravaActivity.strava_id <$> strava_activities (db Demo.second_sync) = [5%Z; 6%Z].
Proof. vm_compute. by repeat split. Qed.

End ingestion.

(** ** The account state machine *)

Section lifecycle.

Implicit Types (s : Store) (sess : Session) (now : Z) (u : User.t).

Lemma state_of_save i j s s' u u0 :
  users s' = Query.save User.id u (users s) →
  Query.get User.id j (users s) = Some u0 →
  User.id u = j →
  state_of i s' = if bool_decide (i = j) then Some (User.state u)
                  else state_of i s.
Proof.
  intros Hs' Hu0 Hj. unfold state_of. rewrite Hs'. case_bool_decide as Hi.
  - subst i. by erewrite (get_save User.id).
  - rewrite (get_save_ne User.id); [done|congruence].
Qed.

(** Approval, rejection and reactivation test the state they start from:
    whatever they do to an account is an edge of the graph or nothing. *)
Lemma guarded_handlers_follow_graph now api req s sess i a b :
  match req with
  | AdminApproveUser _ | AdminRejectUser _ _ | AdminMembersReactivate _ => True
  | _ => False
  end →
  state_of i s = Some a →
  state_of i (db (handle now api req s sess)) = Some b →
  a = b ∨ legal_transition a b = true.
Proof.
  intros Hreq Ha.
  assert (∀ fl body,
            state_of i (db (reply s sess fl body)) = Some b
            → a = b ∨ legal_transition a b = true) as Hsame.
  { intros fl body Hb. cbn [db reply] in Hb. left. congruence. }
  destruct req; try done; cbn [handle];
    [unfold Admin.approve_user | unfold Admin.reject_user
     | unfold Admin.members_reactivate];
    unfold Admin.admin_required, login_required;
    (destruct (current_user s sess) as [cu|]; [|apply Hsame]);
    (destruct (negb (User.has_admin_access cu)); [apply Hsame|]);
    (destruct (Query.get User.id id (users s)) as [m|] eqn:Em; [|apply Hsame]);
    pose proof (get_Some _ _ _ _ Em) as [_ Hm].
  - case_bool_decide as Hst; cbn [negb]; [|apply Hsame].
    cbn [db]. erewrite state_of_save; [|done|exact Em|exact Hm].
    cbn [User.id User.state User.with_state User.with_approved_at
         User.with_approved_by_id].
    case_bool_decide as Hi; [|left; congruence].
    intros [= <-]. right. unfold state_of in Ha.
    rewrite Hi, Em in Ha. cbn in Ha. injection Ha as <-. by rewrite Hst.
  - case_bool_decide as Hst; cbn [negb]; [|apply Hsame].
    cbn [db]. erewrite state_of_save; [|done|exact Em|exact Hm].
    cbn [User.id User.state User.with_state User.with_rejection_reason].
    case_bool_decide as Hi; [|left; congruence].
    intros [= <-]. right. unfold state_of in Ha.
    rewrite Hi, Em in Ha. cbn in Ha. injection Ha as <-. by rewrite Hst.
  - destruct (negb _) eqn:Hst; [apply Hsame|].
    apply negb_false_iff, orb_true_iff in Hst. rewrite !bool_decide_eq_true in Hst.
    cbn [db reply]. erewrite state_of_save; [|done|exact Em|exact Hm].
    cbn [User.id User.state User.with_state User.with_rejection_reason
         User.with_suspended_reason].
    case_bool_decide as Hi; [|left; congruence].
    intros [= <-]. right. unfold state_of in Ha.
    rewrite Hi, Em in Ha. cbn in Ha. injection Ha as <-.
    destruct Hst as [Hst|Hst]; by rewrite Hst.
Qed.

(** [members_suspend] does not look at the state it starts from. *)
Lemma members_suspend_from_any_state s sess cu id form_reason member :
  current_user s sess = Some cu →
  User.has_admin_access cu = true →
  id ≠ User.id cu →
  Query.get User.id id (users s) = Some member →
  User.is_admin_role member && negb (User.is_admin_role cu) = false →
  state_of id (db (Admin.members_suspend s sess id form_reason)) = Some SUSPENDED.
Proof.
  intros Hcu Hadm Hid Hm Hrole.
  unfold Admin.members_suspend, Admin.admin_required, login_required.
  rewrite Hcu, Hadm. cbn [negb]. rewrite bool_decide_eq_false_2 by done.
  rewrite Hm, Hrole. cbn [db reply].
  pose proof (get_Some _ _ _ _ Hm) as [_ Hmid].
  erewrite state_of_save; [|done|exact Hm|exact Hmid].
  cbn. by rewrite bool_decide_eq_true_2.
Qed.

(** Nor does [verify_email] look at the state of the owner of the link. *)
Lemma verify_email_from_any_state now s sess token v u :
  Query.first (λ v, bool_decide (EmailVerificationToken.token v = token))
              (email_verification_tokens s) = Some v →
  EmailVerificationToken.is_valid now v = true →
  Query.get User.id (EmailVerificationToken.user_id v) (users s) = Some u →
  state_of (User.id u) (db (Auth.verify_email now s sess token))
  = Some PENDING_APPROVAL.
Proof.
  intros E Hv Hu. unfold Auth.verify_email. rewrite E, Hv, Hu. cbn [negb db reply].
  pose proof (get_Some _ _ _ _ Hu) as [_ Huid].
  erewrite state_of_save; [|done|exact Hu|exact Huid].
  cbn. rewrite Huid. by rewrite bool_decide_eq_true_2.
Qed.

(** Reactivation leaves the member [ACTIVE] with both reasons empty. *)
Lemma members_reactivate_clears_reasons s sess cu id member :
  current_user s sess = Some cu →
  User.has_admin_access cu = true →
  Query.get User.id id (users s) = Some member →
  User.state member = SUSPENDED ∨ User.state member = REJECTED →
  ∃ member',
    Query.get User.id id (users (db (Admin.members_reactivate s sess id)))
    = Some member' ∧
    User.state member' = ACTIVE ∧
    User.rejection_reason member' = None ∧
    User.suspended_reason member' = None ∧
    reasons_state_gated member'.
Proof.
  intros Hcu Hadm Hm Hst.
  unfold Admin.members_reactivate, Admin.admin_required, login_required.
  rewrite Hcu, Hadm, Hm. cbn [negb].
  assert (bool_decide (User.state member = SUSPENDED)
          || bool_decide (User.state member = REJECTED) = true) as ->.
  { apply orb_true_iff. destruct Hst; [left|right]; by apply bool_decide_eq_true. }
  cbn [negb db reply users with_users].
  pose proof (get_Some _ _ _ _ Hm) as [_ Hmid].
  eexists. split.
  { eapply (get_save User.id); [exact Hm|]. exact Hmid. }
  by repeat split.
Qed.

(** [C1], evaluated where the code leaves the graph.  The administrator
    suspends Anna while she waits for approval: [PENDING_APPROVAL] to
    [SUSPENDED].  Anna, approved, follows her second verification link:
    [ACTIVE] to [PENDING_APPROVAL].  Neither is an edge. *)
Theorem state_changes_outside_the_graph :
  (state_of 2 (db Demo.verified) = Some PENDING_APPROVAL ∧
   state_of 2 (db Demo.suspended_while_pending) = Some SUSPENDED ∧
   legal_transition PENDING_APPROVAL SUSPENDED = false) ∧
  (state_of 2 (db Demo.approved) = Some ACTIVE ∧
   state_of 2 (db Demo.verified_again) = Some PENDING_APPROVAL ∧
   response Demo.verified_again = Redirect auth_pending_approval ∧
   legal_transition ACTIVE PENDING_APPROVAL = false).
Proof. vm_compute. by repeat split. Qed.

(** [C9], evaluated where the code breaks it.  Rejected with a reason and
    then suspended with a reason, Anna's row carries both reasons.  Rejected
    with a reason and then verified through her second link, her row carries
    a rejection reason in [PENDING_APPROVAL]. *)
Theorem reasons_outlive_their_state :
  (∃ u, Query.get User.id 2 (users (db Demo.rejected_then_suspended)) = Some u ∧
        User.state u = SUSPENDED ∧
        User.rejection_reason u = Some "spam" ∧
        User.suspended_reason u = Some "abuse" ∧
        ¬ reasons_state_gated u) ∧
  (∃ u, Query.get User.id 2 (users (db Demo.rejected_then_verified)) = Some u ∧
        User.state u = PENDING_APPROVAL ∧
        User.rejection_reason u = Some "spam" ∧
        ¬ reasons_state_gated u).
Proof.
  split; eexists; (split; [vm_compute; reflexivity|]); cbn;
    repeat split; intros [H _]; by specialize (H ltac:(done)).
Qed.

End lifecycle.

(** ** Used links and states stay used *)

Section consumption.

Implicit Types (s : Store) (sess : Session) (now : Z) (api : StravaApi).

Lemma add_verification_token_rows now secret uid s s' :
  Auth.add_verification_token now secret uid s = Some s' →
  strava_oauth_states s' = strava_oauth_states s ∧
  ∃ v, email_verification_tokens s' = email_verification_tokens s ++ [v] ∧
       EmailVerificationToken.id v
       = Query.new_id EmailVerificationToken.id (email_verification_tokens s).
Proof.
  unfold Auth.add_verification_token. destruct (Query.first _ _); [done|].
  intros [= <-]. split; [done|]. by eexists.
Qed.

Lemma email_token_used_append t uid s s' v :
  email_verification_tokens s' = email_verification_tokens s ++ [v] →
  EmailVerificationToken.id v
  = Query.new_id EmailVerificationToken.id (email_verification_tokens s) →
  email_token_used t uid s → email_token_used t uid s'.
Proof.
  intros Heq Hid (Hnd & v0 & Hfirst & Hused & Huid). unfold email_token_used.
  rewrite Heq. split.
  - by apply (add_NoDup_key EmailVerificationToken.id).
  - exists v0. split_and!; [|done..]. by apply first_app_Some.
Qed.

Lemma email_token_used_rows t uid s s' :
  email_verification_tokens s' = email_verification_tokens s →
  email_token_used t uid s → email_token_used t uid s'.
Proof. unfold email_token_used. by intros ->. Qed.

Lemma verify_email_token_used now s sess token t uid :
  email_token_used t uid s →
  email_token_used t uid (db (Auth.verify_email now s sess token)).
Proof.
  intros Hused. unfold Auth.verify_email.
  destruct (Query.first _ (email_verification_tokens s)) as [v0|] eqn:E0; [|done].
  destruct (negb _); [done|].
  destruct (Query.get User.id _ (users s)) as [u|]; [|done].
  destruct Hused as (Hnd & v & Hfirst & Hu & Huid).
  cbn [db reply]. unfold email_token_used.
  cbn [email_verification_tokens with_users with_email_verification_tokens].
  pose proof (first_Some _ _ _ E0) as [Hin0 Hp0].
  apply bool_decide_eq_true in Hp0. split.
  - by rewrite (save_NoDup EmailVerificationToken.id _ _ v0).
  - destruct (decide (token = t)) as [->|Hne].
    + assert (v0 = v) as -> by congruence.
      exists (EmailVerificationToken.mark_used now v). split_and!; [|done..].
      eapply (first_save EmailVerificationToken.id); [exact Hfirst|done|].
      by apply bool_decide_eq_true.
    + exists v. split_and!; [|done..]. rewrite <- Hfirst.
      apply (first_save_other EmailVerificationToken.id).
      * intros x Hx Hk.
        assert (x = v0) as ->.
        { apply list_elem_of_lookup in Hx as [i Hi], Hin0 as [j Hj].
          assert (i = j) as ->; [|congruence].
          eapply NoDup_lookup; [exact Hnd| |]; rewrite list_lookup_fmap.
          - by rewrite Hi.
          - rewrite Hj. cbn. by rewrite Hk. }
        apply bool_decide_eq_false. congruence.
      * apply bool_decide_eq_false. cbn. congruence.
Qed.

Lemma create_oauth_state_rows now secret p o s s' v :
  Strava.create_oauth_state now secret p o s = Some (s', v) →
  email_verification_tokens s' = email_verification_tokens s ∧
  ∃ st, strava_oauth_states s' = strava_oauth_states s ++ [st] ∧
        StravaOAuthState.id st
        = Query.new_id StravaOAuthState.id (strava_oauth_states s).
Proof.
  unfold Strava.create_oauth_state. destruct (Query.first _ _); [done|].
  intros [= <- <-]. split; [done|]. by eexists.
Qed.

Lemma add_user_rows u s s' :
  Strava.add_user u s = Some s' →
  email_verification_tokens s' = email_verification_tokens s ∧
  strava_oauth_states s' = strava_oauth_states s.
Proof.
  unfold Strava.add_user. destruct (Query.first _ _); [done|]. by intros [= <-].
Qed.

Lemma add_strava_token_rows uid a d s s' :
  Strava.add_strava_token uid a d s = Some s' →
  email_verification_tokens s' = email_verification_tokens s ∧
  strava_oauth_states s' = strava_oauth_states s.
Proof.
  unfold Strava.add_strava_token. destruct (Query.first _ _); [done|].
  by intros [= <-].
Qed.

Lemma validate_oauth_state_email_tokens now s v p :
  email_verification_tokens (Strava.validate_oauth_state now s v p).1
  = email_verification_tokens s.
Proof.
  unfold Strava.validate_oauth_state.
  destruct (Query.first _ _) as [st|]; [|done].
  destruct (negb _); [done|]. by destruct (negb _).
Qed.

Lemma get_valid_token_rows now api s k :
  email_verification_tokens (Strava.get_valid_token now api s k).1
  = email_verification_tokens s ∧
  strava_oauth_states (Strava.get_valid_token now api s k).1
  = strava_oauth_states s.
Proof.
  unfold Strava.get_valid_token, Strava.refresh_access_token.
  destruct (StravaToken.is_expired now k); [|done].
  by destruct (api_token_refresh api _).
Qed.

Lemma login_callback_states now api secret s sess e v c sv :
  Strava.arg e = None → Strava.arg v = Some sv →
  strava_oauth_states (db (Strava.login_callback now api secret s sess e v c))
  = strava_oauth_states (Strava.validate_oauth_state now s sv login_purpose).1.
Proof.
  intros He Hv. unfold Strava.login_callback. rewrite He, Hv.
  destruct (Strava.validate_oauth_state now s sv login_purpose) as [s1 [st|msg]];
    [|done]. cbn [fst].
  repeat case_match; try done;
    match goal with H : Strava.add_strava_token _ _ _ _ = Some _ |- _ =>
      apply add_strava_token_rows in H as (_ & Hs2) end;
    match goal with H : Strava.add_user _ _ = Some _ |- _ =>
      apply add_user_rows in H as (_ & Hs3) end;
    cbn [db]; congruence.
Qed.

Lemma callback_states now api s sess cu e v c sv :
  current_user s sess = Some cu →
  Strava.arg e = None → Strava.arg v = Some sv →
  strava_oauth_states (db (Strava.callback now api s sess e v c))
  = strava_oauth_states (Strava.validate_oauth_state now s sv connect_purpose).1.
Proof.
  intros Hcu He Hv. unfold Strava.callback, login_required.
  rewrite Hcu, He, Hv.
  destruct (Strava.validate_oauth_state now s sv connect_purpose)
    as [s1 [st|msg]]; [|done]. cbn [fst].
  repeat case_match; cbv zeta; try done;
    match goal with H : Strava.add_strava_token _ _ _ _ = Some _ |- _ =>
      apply add_strava_token_rows in H as (_ & Hs2) end;
    cbn [db reply]; congruence.
Qed.

(** The handlers that do not issue or follow a verification link do not
    write to [email_verification_tokens]. *)
Lemma other_handlers_keep_email_tokens now api req s sess :
  match req with
  | AuthSignup _ _ _ _ _ _ _ | AuthVerifyEmail _ | AuthResendVerification _ _ =>
      True
  | _ => email_verification_tokens (db (handle now api req s sess))
         = email_verification_tokens s
  end.
Proof.
  destruct req; try done; cbn [handle].
  - unfold Auth.login. repeat case_match; done.
  - unfold Auth.logout, login_required. repeat case_match; done.
  - unfold Admin.approve_user, Admin.admin_required, login_required.
    repeat case_match; done.
  - unfold Admin.reject_user, Admin.admin_required, login_required.
    repeat case_match; done.
  - unfold Admin.members_suspend, Admin.admin_required, login_required.
    repeat case_match; done.
  - unfold Admin.members_reactivate, Admin.admin_required, login_required.
    repeat case_match; done.
  - unfold Strava.strava_login. repeat case_match; try done; cbn [db reply].
    match goal with H : Strava.create_oauth_state _ _ _ _ _ = Some _ |- _ =>
      apply create_oauth_state_rows in H as (Hs2 & _) end. by rewrite Hs2.
  - unfold Strava.login_callback.
    destruct (Strava.arg error); [done|].
    destruct (Strava.arg state_value) as [sv|]; [|done].
    rewrite <- (validate_oauth_state_email_tokens now s sv login_purpose).
    destruct (Strava.validate_oauth_state now s sv login_purpose)
      as [s1 [st|msg]]; cbn [fst]; [|done].
    repeat case_match; try done;
      match goal with H : Strava.add_strava_token _ _ _ _ = Some _ |- _ =>
        apply add_strava_token_rows in H as (Hs2 & _) end;
      match goal with H : Strava.add_user _ _ = Some _ |- _ =>
        apply add_user_rows in H as (Hs3 & _) end;
      cbn [db]; congruence.
  - unfold Strava.connect, login_required. repeat case_match; try done;
      cbn [db reply].
    match goal with H : Strava.create_oauth_state _ _ _ _ _ = Some _ |- _ =>
      apply create_oauth_state_rows in H as (Hs2 & _) end. by rewrite Hs2.
  - unfold Strava.callback, login_required.
    destruct (current_user s sess) as [cu|]; [|done].
    destruct (Strava.arg error); [done|].
    destruct (Strava.arg state_value) as [sv|]; [|done].
    rewrite <- (validate_oauth_state_email_tokens now s sv connect_purpose).
    destruct (Strava.validate_oauth_state now s sv connect_purpose)
      as [s1 [st|msg]]; cbn [fst]; [|done].
    repeat case_match; cbv zeta; try done;
      match goal with H : Strava.add_strava_token _ _ _ _ = Some _ |- _ =>
        apply add_strava_token_rows in H as (Hs2 & _) end;
      cbn [db reply]; congruence.
  - unfold Strava.disconnect, login_required. repeat case_match; done.
  - unfold Strava.sync, login_required.
    destruct (current_user s sess) as [cu|]; [|done].
    destruct (Strava.strava_token_of s cu) as [k|]; [|done].
    destruct (negb _); [done|].
    destruct (get_valid_token_rows now api s k) as [<- _].
    destruct (Strava.get_valid_token now api s k) as [s1 o]. cbn [fst].
    repeat case_match; done.
Qed.

Lemma handle_email_token_used now api req s sess t uid :
  email_token_used t uid s →
  email_token_used t uid (db (handle now api req s sess)).
Proof.
  intros Hused.
  pose proof (other_handlers_keep_email_tokens now api req s sess) as Hkeep.
  destruct req; try (by eapply email_token_used_rows); cbn [handle].
  - unfold Auth.signup. repeat case_match; try done. cbn [db reply].
    match goal with H : Auth.add_verification_token _ _ _ _ = Some _ |- _ =>
      apply add_verification_token_rows in H as (_ & v & Hv & Hid) end.
    by eapply email_token_used_append.
  - by apply verify_email_token_used.
  - unfold Auth.resend_verification. repeat case_match; try done; cbn [db reply];
      match goal with H : Auth.add_verification_token _ _ _ _ = Some _ |- _ =>
        apply add_verification_token_rows in H as (_ & v & Hv & Hid) end;
      by eapply email_token_used_append.
Qed.

Lemma reachable_email_token_used init s t uid :
  email_token_used t uid init → reachable init s → email_token_used t uid s.
Proof. induction 2; [done|]. by apply handle_email_token_used. Qed.

Lemma oauth_state_used_rows sv s s' :
  strava_oauth_states s' = strava_oauth_states s →
  oauth_state_used sv s → oauth_state_used sv s'.
Proof. unfold oauth_state_used. by intros ->. Qed.

Lemma oauth_state_used_append sv s s' st :
  strava_oauth_states s' = strava_oauth_states s ++ [st] →
  StravaOAuthState.id st = Query.new_id StravaOAuthState.id (strava_oauth_states s) →
  oauth_state_used sv s → oauth_state_used sv s'.
Proof.
  intros Heq Hid (Hnd & st0 & Hfirst & Hused). unfold oauth_state_used.
  rewrite Heq. split.
  - by apply (add_NoDup_key StravaOAuthState.id).
  - exists st0. split; [|done]. by apply first_app_Some.
Qed.

Lemma validate_oauth_state_used now s v p sv :
  oauth_state_used sv s →
  oauth_state_used sv (Strava.validate_oauth_state now s v p).1.
Proof.
  intros Hused. unfold Strava.validate_oauth_state.
  destruct (Query.first _ (strava_oauth_states s)) as [st0|] eqn:E0; [|done].
  destruct (negb _); [done|]. destruct (negb _); [done|].
  destruct Hused as (Hnd & st & Hfirst & Hu).
  cbn [fst]. unfold oauth_state_used.
  cbn [strava_oauth_states with_strava_oauth_states].
  pose proof (first_Some _ _ _ E0) as [Hin0 Hp0].
  apply bool_decide_eq_true in Hp0. split.
  - by rewrite (save_NoDup StravaOAuthState.id _ _ st0).
  - destruct (decide (v = sv)) as [->|Hne].
    + assert (st0 = st) as -> by congruence.
      exists (StravaOAuthState.mark_used now st). split; [|done].
      eapply (first_save StravaOAuthState.id); [exact Hfirst|done|].
      by apply bool_decide_eq_true.
    + exists st. split; [|done]. rewrite <- Hfirst.
      apply (first_save_other StravaOAuthState.id).
      * intros x Hx Hk.
        assert (x = st0) as ->.
        { apply list_elem_of_lookup in Hx as [i Hi], Hin0 as [j Hj].
          assert (i = j) as ->; [|congruence].
          eapply NoDup_lookup; [exact Hnd| |]; rewrite list_lookup_fmap.
          - by rewrite Hi.
          - rewrite Hj. cbn. by rewrite Hk. }
        apply bool_decide_eq_false. congruence.
      * apply bool_decide_eq_false. cbn. congruence.
Qed.

(** The handlers outside the two OAuth flows do not write to
    [strava_oauth_states]. *)
Lemma other_handlers_keep_oauth_states now api req s sess :
  match req with
  | StravaLogin _ | StravaLoginCallback _ _ _ _ | StravaConnect _
  | StravaCallback _ _ _ => True
  | _ => strava_oauth_states (db (handle now api req s sess))
         = strava_oauth_states s
  end.
Proof.
  destruct req; try done; cbn [handle].
  - unfold Auth.login. repeat case_match; done.
  - unfold Auth.signup. repeat case_match; try done. cbn [db reply].
    match goal with H : Auth.add_verification_token _ _ _ _ = Some _ |- _ =>
      apply add_verification_token_rows in H as (Hs2 & _) end. by rewrite Hs2.
  - unfold Auth.verify_email. repeat case_match; done.
  - unfold Auth.resend_verification. repeat case_match; try done; cbn [db reply];
      match goal with H : Auth.add_verification_token _ _ _ _ = Some _ |- _ =>
        apply add_verification_token_rows in H as (Hs2 & _) end; by rewrite Hs2.
  - unfold Auth.logout, login_required. repeat case_match; done.
  - unfold Admin.approve_user, Admin.admin_required, login_required.
    repeat case_match; done.
  - unfold Admin.reject_user, Admin.admin_required, login_required.
    repeat case_match; done.
  - unfold Admin.members_suspend, Admin.admin_required, login_required.
    repeat case_match; done.
  - unfold Admin.members_reactivate, Admin.admin_required, login_required.
    repeat case_match; done.
  - unfold Strava.disconnect, login_required. repeat case_match; done.
  - unfold Strava.sync, login_required.
    destruct (current_user s sess) as [cu|]; [|done].
    destruct (Strava.strava_token_of s cu) as [k|]; [|done].
    destruct (negb _); [done|].
    destruct (get_valid_token_rows now api s k) as [_ <-].
    destruct (Strava.get_valid_token now api s k) as [s1 o]. cbn [fst].
    repeat case_match; done.
Qed.

Lemma handle_oauth_state_used now api req s sess sv :
  oauth_state_used sv s → oauth_state_used sv (db (handle now api req s sess)).
Proof.
  intros Hused.
  pose proof (other_handlers_keep_oauth_states now api req s sess) as Hkeep.
  destruct req; try (by eapply oauth_state_used_rows); cbn [handle].
  - unfold Strava.strava_login. repeat case_match; try done. cbn [db reply].
    match goal with H : Strava.create_oauth_state _ _ _ _ _ = Some _ |- _ =>
      apply create_oauth_state_rows in H as (_ & st & Hst & Hid) end.
    by eapply oauth_state_used_append.
  - destruct (Strava.arg error) eqn:He.
    { unfold Strava.login_callback. by rewrite He. }
    destruct (Strava.arg state_value) as [v|] eqn:Hv.
    2:{ unfold Strava.login_callback. by rewrite He, Hv. }
    eapply oauth_state_used_rows; [by eapply login_callback_states|].
    by apply validate_oauth_state_used.
  - unfold Strava.connect, login_required. repeat case_match; try done.
    cbn [db reply].
    match goal with H : Strava.create_oauth_state _ _ _ _ _ = Some _ |- _ =>
      apply create_oauth_state_rows in H as (_ & st & Hst & Hid) end.
    by eapply oauth_state_used_append.
  - destruct (current_user s sess) as [cu|] eqn:Hcu.
    2:{ unfold Strava.callback, login_required. by rewrite Hcu. }
    destruct (Strava.arg error) eqn:He.
    { unfold Strava.callback, login_required. by rewrite Hcu, He. }
    destruct (Strava.arg state_value) as [v|] eqn:Hv.
    2:{ unfold Strava.callback, login_required. by rewrite Hcu, He, Hv. }
    eapply oauth_state_used_rows; [by eapply callback_states|].
    by apply validate_oauth_state_used.
Qed.

Lemma reachable_oauth_state_used init s sv :
  oauth_state_used sv init → reachable init s → oauth_state_used sv s.
Proof. induction 2; [done|]. by apply handle_oauth_state_used. Qed.

(** [C2], amended.  A verification link and an OAuth state are refused as
    unknown when no row carries the value; with one and the same "expired"
    answer when the row was used or its expiry has passed; an OAuth state
    that is still valid is refused when its purpose differs.  Otherwise the
    value is consumed, and from then on, in every database the application
    reaches, every further attempt, at any time and from any browser, gets
    that same "expired" answer and leaves the database as it is.  A refused
    verification link that was found notes the id of its owner in the
    browser session, which is what the resend form reads; nothing else of
    the session changes. *)
Theorem token_consumption_outcomes now s sess token state_value purpose :
  NoDup (EmailVerificationToken.id <$> email_verification_tokens s) →
  NoDup (StravaOAuthState.id <$> strava_oauth_states s) →
  (let r := Auth.verify_email now s sess token in
   let expired :=
     ([("Verifieringslanken har gatt ut. Beg" +:+ Py.chr 228 +:+ "r en ny.",
        "error")],
      Redirect auth_verification_sent) in
   match Query.first (λ v, bool_decide (EmailVerificationToken.token v = token))
                     (email_verification_tokens s) with
   | None =>
       db r = s ∧ session r = sess ∧
       visible r = ([("Ogiltig verifieringslanke.", "error")], Redirect auth_login)
   | Some v =>
       if bool_decide (EmailVerificationToken.used_at v ≠ None
                       ∨ (EmailVerificationToken.expires_at v ≤ now)%Z) then
         db r = s ∧ visible r = expired ∧
         session r
         = set_pending_verification (EmailVerificationToken.user_id v) sess
       else
         match Query.get User.id (EmailVerificationToken.user_id v) (users s) with
         | None => db r = s ∧ session r = sess ∧
                   response r = ServerError "AttributeError"
         | Some _ =>
             visible r
             = ([("E-postadress verifierad! Ditt konto vantar nu pa godkannande.",
                  "success")], Redirect auth_pending_approval) ∧
             session r = sess ∧
             ∀ s' now' sess',
               reachable (db r) s' →
               let r' := Auth.verify_email now' s' sess' token in
               db r' = s' ∧ visible r' = expired ∧
               session r'
               = set_pending_verification (EmailVerificationToken.user_id v) sess'
         end
   end) ∧
  (let out := Strava.validate_oauth_state now s state_value purpose in
   let expired := inr "State har gatt ut. Forsok igen." in
   match Query.first (λ v, bool_decide (StravaOAuthState.state v = state_value))
                     (strava_oauth_states s) with
   | None => out = (s, inr "Ogiltig state-parameter.")
   | Some st =>
       if bool_decide (StravaOAuthState.used_at st ≠ None
                       ∨ (StravaOAuthState.expires_at st ≤ now)%Z) then
         out = (s, expired)
       else if bool_decide (StravaOAuthState.purpose st ≠ purpose) then
         out = (s, inr "Felaktig state-purpose.")
       else
         out.2 = inl (StravaOAuthState.mark_used now st) ∧
         ∀ s' now' purpose',
           reachable out.1 s' →
           Strava.validate_oauth_state now' s' state_value purpose'
           = (s', expired)
   end).
Proof.
  intros Hnd Hnds. split.
  - cbv zeta.
    destruct (Query.first _ (email_verification_tokens s)) as [v|] eqn:E.
    2:{ unfold Auth.verify_email. by rewrite E. }
    case_bool_decide as Hinv.
    + apply email_token_invalid_iff in Hinv.
      unfold Auth.verify_email. by rewrite E, Hinv.
    + destruct (EmailVerificationToken.is_valid now v) eqn:Hv;
        [|apply email_token_invalid_iff in Hv; done].
      destruct (Query.get User.id _ (users s)) as [u|] eqn:Eu.
      2:{ unfold Auth.verify_email. by rewrite E, Hv, Eu. }
      assert (Auth.verify_email now s sess token
              = reply (with_users
                         (Query.save User.id
                            (User.with_email_verified_at (Some now)
                               (User.with_state PENDING_APPROVAL u)) (users s))
                         (with_email_verification_tokens
                            (Query.save EmailVerificationToken.id
                               (EmailVerificationToken.mark_used now v)
                               (email_verification_tokens s)) s))
                  sess
                  [("E-postadress verifierad! Ditt konto vantar nu pa godkannande.",
                    "success")]
                  (Redirect auth_pending_approval)) as ->.
      { unfold Auth.verify_email. by rewrite E, Hv, Eu. }
      split; [done|]. split; [done|]. intros s' now' sess' Hreach.
      cbn [db reply] in Hreach.
      eapply (reachable_email_token_used _ _ token
                (EmailVerificationToken.user_id v)) in Hreach.
      * destruct Hreach as (_ & v' & Hfirst & Hused & Huid).
        unfold Auth.verify_email. rewrite Hfirst.
        assert (EmailVerificationToken.is_valid now' v' = false) as ->.
        { apply email_token_invalid_iff. by left. }
        cbn [negb db reply session]. by rewrite Huid.
      * split.
        { cbn [email_verification_tokens with_users
               with_email_verification_tokens].
          pose proof (first_Some _ _ _ E) as [Hin _].
          by rewrite (save_NoDup EmailVerificationToken.id _ _ v). }
        exists (EmailVerificationToken.mark_used now v). split_and!; [|done..].
        cbn [email_verification_tokens with_users
             with_email_verification_tokens].
        eapply (first_save EmailVerificationToken.id); [exact E|done|].
        apply first_Some in E as [_ E]. exact E.
  - cbv zeta.
    destruct (Query.first _ (strava_oauth_states s)) as [st|] eqn:E.
    2:{ unfold Strava.validate_oauth_state. by rewrite E. }
    case_bool_decide as Hinv.
    { apply oauth_state_invalid_iff in Hinv.
      unfold Strava.validate_oauth_state. by rewrite E, Hinv. }
    destruct (StravaOAuthState.is_valid now st) eqn:Hv;
      [|apply oauth_state_invalid_iff in Hv; done].
    case_bool_decide as Hp.
    { unfold Strava.validate_oauth_state. rewrite E, Hv. cbn [negb].
      by rewrite bool_decide_eq_false_2. }
    assert (purpose = StravaOAuthState.purpose st) as Hpe.
    { destruct (decide (StravaOAuthState.purpose st = purpose)); [done|].
      by destruct Hp. }
    rewrite (validate_oauth_state_valid now s state_value purpose st E Hv)
      by done.
    cbn [fst snd]. split; [done|]. intros s' now' purpose' Hreach.
    eapply (reachable_oauth_state_used _ _ state_value) in Hreach.
    + destruct Hreach as (_ & st' & Hfirst & Hused).
      unfold Strava.validate_oauth_state. rewrite Hfirst.
      assert (StravaOAuthState.is_valid now' st' = false) as ->.
      { apply oauth_state_invalid_iff. by left. }
      done.
    + split.
      { cbn [strava_oauth_states with_strava_oauth_states].
        pose proof (first_Some _ _ _ E) as [Hin _].
        by rewrite (save_NoDup StravaOAuthState.id _ _ st). }
      exists (StravaOAuthState.mark_used now st). split; [|done].
      cbn [strava_oauth_states with_strava_oauth_states].
      eapply (first_save StravaOAuthState.id); [exact E|done|].
      apply first_Some in E as [_ E]. exact E.
Qed.

Lemma token_consumption_outcomes_witness :
  let now := 510%Z in
  let s := db Demo.connecting in
  let sess := anonymous in
  let token := "T2" in
  let state_value := "S1" in
  let purpose := connect_purpose in
  (NoDup (EmailVerificationToken.id <$> email_verification_tokens s) ∧
   NoDup (StravaOAuthState.id <$> strava_oauth_states s)) ∧
  (Query.first (λ v, bool_decide (EmailVerificationToken.token v = token))
               (email_verification_tokens s)
   = Some (EmailVerificationToken.mk 2 2 "T2" 86600 None) ∧
   response (Auth.verify_email now s sess token) = Redirect auth_pending_approval ∧
   Query.first (λ v, bool_decide (StravaOAuthState.state v = state_value))
               (strava_oauth_states s)
   = Some (StravaOAuthState.mk 1 "S1" (Some 2) connect_purpose 1100 None) ∧
   (Strava.validate_oauth_state now s state_value purpose).2
   = inl (StravaOAuthState.mk 1 "S1" (Some 2) connect_purpose 1100 (Some 510%Z))) ∧
  (let r := Auth.verify_email now s sess token in
   let expired :=
     ([("Verifieringslanken har gatt ut. Beg" +:+ Py.chr 228 +:+ "r en ny.",
        "error")],
      Redirect auth_verification_sent) in
   match Query.first (λ v, bool_decide (EmailVerificationToken.token v = token))
                     (email_verification_tokens s) with
   | None =>
       db r = s ∧ session r = sess ∧
       visible r = ([("Ogiltig verifieringslanke.", "error")], Redirect auth_login)
   | Some v =>
       if bool_decide (EmailVerificationToken.used_at v ≠ None
                       ∨ (EmailVerificationToken.expires_at v ≤ now)%Z) then
         db r = s ∧ visible r = expired ∧
         session r
         = set_pending_verification (EmailVerificationToken.user_id v) sess
       else
         match Query.get User.id (EmailVerificationToken.user_id v) (users s) with
         | None => db r = s ∧ session r = sess ∧
                   response r = ServerError "AttributeError"
         | Some _ =>
             visible r
             = ([("E-postadress verifierad! Ditt konto vantar nu pa godkannande.",
                  "success")], Redirect auth_pending_approval) ∧
             session r = sess ∧
             ∀ s' now' sess',
               reachable (db r) s' →
               let r' := Auth.verify_email now' s' sess' token in
               db r' = s' ∧ visible r' = expired ∧
               session r'
               = set_pending_verification (EmailVerificationToken.user_id v) sess'
         end
   end) ∧
  (let out := Strava.validate_oauth_state now s state_value purpose in
   let expired := inr "State har gatt ut. Forsok igen." in
   match Query.first (λ v, bool_decide (StravaOAuthState.state v = state_value))
                     (strava_oauth_states s) with
   | None => out = (s, inr "Ogiltig state-parameter.")
   | Some st =>
       if bool_decide (StravaOAuthState.used_at st ≠ None
                       ∨ (StravaOAuthState.expires_at st ≤ now)%Z) then
         out = (s, expired)
       else if bool_decide (StravaOAuthState.purpose st ≠ purpose) then
         out = (s, inr "Felaktig state-purpose.")
       else
         out.2 = inl (StravaOAuthState.mark_used now st) ∧
         ∀ s' now' purpose',
           reachable out.1 s' →
           Strava.validate_oauth_state now' s' state_value purpose'
           = (s', expired)
   end).
Proof.
  intros now s sess token state_value purpose.
  assert (NoDup (EmailVerificationToken.id <$> email_verification_tokens s))
    as Hnd by (apply (bool_decide_unpack _); by vm_compute).
  assert (NoDup (StravaOAuthState.id <$> strava_oauth_states s))
    as Hnds by (apply (bool_decide_unpack _); by vm_compute).
  split; [done|]. split; [vm_compute; by repeat split|].
  exact (token_consumption_outcomes now s sess token state_value purpose Hnd Hnds).
Defined.

End consumption.

(** * Further properties of the handlers *)

(** ** What requests do to the accounts *)

Section accounts.

Implicit Types (s : Store) (sess : Session) (now : Z) (api : StravaApi)
  (u : User.t).

Lemma same_identity_refl u : same_identity u u.
Proof. by repeat split. Qed.

Lemma users_step_frame s s' us :
  users s' = users s → users_step s us → users_step s' us.
Proof.
  intros Heq Hstep. destruct Hstep as [|u u' Hu Hid|u' Hid Hfresh].
  - rewrite <- Heq. apply users_same.
  - rewrite <- Heq in *. by eapply users_saved.
  - rewrite <- Heq in *. by apply users_added.
Qed.

Lemma users_step_saved_get s i u u' :
  Query.get User.id i (users s) = Some u → same_identity u u' →
  users_step s (Query.save User.id u' (users s)).
Proof. intros Hget Hid. apply get_Some in Hget as [Hin _]. by econstructor. Qed.

Ltac users_leaf :=
  cbn [db reply users with_users with_email_verification_tokens
       with_strava_oauth_states with_strava_tokens with_strava_activities
       with_activities];
  first [ apply users_same
        | eapply users_step_saved_get; [eassumption | by repeat split] ].

Lemma signup_errors_nil s username email password confirm :
  Auth.signup_errors s username email password confirm = [] →
  ∀ x, x ∈ users s → User.username x ≠ username ∧ User.email x ≠ email.
Proof.
  unfold Auth.signup_errors. intros Hnil x Hx.
  repeat (apply app_eq_nil in Hnil as [? Hnil]).
  destruct (Query.first (λ u, bool_decide (User.username u = username)) (users s))
    eqn:E1; [done|].
  destruct (Query.first (λ u, bool_decide (User.email u = email)) (users s))
    eqn:E2; [done|].
  pose proof (first_None _ _ _ E1 Hx) as Hf1.
  pose proof (first_None _ _ _ E2 Hx) as Hf2.
  by apply bool_decide_eq_false in Hf1, Hf2.
Qed.

Lemma auth_users_step now api req s sess :
  match req with
  | AuthLogin _ _ _ _ _ | AuthSignup _ _ _ _ _ _ _ | AuthVerifyEmail _
  | AuthResendVerification _ _ | AuthLogout =>
      users_step s (users (db (handle now api req s sess)))
  | _ => True
  end.
Proof.
  destruct req; try done; cbn [handle].
  - unfold Auth.login. repeat case_match; users_leaf.
  - unfold Auth.signup. repeat case_match; try users_leaf.
    match goal with H : Auth.add_verification_token _ _ _ _ = Some _ |- _ =>
      apply add_verification_token_frame in H as (Hu & _) end.
    cbn [db reply]. rewrite Hu. cbn [users with_users]. apply users_added; [done|].
    cbn [User.username User.email]. by eapply signup_errors_nil.
  - unfold Auth.verify_email. repeat case_match; users_leaf.
  - unfold Auth.resend_verification. repeat case_match; try users_leaf;
      cbn [db reply];
      match goal with H : Auth.add_verification_token _ _ _ _ = Some _ |- _ =>
        apply add_verification_token_frame in H as (-> & _) end; apply users_same.
  - unfold Auth.logout, login_required. repeat case_match; users_leaf.
Qed.

Lemma admin_users_step now api req s sess :
  match req with
  | AdminApproveUser _ | AdminRejectUser _ _ | AdminMembersSuspend _ _
  | AdminMembersReactivate _ =>
      users_step s (users (db (handle now api req s sess)))
  | _ => True
  end.
Proof.
  destruct req; try done; cbn [handle];
    [unfold Admin.approve_user | unfold Admin.reject_user
     | unfold Admin.members_suspend | unfold Admin.members_reactivate];
    unfold Admin.admin_required, login_required; repeat case_match; users_leaf.
Qed.

Lemma strava_users_step now api req s sess :
  match req with
  | StravaLogin _ | StravaLoginCallback _ _ _ _ | StravaConnect _
  | StravaCallback _ _ _ | StravaDisconnect | StravaSync _ =>
      users_step s (users (db (handle now api req s sess)))
  | _ => True
  end.
Proof.
  destruct req; try done; cbn [handle].
  - unfold Strava.strava_login. repeat case_match; try users_leaf.
    match goal with H : Strava.create_oauth_state _ _ _ _ _ = Some _ |- _ =>
      apply create_oauth_state_frame in H as (Hu & _) end.
    cbn [db reply]. rewrite Hu. apply users_same.
  - unfold Strava.login_callback.
    destruct (Strava.arg error); [users_leaf|].
    destruct (Strava.arg state_value) as [sv|]; [|users_leaf].
    pose proof (validate_oauth_state_frame now s sv login_purpose) as (Hu & _).
    destruct (Strava.validate_oauth_state now s sv login_purpose)
      as [s1 [st|msg]]; cbn [fst] in Hu;
      (apply (users_step_frame s1 s); [done|]); [|users_leaf].
    repeat case_match; try users_leaf;
      match goal with H : Strava.add_strava_token _ _ _ _ = Some _ |- _ =>
        apply add_strava_token_tokens in H as (Hu2 & _) end;
      match goal with H : Strava.add_user _ _ = Some _ |- _ =>
        apply add_user_frame in H as (Hu3 & _ & Hfresh) end;
      cbn [db]; rewrite Hu2, Hu3; by apply users_added.
  - unfold Strava.connect, login_required. repeat case_match; try users_leaf.
    match goal with H : Strava.create_oauth_state _ _ _ _ _ = Some _ |- _ =>
      apply create_oauth_state_frame in H as (Hu & _) end.
    cbn [db reply]. rewrite Hu. apply users_same.
  - unfold Strava.callback, login_required.
    destruct (current_user s sess) as [cu|]; [|users_leaf].
    destruct (Strava.arg error); [users_leaf|].
    destruct (Strava.arg state_value) as [sv|]; [|users_leaf].
    pose proof (validate_oauth_state_frame now s sv connect_purpose) as (Hu & _).
    destruct (Strava.validate_oauth_state now s sv connect_purpose)
      as [s1 [st|msg]]; cbn [fst] in Hu;
      (apply (users_step_frame s1 s); [done|]); [|users_leaf].
    repeat case_match; try users_leaf;
      match goal with H : Strava.add_strava_token _ _ _ _ = Some _ |- _ =>
        apply add_strava_token_tokens in H as (Hu2 & _) end;
      cbn [db reply]; rewrite Hu2; apply users_same.
  - unfold Strava.disconnect, login_required. repeat case_match; users_leaf.
  - unfold Strava.sync, login_required.
    destruct (current_user s sess) as [cu|]; [|users_leaf].
    destruct (Strava.strava_token_of s cu) as [k|]; [|users_leaf].
    destruct (negb _); [users_leaf|].
    assert (users (Strava.get_valid_token now api s k).1 = users s) as Hu.
    { unfold Strava.get_valid_token, Strava.refresh_access_token.
      destruct (StravaToken.is_expired now k); [|done].
      by destruct (api_token_refresh api _). }
    destruct (Strava.get_valid_token now api s k) as [s1 o]. cbn [fst] in Hu.
    apply (users_step_frame s1 s); [done|]. repeat case_match; users_leaf.
Qed.

Lemma handle_users_step now api req s sess :
  users_step s (users (db (handle now api req s sess))).
Proof.
  pose proof (auth_users_step now api req s sess).
  pose proof (admin_users_step now api req s sess).
  pose proof (strava_users_step now api req s sess).
  by destruct req.
Qed.

Lemma users_step_unique s s' :
  users_step s (users s') → users_unique s → users_unique s'.
Proof.
  intros Hstep (Hid & Hname & Hmail). unfold users_unique.
  inversion Hstep as [Heq|u u' Hu (Hi & Hn & He & _) Heq|u' Hi Hfresh Heq].
  - done.
  - by rewrite !(save_NoDup User.id _ (users s) u u').
  - rewrite !fmap_app. split_and!; apply list.NoDup_app;
      (split_and!; [done| |apply NoDup_singleton]);
      intros y Hy Hy'; apply list_elem_of_singleton in Hy'; subst y;
      apply list_elem_of_fmap in Hy as (x & Hx & Hin).
    + apply (new_id_fresh User.id) in Hin. congruence.
    + destruct (Hfresh x Hin). congruence.
    + destruct (Hfresh x Hin). congruence.
Qed.

Lemma users_step_keeps s s' u :
  users_step s (users s') → NoDup (User.id <$> users s) → u ∈ users s →
  ∃ u', u' ∈ users s' ∧ same_identity u u'.
Proof.
  intros Hstep Hnd Hu.
  inversion Hstep as [Heq|u0 u0' Hu0 Hid Heq|u0' Hi Hfresh Heq].
  - exists u. split; [done|apply same_identity_refl].
  - destruct (decide (User.id u = User.id u0')) as [Hsame|Hne].
    + exists u0'. split.
      * unfold Query.save. apply list_elem_of_fmap. exists u.
        by rewrite bool_decide_eq_true_2.
      * assert (u = u0) as ->; [|done]. destruct Hid as (Hid & _).
        apply list_elem_of_lookup in Hu as [i Hi], Hu0 as [j Hj].
        assert (i = j) as ->; [|congruence].
        eapply NoDup_lookup; [exact Hnd| |]; rewrite list_lookup_fmap.
        -- by rewrite Hi.
        -- rewrite Hj. cbn. f_equal. congruence.
    + exists u. split; [|apply same_identity_refl].
      unfold Query.save. apply list_elem_of_fmap. exists u.
      by rewrite bool_decide_eq_false_2.
  - exists u. split; [|apply same_identity_refl]. apply elem_of_app. by left.
Qed.

Lemma users_step_length s s' :
  users_step s (users s') →
  length (users s') = length (users s) ∨ length (users s') = S (length (users s)).
Proof.
  intros Hstep. inversion Hstep as [Heq|u0 u0' Hu0 Hid Heq|u0' Hi Hfresh Heq].
  - by left.
  - left. apply save_length.
  - right. rewrite length_app. cbn. lia.
Qed.

(** [X1].  No request of the modelled routes removes an account or changes the key,
    username, e-mail, password or role of one; a request adds at most one
    account. *)
Theorem requests_keep_accounts now api req s sess u :
  NoDup (User.id <$> users s) → u ∈ users s →
  let r := handle now api req s sess in
  (∃ u', u' ∈ users (db r) ∧ same_identity u u') ∧
  (length (users (db r)) = length (users s)
   ∨ length (users (db r)) = S (length (users s))).
Proof.
  intros Hnd Hu r. pose proof (handle_users_step now api req s sess) as Hstep.
  split; [by eapply users_step_keeps|by apply users_step_length].
Qed.

Lemma requests_keep_accounts_witness :
  let r := handle 450 Demo.api (AdminMembersSuspend 2 "abuse") (db Demo.approved)
                  Demo.admin_session in
  let anna := User.mk 2 "anna" "anna@example.org" (generate_password_hash "hemligt")
                      (Some "anna") ACTIVE USER (Some 300%Z) (Some 400%Z) (Some 1)
                      None None false 100 in
  (NoDup (User.id <$> users (db Demo.approved)) ∧ anna ∈ users (db Demo.approved)) ∧
  (∃ u', u' ∈ users (db r) ∧ same_identity anna u') ∧
  (length (users (db r)) = length (users (db Demo.approved))
   ∨ length (users (db r)) = S (length (users (db Demo.approved)))).
Proof.
  intros r anna.
  assert (NoDup (User.id <$> users (db Demo.approved))) as Hnd.
  { apply (bool_decide_unpack _). by vm_compute. }
  assert (anna ∈ users (db Demo.approved)) as Hin.
  { vm_compute. repeat constructor. }
  split; [done|].
  exact (requests_keep_accounts 450 Demo.api (AdminMembersSuspend 2 "abuse")
           (db Demo.approved) Demo.admin_session anna Hnd Hin).
Defined.

Lemma reachable_users_unique_aux init s :
  users_unique init → reachable init s → users_unique s.
Proof.
  induction 2 as [|s now api req sess Hr IH]; [done|].
  eapply users_step_unique; [apply handle_users_step|done].
Qed.

(** [X2].  In every database reached from one with distinct accounts, no two
    accounts share a key, a username or an e-mail address. *)
Theorem reachable_users_unique init s :
  users_unique init → reachable init s →
  users_unique s ∧
  ∀ u1 u2, u1 ∈ users s → u2 ∈ users s →
           (User.username u1 = User.username u2 ∨ User.email u1 = User.email u2) →
           u1 = u2.
Proof.
  intros Hinit Hreach.
  pose proof (reachable_users_unique_aux _ _ Hinit Hreach) as Hs.
  split; [done|]. destruct Hs as (_ & Hname & Hmail).
  intros u1 u2 H1 H2 Heq.
  apply list_elem_of_lookup in H1 as [i Hi], H2 as [j Hj].
  assert (i = j) as ->; [|congruence].
  destruct Heq as [Heq|Heq].
  - eapply NoDup_lookup; [exact Hname| |]; rewrite list_lookup_fmap.
    + by rewrite Hi.
    + rewrite Hj. cbn. by rewrite Heq.
  - eapply NoDup_lookup; [exact Hmail| |]; rewrite list_lookup_fmap.
    + by rewrite Hi.
    + rewrite Hj. cbn. by rewrite Heq.
Qed.

Lemma reachable_users_unique_witness :
  (users_unique Demo.start ∧ reachable Demo.start (db Demo.admin_connecting)) ∧
  users_unique (db Demo.admin_connecting) ∧
  ∀ u1 u2, u1 ∈ users (db Demo.admin_connecting) →
           u2 ∈ users (db Demo.admin_connecting) →
           (User.username u1 = User.username u2 ∨ User.email u1 = User.email u2) →
           u1 = u2.
Proof.
  assert (users_unique Demo.start) as Hinit.
  { unfold users_unique. split_and!; apply (bool_decide_unpack _); by vm_compute. }
  split; [split; [exact Hinit|exact demo_reachable]|].
  exact (reachable_users_unique Demo.start (db Demo.admin_connecting) Hinit
           demo_reachable).
Defined.

End accounts.

(** ** Signing up, logging in, asking for a new link *)

Section auth_routes.

Implicit Types (s : Store) (sess : Session) (now : Z) (u : User.t).

Lemma not_logged_in s sess :
  current_user s sess = None → bool_decide (is_Some (current_user s sess)) = false.
Proof. intros ->. apply bool_decide_eq_false. by intros [? ?]. Qed.

Lemma logged_in s sess cu :
  current_user s sess = Some cu → bool_decide (is_Some (current_user s sess)) = true.
Proof. intros ->. by apply bool_decide_eq_true. Qed.

Lemma email_token_fresh_valid now secret i uid t :
  EmailVerificationToken.is_valid t
    (EmailVerificationToken.create_for_user now secret i uid) = true
  ↔ (t < now + 86400)%Z.
Proof.
  unfold EmailVerificationToken.is_valid, EmailVerificationToken.create_for_user,
    EmailVerificationToken.hours. cbn.
  rewrite bool_decide_eq_true. lia.
Qed.

(** [X3].  A visitor who posts valid data gets one new account, waiting for the
    verification of its address, with the role of a plain user and outside
    the leaderboards, and one verification link for it that is good for 24
    hours.  The sign-up opens no session: the user id of the browser session
    is left as it is, so the visitor is not logged in afterwards, unless the
    session still carried the id of an account that is gone and the new
    account has received that id. *)
Theorem signup_creates_pending_account
    now secret s sess form_username form_email form_display_name password confirm :
  current_user s sess = None →
  Auth.signup_errors s (Py.lower (Py.strip form_username))
                     (Py.lower (Py.strip form_email)) password confirm = [] →
  Query.first (λ v, bool_decide (EmailVerificationToken.token v = secret))
              (email_verification_tokens s) = None →
  let r := Auth.signup now secret s sess true form_username form_email
                       form_display_name password confirm in
  ∃ user v,
    users (db r) = users s ++ [user] ∧
    email_verification_tokens (db r) = email_verification_tokens s ++ [v] ∧
    User.username user = Py.lower (Py.strip form_username) ∧
    User.email user = Py.lower (Py.strip form_email) ∧
    User.state user = PENDING_EMAIL_VERIFICATION ∧
    User.role user = USER ∧
    User.leaderboard_opt_in user = false ∧
    User.email_verified_at user = None ∧
    User.check_password user password = true ∧
    EmailVerificationToken.user_id v = User.id user ∧
    EmailVerificationToken.token v = secret ∧
    (∀ t, EmailVerificationToken.is_valid t v = true ↔ (t < now + 86400)%Z) ∧
    session_user_id (session r) = session_user_id sess ∧
    (session_user_id sess ≠ Some (User.id user) →
     current_user (db r) (session r) = None) ∧
    (session_user_id sess = Some (User.id user) →
     current_user (db r) (session r) = Some user) ∧
    pending_verification_user_id (session r) = Some (User.id user) ∧
    response r = Redirect auth_verification_sent.
Proof.
  intros Hcu Herr Hfresh r. subst r. unfold Auth.signup.
  rewrite (not_logged_in _ _ Hcu), Herr. unfold Auth.add_verification_token.
  cbn [email_verification_tokens with_users]. rewrite Hfresh.
  eexists _, _. cbn [db reply session users with_users
    with_email_verification_tokens email_verification_tokens response].
  split_and!; try reflexivity.
  - cbn. by apply bool_decide_eq_true.
  - intros t. apply email_token_fresh_valid.
  - intros Hne. unfold current_user in *.
    cbn [session_user_id set_pending_verification User.id users with_users
         with_email_verification_tokens] in *.
    destruct (session_user_id sess) as [i|]; [|done].
    unfold Query.get, Query.add in *. rewrite (first_app_None _ _ _ Hcu).
    unfold Query.first. cbn [find User.id].
    rewrite bool_decide_eq_false_2; [done|congruence].
  - intros Heq. unfold current_user in *.
    cbn [session_user_id set_pending_verification User.id users with_users
         with_email_verification_tokens] in *.
    rewrite Heq in *.
    unfold Query.get, Query.add in *. rewrite (first_app_None _ _ _ Hcu).
    unfold Query.first. cbn [find User.id].
    by rewrite bool_decide_eq_true_2.
Qed.

Lemma signup_creates_pending_account_witness :
  let r := Auth.signup 100 "T1" Demo.start anonymous true " Anna " "anna@example.org"
                       "" "hemligt" "hemligt" in
  (current_user Demo.start anonymous = None ∧
   Auth.signup_errors Demo.start (Py.lower (Py.strip " Anna "))
                      (Py.lower (Py.strip "anna@example.org")) "hemligt" "hemligt"
   = [] ∧
   Query.first (λ v, bool_decide (EmailVerificationToken.token v = "T1"))
               (email_verification_tokens Demo.start) = None) ∧
  current_user (db r) (session r) = None ∧
  (let stale := mkSession (Some 2) false None in
   let r' := Auth.signup 100 "T1" Demo.start stale true " Anna " "anna@example.org"
                         "" "hemligt" "hemligt" in
   current_user Demo.start stale = None ∧
   session_user_id (session r') = session_user_id stale ∧
   User.username <$> current_user (db r') (session r') = Some "anna") ∧
  ∃ user v,
    users (db r) = users Demo.start ++ [user] ∧
    email_verification_tokens (db r) = email_verification_tokens Demo.start ++ [v] ∧
    User.username user = Py.lower (Py.strip " Anna ") ∧
    User.email user = Py.lower (Py.strip "anna@example.org") ∧
    User.state user = PENDING_EMAIL_VERIFICATION ∧
    User.role user = USER ∧
    User.leaderboard_opt_in user = false ∧
    User.email_verified_at user = None ∧
    User.check_password user "hemligt" = true ∧
    EmailVerificationToken.user_id v = User.id user ∧
    EmailVerificationToken.token v = "T1" ∧
    (∀ t, EmailVerificationToken.is_valid t v = true ↔ (t < 100 + 86400)%Z) ∧
    session_user_id (session r) = session_user_id anonymous ∧
    (session_user_id anonymous ≠ Some (User.id user) →
     current_user (db r) (session r) = None) ∧
    (session_user_id anonymous = Some (User.id user) →
     current_user (db r) (session r) = Some user) ∧
    pending_verification_user_id (session r) = Some (User.id user) ∧
    response r = Redirect auth_verification_sent.
Proof.
  intros r. split; [vm_compute; by repeat split|].
  split; [vm_compute; reflexivity|]. split; [vm_compute; by repeat split|].
  apply (signup_creates_pending_account 100 "T1" Demo.start anonymous " Anna "
           "anna@example.org" "" "hemligt" "hemligt"); vm_compute; reflexivity.
Defined.

(** [X4].  A sign-up whose username or e-mail address belongs to an account already
    is refused: database and session stay as they are. *)
Theorem signup_refuses_taken
    now secret s sess post form_username form_email form_display_name password
    confirm x :
  x ∈ users s →
  User.username x = Py.lower (Py.strip form_username)
  ∨ User.email x = Py.lower (Py.strip form_email) →
  let r := Auth.signup now secret s sess post form_username form_email
                       form_display_name password confirm in
  db r = s ∧ session r = sess ∧ mails r = [].
Proof.
  intros Hx Htaken r. subst r. unfold Auth.signup.
  destruct (bool_decide _); [done|]. destruct post; [|done].
  destruct (Auth.signup_errors _ _ _ _ _) eqn:E; [|done].
  destruct (signup_errors_nil _ _ _ _ _ E x Hx). by destruct Htaken.
Qed.

Lemma signup_refuses_taken_witness :
  let r := Auth.signup 500 "T9" (db Demo.approved) anonymous true "ANNA "
                       "other@example.org" "" "hemligt" "hemligt" in
  let anna := User.mk 2 "anna" "anna@example.org" (generate_password_hash "hemligt")
                      (Some "anna") ACTIVE USER (Some 300%Z) (Some 400%Z) (Some 1)
                      None None false 100 in
  (anna ∈ users (db Demo.approved) ∧
   User.username anna = Py.lower (Py.strip "ANNA ")) ∧
  db r = db Demo.approved ∧ session r = anonymous ∧ mails r = [].
Proof.
  intros r anna.
  assert (anna ∈ users (db Demo.approved)) as Hin by (vm_compute; repeat constructor).
  split; [split; [exact Hin|reflexivity]|].
  apply (signup_refuses_taken 500 "T9" (db Demo.approved) anonymous true "ANNA "
           "other@example.org" "" "hemligt" "hemligt" anna Hin).
  left. reflexivity.
Defined.



(** [X6].  Asking for a new verification mail, for the account the session
    remembers: while the account waits for its verification, one more link is
    stored, good for 24 hours, and every earlier link stays as it was, so a
    link that was valid still is; for an account past that state nothing is
    stored. *)
Theorem resend_verification_keeps_earlier_links now secret s sess form_email i u :
  Auth.id_truthy (pending_verification_user_id sess) = Some i →
  Query.get User.id i (users s) = Some u →
  Query.first (λ v, bool_decide (EmailVerificationToken.token v = secret))
              (email_verification_tokens s) = None →
  let r := Auth.resend_verification now secret s sess form_email in
  (User.state u = PENDING_EMAIL_VERIFICATION →
   ∃ v, email_verification_tokens (db r) = email_verification_tokens s ++ [v] ∧
        EmailVerificationToken.user_id v = i ∧
        EmailVerificationToken.token v = secret ∧
        (∀ t, EmailVerificationToken.is_valid t v = true ↔ (t < now + 86400)%Z) ∧
        users (db r) = users s ∧
        response r = Redirect auth_verification_sent) ∧
  (User.state u ≠ PENDING_EMAIL_VERIFICATION →
   db r = s ∧ flashed r = [("Kontot ar redan verifierat.", "info")] ∧
   response r = Redirect auth_login).
Proof.
  intros Hi Hu Hfresh r. subst r. unfold Auth.resend_verification.
  rewrite Hi, Hu. pose proof (get_Some _ _ _ _ Hu) as [_ Hid]. split.
  - intros Hst. rewrite bool_decide_eq_true_2 by done.
    unfold Auth.add_verification_token. rewrite Hfresh.
    eexists. cbn [db reply email_verification_tokens users response
      with_email_verification_tokens]. split_and!; try reflexivity; [done|].
    intros t. apply email_token_fresh_valid.
  - intros Hst. by rewrite bool_decide_eq_false_2.
Qed.

Lemma resend_verification_keeps_earlier_links_witness :
  let s := db Demo.signed_up in
  let sess := session Demo.signed_up in
  let r := Auth.resend_verification 200 "T2" s sess "" in
  let anna := User.mk 2 "anna" "anna@example.org" (generate_password_hash "hemligt")
                      (Some "anna") PENDING_EMAIL_VERIFICATION USER
                      None None None None None false 100 in
  (Auth.id_truthy (pending_verification_user_id sess) = Some 2 ∧
   Query.get User.id 2 (users s) = Some anna ∧
   Query.first (λ v, bool_decide (EmailVerificationToken.token v = "T2"))
               (email_verification_tokens s) = None) ∧
  EmailVerificationToken.token <$> email_verification_tokens (db r) = ["T1"; "T2"] ∧
  (User.state anna = PENDING_EMAIL_VERIFICATION →
   ∃ v, email_verification_tokens (db r) = email_verification_tokens s ++ [v] ∧
        EmailVerificationToken.user_id v = 2 ∧
        EmailVerificationToken.token v = "T2" ∧
        (∀ t, EmailVerificationToken.is_valid t v = true ↔ (t < 200 + 86400)%Z) ∧
        users (db r) = users s ∧
        response r = Redirect auth_verification_sent) ∧
  (User.state anna ≠ PENDING_EMAIL_VERIFICATION →
   db r = s ∧ flashed r = [("Kontot ar redan verifierat.", "info")] ∧
   response r = Redirect auth_login).
Proof.
  intros s sess r anna. split; [vm_compute; by repeat split|].
  split; [vm_compute; reflexivity|].
  apply (resend_verification_keeps_earlier_links 200 "T2" s sess "" 2 anna);
    vm_compute; reflexivity.
Defined.

End auth_routes.

(** ** The administration of members *)

Section admin_routes.

Implicit Types (s : Store) (sess : Session) (now : Z) (u cu : User.t).

(** [X7].  Without staff rights the routes that approve, reject, suspend, reactivate
    and edit members do nothing: no row changes, no mail leaves, the session
    stays. *)
Theorem admin_routes_need_staff now api s sess :
  (∀ cu, current_user s sess = Some cu → User.has_admin_access cu = false) →
  (∀ req,
     match req with
     | AdminApproveUser _ | AdminRejectUser _ _ | AdminMembersSuspend _ _
     | AdminMembersReactivate _ =>
         let r := handle now api req s sess in
         db r = s ∧ mails r = [] ∧ session r = sess
     | _ => True
     end) ∧
  (∀ id post display_name email role new_password,
     let r := Admin.members_edit s sess id post display_name email role
                                 new_password in
     db r = s ∧ mails r = [] ∧ session r = sess).
Proof.
  intros Hno.
  assert (∀ view, let r := Admin.admin_required s sess view in
                  db r = s ∧ mails r = [] ∧ session r = sess) as Hreq.
  { intros view. unfold Admin.admin_required, login_required.
    destruct (current_user s sess) as [cu|] eqn:E; [|done].
    by rewrite (Hno cu eq_refl). }
  split.
  - intros req. destruct req; try done; apply Hreq.
  - intros. apply Hreq.
Qed.

Lemma admin_routes_need_staff_witness :
  let s := db Demo.verified in
  (∀ cu, current_user s Demo.anna_session = Some cu →
         User.has_admin_access cu = false) ∧
  (let r := handle 350 Demo.api (AdminApproveUser 2) s Demo.anna_session in
   db r = s ∧ mails r = [] ∧ session r = Demo.anna_session) ∧
  (let r := Admin.members_edit s Demo.anna_session 2 true (Some "Anna")
                               (Some "anna@example.org") (Some "admin") None in
   db r = s ∧ mails r = [] ∧ session r = Demo.anna_session).
Proof.
  intros s.
  assert (∀ cu, current_user s Demo.anna_session = Some cu →
                User.has_admin_access cu = false) as Hno.
  { intros cu Hcu. vm_compute in Hcu. by injection Hcu as <-. }
  destruct (admin_routes_need_staff 350 Demo.api s Demo.anna_session Hno)
    as [Hreq Hedit].
  split_and!; [exact Hno|exact (Hreq (AdminApproveUser 2))|apply Hedit].
Defined.

(** [X8].  A member of staff cannot suspend their own account, and one who is not
    an administrator cannot suspend an administrator: nothing is written or
    sent, and the refusal says which of the two it is, the one about the own
    account going first. *)
Theorem members_suspend_protected s sess cu id form_reason :
  current_user s sess = Some cu →
  User.has_admin_access cu = true →
  id = User.id cu
  ∨ (∃ member, Query.get User.id id (users s) = Some member ∧
               User.role member = ADMIN ∧ User.role cu ≠ ADMIN) →
  let r := Admin.members_suspend s sess id form_reason in
  db r = s ∧ mails r = [] ∧ session r = sess ∧
  response r = Redirect admin_members_list ∧
  (id = User.id cu →
   flashed r = [("Du kan inte stanga av dig sjalv!", "error")]) ∧
  (id ≠ User.id cu →
   flashed r = [("Du kan inte stanga av en administrator.", "error")]).
Proof.
  intros Hcu Hstaff Hprot r. subst r.
  unfold Admin.members_suspend, Admin.admin_required, login_required.
  rewrite Hcu, Hstaff. cbn [negb].
  destruct (decide (id = User.id cu)) as [->|Hne].
  - rewrite bool_decide_eq_true_2 by done. by split_and!.
  - destruct Hprot as [?|(member & Hm & Hadm & Hcua)]; [done|].
    rewrite bool_decide_eq_false_2 by done.
    rewrite Hm. unfold User.is_admin_role.
    rewrite (bool_decide_eq_true_2 (User.role member = ADMIN)) by done.
    rewrite (bool_decide_eq_false_2 (User.role cu = ADMIN)) by done.
    cbn. by split_and!.
Qed.

Lemma members_suspend_protected_witness :
  let s := db Demo.promoted in
  let anna := User.mk 2 "anna" "anna@example.org" (generate_password_hash "hemligt")
                      (Some "Anna") ACTIVE MODERATOR (Some 300%Z) (Some 400%Z)
                      (Some 1) None None false 100 in
  let r := Admin.members_suspend s Demo.anna_session 1 "trott" in
  let r' := Admin.members_suspend s Demo.anna_session 2 "trott" in
  (current_user s Demo.anna_session = Some anna ∧
   User.has_admin_access anna = true ∧
   Query.get User.id 1 (users s) = Some Demo.klubban ∧
   User.role Demo.klubban = ADMIN ∧ User.role anna ≠ ADMIN) ∧
  flashed r = [("Du kan inte stanga av en administrator.", "error")] ∧
  flashed r' = [("Du kan inte stanga av dig sjalv!", "error")] ∧
  db r = s ∧ mails r = [] ∧ session r = Demo.anna_session ∧
  response r = Redirect admin_members_list ∧
  (1 = User.id anna →
   flashed r = [("Du kan inte stanga av dig sjalv!", "error")]) ∧
  (1 ≠ User.id anna →
   flashed r = [("Du kan inte stanga av en administrator.", "error")]).
Proof.
  intros s anna r r'. split; [vm_compute; by repeat split|].
  do 2 (split; [vm_compute; reflexivity|]).
  apply (members_suspend_protected s Demo.anna_session anna 1 "trott");
    [vm_compute; reflexivity|reflexivity|].
  right. exists Demo.klubban. split; [vm_compute; reflexivity|by split].
Defined.

(** A write that keeps the identity of a row keeps who is logged in and what
    he may do. *)
Lemma current_user_save s s' sess cu i u u' :
  current_user s sess = Some cu →
  Query.get User.id i (users s) = Some u →
  same_identity u u' →
  users s' = Query.save User.id u' (users s) →
  ∃ cu', current_user s' sess = Some cu' ∧ User.id cu' = User.id cu ∧
         User.role cu' = User.role cu.
Proof.
  unfold current_user. intros Hcu Hu (Hid & _ & _ & _ & Hrole) ->.
  destruct (session_user_id sess) as [j|]; [|done].
  pose proof (get_Some _ _ _ _ Hu) as [_ Hui].
  destruct (decide (User.id u' = j)) as [Hj|Hj].
  - exists u'. rewrite (get_save User.id j _ cu u' Hcu Hj).
    assert (cu = u) as -> by congruence. done.
  - exists cu. by rewrite (get_save_ne User.id).
Qed.

Lemma has_admin_access_role cu cu' :
  User.role cu' = User.role cu →
  User.has_admin_access cu' = User.has_admin_access cu.
Proof. unfold User.has_admin_access. by intros ->. Qed.

(** [X9].  Approval of an account that waits for it: the account becomes [ACTIVE],
    stamped with the time and the approver, keeps its identity, a "joined"
    entry is added to the feed and the approval mail is handed over.  A second
    approval, whenever it comes, is answered with a warning and changes and
    sends nothing. *)
Theorem approve_user_once now now' s sess cu id user :
  current_user s sess = Some cu →
  User.has_admin_access cu = true →
  Query.get User.id id (users s) = Some user →
  User.state user = PENDING_APPROVAL →
  let r := Admin.approve_user now s sess id in
  let r2 := Admin.approve_user now' (db r) sess id in
  (∃ user' entry,
     Query.get User.id id (users (db r)) = Some user' ∧
     User.state user' = ACTIVE ∧
     User.approved_at user' = Some now ∧
     User.approved_by_id user' = Some (User.id cu) ∧
     same_identity user user' ∧
     activities (db r) = activities s ++ [entry] ∧
     Activity.activity_type entry = "joined" ∧ Activity.user_id entry = id ∧
     mails r = [approval_notification id]) ∧
  db r2 = db r ∧ mails r2 = [] ∧
  flashed r2 = [("Denna anvandare vantar inte pa godkannande.", "warning")].
Proof.
  intros Hcu Hstaff Hu Hst r r2.
  pose proof (get_Some _ _ _ _ Hu) as [_ Hid].
  set (user' := User.with_approved_by_id (Some (User.id cu))
                  (User.with_approved_at (Some now) (User.with_state ACTIVE user))).
  assert (same_identity user user') as Hsame by by repeat split.
  assert (r = mkResult
                (with_activities
                   (Query.add (Activity.mk (Query.new_id Activity.id (activities s))
                                 "joined"
                                 (User.shown_name user'
                                  +:+ " gick med i Klubbans Vanner!")
                                 (User.id user')) (activities s))
                   (with_users (Query.save User.id user' (users s)) s))
                sess [(User.shown_name user' +:+ " har godkants!", "success")]
                [approval_notification (User.id user')]
                (Redirect admin_approvals_list)) as Hr.
  { subst r. unfold Admin.approve_user, Admin.admin_required, login_required.
    rewrite Hcu, Hstaff, Hu. cbn [negb].
    by rewrite (bool_decide_eq_true_2 (User.state user = PENDING_APPROVAL)). }
  assert (Query.get User.id id (users (db r)) = Some user') as Hget.
  { rewrite Hr. cbn [db users with_users with_activities].
    by eapply (get_save User.id). }
  split.
  - exists user'. eexists. rewrite Hget, Hr. cbn [db mails activities with_activities].
    split_and!; try done. by rewrite <- Hid.
  - destruct (current_user_save s (db r) sess cu id user user' Hcu Hu Hsame)
      as (cu' & Hcu' & _ & Hrole); [by rewrite Hr|].
    subst r2. unfold Admin.approve_user, Admin.admin_required, login_required.
    rewrite Hcu', (has_admin_access_role _ _ Hrole), Hstaff, Hget. cbn [negb].
    by rewrite (bool_decide_eq_false_2 (User.state user' = PENDING_APPROVAL)).
Qed.

Lemma approve_user_once_witness :
  let s := db Demo.verified in
  let anna := User.mk 2 "anna" "anna@example.org" (generate_password_hash "hemligt")
                      (Some "anna") PENDING_APPROVAL USER (Some 300%Z) None None
                      None None false 100 in
  let r := Admin.approve_user 400 s Demo.admin_session 2 in
  let r2 := Admin.approve_user 900 (db r) Demo.admin_session 2 in
  (current_user s Demo.admin_session = Some Demo.klubban ∧
   User.has_admin_access Demo.klubban = true ∧
   Query.get User.id 2 (users s) = Some anna ∧
   User.state anna = PENDING_APPROVAL) ∧
  (∃ user' entry,
     Query.get User.id 2 (users (db r)) = Some user' ∧
     User.state user' = ACTIVE ∧
     User.approved_at user' = Some 400%Z ∧
     User.approved_by_id user' = Some (User.id Demo.klubban) ∧
     same_identity anna user' ∧
     activities (db r) = activities s ++ [entry] ∧
     Activity.activity_type entry = "joined" ∧ Activity.user_id entry = 2 ∧
     mails r = [approval_notification 2]) ∧
  db r2 = db r ∧ mails r2 = [] ∧
  flashed r2 = [("Denna anvandare vantar inte pa godkannande.", "warning")].
Proof.
  intros s anna r r2. split; [vm_compute; by repeat split|].
  apply (approve_user_once 400 900 s Demo.admin_session Demo.klubban 2 anna);
    vm_compute; reflexivity.
Defined.

(** [X10].  Rejection of an account that waits for approval: the account becomes
    [REJECTED] with the trimmed reason, or none if that is empty, and the
    rejection mail carries the trimmed reason.  The approval route does not
    bring a rejected account back. *)
Theorem reject_user_records_reason now' s sess cu id form_reason user :
  current_user s sess = Some cu →
  User.has_admin_access cu = true →
  Query.get User.id id (users s) = Some user →
  User.state user = PENDING_APPROVAL →
  let r := Admin.reject_user s sess id form_reason in
  let r2 := Admin.approve_user now' (db r) sess id in
  (∃ user',
     Query.get User.id id (users (db r)) = Some user' ∧
     User.state user' = REJECTED ∧
     User.rejection_reason user'
     = (if Py.truthy (Py.strip form_reason) then Some (Py.strip form_reason)
        else None) ∧
     User.suspended_reason user' = User.suspended_reason user ∧
     same_identity user user' ∧
     mails r = [rejection_notification id (Py.strip form_reason)]) ∧
  db r2 = db r ∧ mails r2 = [].
Proof.
  intros Hcu Hstaff Hu Hst r r2.
  pose proof (get_Some _ _ _ _ Hu) as [_ Hid].
  set (user' := User.with_rejection_reason
                  (Admin.reason_or_none (Py.strip form_reason))
                  (User.with_state REJECTED user)).
  assert (same_identity user user') as Hsame by by repeat split.
  assert (r = mkResult (with_users (Query.save User.id user' (users s)) s) sess
                [(User.shown_name user' +:+ " har avvisats.", "info")]
                [rejection_notification (User.id user') (Py.strip form_reason)]
                (Redirect admin_approvals_list)) as Hr.
  { subst r. unfold Admin.reject_user, Admin.admin_required, login_required.
    rewrite Hcu, Hstaff, Hu. cbn [negb].
    by rewrite (bool_decide_eq_true_2 (User.state user = PENDING_APPROVAL)). }
  assert (Query.get User.id id (users (db r)) = Some user') as Hget.
  { rewrite Hr. cbn [db users with_users]. by eapply (get_save User.id). }
  split.
  - exists user'. rewrite Hget, Hr. cbn [mails].
    split_and!; try done. by rewrite <- Hid.
  - destruct (current_user_save s (db r) sess cu id user user' Hcu Hu Hsame)
      as (cu' & Hcu' & _ & Hrole); [by rewrite Hr|].
    subst r2. unfold Admin.approve_user, Admin.admin_required, login_required.
    rewrite Hcu', (has_admin_access_role _ _ Hrole), Hstaff, Hget. cbn [negb].
    by rewrite (bool_decide_eq_false_2 (User.state user' = PENDING_APPROVAL)).
Qed.

Lemma reject_user_records_reason_witness :
  let s := db Demo.verified in
  let anna := User.mk 2 "anna" "anna@example.org" (generate_password_hash "hemligt")
                      (Some "anna") PENDING_APPROVAL USER (Some 300%Z) None None
                      None None false 100 in
  let r := Admin.reject_user s Demo.admin_session 2 "  spam " in
  let r2 := Admin.approve_user 900 (db r) Demo.admin_session 2 in
  (current_user s Demo.admin_session = Some Demo.klubban ∧
   User.has_admin_access Demo.klubban = true ∧
   Query.get User.id 2 (users s) = Some anna ∧
   User.state anna = PENDING_APPROVAL) ∧
  (User.rejection_reason <$> Query.get User.id 2 (users (db r)) = Some (Some "spam")) ∧
  (∃ user',
     Query.get User.id 2 (users (db r)) = Some user' ∧
     User.state user' = REJECTED ∧
     User.rejection_reason user'
     = (if Py.truthy (Py.strip "  spam ") then Some (Py.strip "  spam ") else None) ∧
     User.suspended_reason user' = User.suspended_reason anna ∧
     same_identity anna user' ∧
     mails r = [rejection_notification 2 (Py.strip "  spam ")]) ∧
  db r2 = db r ∧ mails r2 = [].
Proof.
  intros s anna r r2. split; [vm_compute; by repeat split|].
  split; [vm_compute; reflexivity|].
  apply (reject_user_records_reason 900 s Demo.admin_session Demo.klubban 2
           "  spam " anna); vm_compute; reflexivity.
Defined.

End admin_routes.

(** ** Editing members and profiles *)

Section editing.

Implicit Types (s : Store) (sess : Session) (u cu : User.t).

(** A write to the row with a given key keeps a column free of duplicates when
    the new value of the column is not that of another row. *)
Lemma save_NoDup_fresh {A B} (key : A → nat) (g : A → B) (rows : list A) (r' : A) :
  NoDup (key <$> rows) → NoDup (g <$> rows) →
  (∀ x, x ∈ rows → key x ≠ key r' → g x ≠ g r') →
  NoDup (g <$> Query.save key r' rows).
Proof.
  unfold Query.save. induction rows as [|x l IH]; intros Hk Hg Hfresh; [done|].
  rewrite !fmap_cons in *.
  apply list.NoDup_cons in Hk as [Hxk Hk], Hg as [Hxg Hg].
  apply list.NoDup_cons. split.
  - intros Hin. apply list_elem_of_fmap in Hin as (y' & Hy' & Hin).
    apply list_elem_of_fmap in Hin as (y & -> & Hin).
    assert (key y ≠ key x) as Hne.
    { intros Heq. apply Hxk, list_elem_of_fmap. eauto. }
    repeat case_bool_decide.
    + congruence.
    + apply (Hfresh y); [by right|done|done].
    + apply (Hfresh x); [by left|done|done].
    + apply Hxg, list_elem_of_fmap. eauto.
  - apply IH; [done..|]. intros y Hy. apply Hfresh. by right.
Qed.

Lemma current_user_get s sess cu :
  current_user s sess = Some cu →
  Query.get User.id (User.id cu) (users s) = Some cu.
Proof.
  unfold current_user. destruct (session_user_id sess) as [i|]; [|done].
  intros H. pose proof (get_Some _ _ _ _ H) as [_ <-]. done.
Qed.

(** The row [members_edit] writes, when it writes. *)
Lemma members_edit_users s sess id post dn em role pw :
  users (db (Admin.members_edit s sess id post dn em role pw)) = users s
  ∨ ∃ member member',
      Query.get User.id id (users s) = Some member ∧
      users (db (Admin.members_edit s sess id post dn em role pw))
      = Query.save User.id member' (users s) ∧
      User.id member' = User.id member ∧
      User.username member' = User.username member ∧
      User.state member' = User.state member ∧
      (∀ x, x ∈ users s → User.id x ≠ User.id member' →
            User.email x ≠ User.email member') ∧
      (∀ cu, current_user s sess = Some cu → User.role cu ≠ ADMIN →
             User.role member' = User.role member).
Proof.
  unfold Admin.members_edit, Admin.admin_required, login_required.
  destruct (current_user s sess) as [cu|] eqn:Hcu; [|by left].
  destruct (negb _); [by left|].
  destruct (Query.get User.id id (users s)) as [member|] eqn:Hm; [|by left].
  destruct post; [|by left]. destruct em as [email|]; [|by left].
  destruct (Query.first _ _) eqn:E; [by left|].
  right. eexists member, _. split; [done|]. split; [reflexivity|].
  cbn [User.id User.username User.state User.email User.role].
  split_and!; try done.
  - intros x Hx Hne Heq. pose proof (first_None _ _ _ E Hx) as Hf.
    apply andb_false_iff in Hf as [Hf|Hf].
    + by apply bool_decide_eq_false in Hf.
    + apply negb_false_iff, bool_decide_eq_true in Hf. done.
  - intros cu' [= <-] Hrole. unfold User.is_admin_role.
    by rewrite bool_decide_eq_false_2.
Qed.

(** [X11].  Editing a member never touches the state, the key or the username of any
    account, and leaves keys, usernames and e-mail addresses distinct.  An
    edit by a member of staff that posts no e-mail address, or the address
    of another account, fails: the database stays as it is, nothing is
    flashed or sent, and the answer is the error of the broken constraint. *)
Theorem members_edit_keeps_accounts_distinct s sess id post dn em role pw :
  users_unique s →
  let r := Admin.members_edit s sess id post dn em role pw in
  users_unique (db r) ∧
  User.id <$> users (db r) = User.id <$> users s ∧
  User.username <$> users (db r) = User.username <$> users s ∧
  User.state <$> users (db r) = User.state <$> users s ∧
  (∀ cu member,
     current_user s sess = Some cu → User.has_admin_access cu = true →
     Query.get User.id id (users s) = Some member → post = true →
     em = None
     ∨ (∃ x, x ∈ users s ∧ User.id x ≠ id ∧ em = Some (User.email x)) →
     db r = s ∧ response r = ServerError "IntegrityError" ∧
     flashed r = [] ∧ mails r = [] ∧ session r = sess).
Proof.
  intros (Hid & Hname & Hmail) r. subst r.
  assert (∀ cu member,
     current_user s sess = Some cu → User.has_admin_access cu = true →
     Query.get User.id id (users s) = Some member → post = true →
     em = None
     ∨ (∃ x, x ∈ users s ∧ User.id x ≠ id ∧ em = Some (User.email x)) →
     Admin.members_edit s sess id post dn em role pw
     = reply s sess [] (ServerError "IntegrityError")) as Hfail.
  { intros cu member Hcu Hstaff Hm -> Hem.
    unfold Admin.members_edit, Admin.admin_required, login_required.
    rewrite Hcu, Hstaff, Hm. cbn [negb].
    destruct Hem as [->|(x & Hx & Hxid & ->)]; [done|].
    pose proof (get_Some _ _ _ _ Hm) as [_ Hmid].
    destruct (first_is_Some
                (λ y, bool_decide (User.email y = User.email x)
                      && negb (bool_decide (User.id y = User.id member)))
                (users s) x Hx) as [y ->]; [|done].
    apply andb_true_iff. split; [by apply bool_decide_eq_true|].
    apply negb_true_iff, bool_decide_eq_false. congruence. }
  unfold users_unique.
  assert (∀ P : Prop, P →
     (∀ cu member,
        current_user s sess = Some cu → User.has_admin_access cu = true →
        Query.get User.id id (users s) = Some member → post = true →
        em = None
        ∨ (∃ x, x ∈ users s ∧ User.id x ≠ id ∧ em = Some (User.email x)) →
        db (Admin.members_edit s sess id post dn em role pw) = s ∧
        response (Admin.members_edit s sess id post dn em role pw)
        = ServerError "IntegrityError" ∧
        flashed (Admin.members_edit s sess id post dn em role pw) = [] ∧
        mails (Admin.members_edit s sess id post dn em role pw) = [] ∧
        session (Admin.members_edit s sess id post dn em role pw) = sess)) as Hlast.
  { intros P _ cu member Hcu Hstaff Hm Hpost Hem.
    by rewrite (Hfail cu member Hcu Hstaff Hm Hpost Hem). }
  specialize (Hlast True I).
  destruct (members_edit_users s sess id post dn em role pw)
    as [->|(member & member' & Hm & -> & Hi & Hn & Hst & Hfresh & _)]; [done|].
  pose proof (get_Some _ _ _ _ Hm) as [Hin _].
  assert (User.id <$> Query.save User.id member' (users s) = User.id <$> users s)
    as Eid by by eapply (save_NoDup User.id).
  assert (User.username <$> Query.save User.id member' (users s)
          = User.username <$> users s) as Ename by by eapply (save_NoDup User.id).
  assert (User.state <$> Query.save User.id member' (users s)
          = User.state <$> users s) as Est by by eapply (save_NoDup User.id).
  rewrite Eid, Ename, Est. split_and!; try done.
  by apply (save_NoDup_fresh User.id).
Qed.

Lemma members_edit_keeps_accounts_distinct_witness :
  let s := db Demo.approved in
  let taken := Admin.members_edit s Demo.admin_session 2 true (Some "Anna")
                 (Some "klubban@klubbansvanners.se") (Some "moderator") None in
  let r := Admin.members_edit s Demo.admin_session 2 true (Some "Anna")
             (Some "anna@cykel.example") (Some "moderator") None in
  users_unique s ∧
  User.email <$> users (db r) = ["klubban@klubbansvanners.se"; "anna@cykel.example"] ∧
  (db taken = s ∧ response taken = ServerError "IntegrityError" ∧
   flashed taken = [] ∧ mails taken = [] ∧ session taken = Demo.admin_session) ∧
  users_unique (db r) ∧
  User.id <$> users (db r) = User.id <$> users s ∧
  User.username <$> users (db r) = User.username <$> users s ∧
  User.state <$> users (db r) = User.state <$> users s.
Proof.
  intros s taken r.
  assert (users_unique s) as Hs.
  { unfold users_unique. split_and!; apply (bool_decide_unpack _); by vm_compute. }
  split; [exact Hs|]. split; [vm_compute; reflexivity|].
  destruct (members_edit_keeps_accounts_distinct s Demo.admin_session 2 true
              (Some "Anna") (Some "klubban@klubbansvanners.se") (Some "moderator")
              None Hs) as (_ & _ & _ & _ & Hfail).
  split.
  { apply (Hfail Demo.klubban
             (User.mk 2 "anna" "anna@example.org" (generate_password_hash "hemligt")
                      (Some "anna") ACTIVE USER (Some 300%Z) (Some 400%Z) (Some 1)
                      None None false 100));
      try (vm_compute; reflexivity).
    right. exists Demo.klubban. split; [vm_compute; constructor|by split]. }
  destruct (members_edit_keeps_accounts_distinct s Demo.admin_session 2 true
              (Some "Anna") (Some "anna@cykel.example") (Some "moderator") None Hs)
    as (H1 & H2 & H3 & H4 & _).
  by split_and!.
Defined.

(** [X12].  Whatever the form says, an edit by someone who is not an administrator
    leaves every role as it was. *)
Theorem members_edit_role_needs_administrator s sess cu id post dn em role pw :
  NoDup (User.id <$> users s) →
  current_user s sess = Some cu →
  User.role cu ≠ ADMIN →
  User.role <$> users (db (Admin.members_edit s sess id post dn em role pw))
  = User.role <$> users s.
Proof.
  intros Hid Hcu Hrole.
  destruct (members_edit_users s sess id post dn em role pw)
    as [->|(member & member' & Hm & -> & Hi & _ & _ & _ & Hkeep)]; [done|].
  pose proof (get_Some _ _ _ _ Hm) as [Hin _].
  eapply (save_NoDup User.id); [done..|]. by eapply Hkeep.
Qed.

Lemma members_edit_role_needs_administrator_witness :
  let s := db Demo.promoted in
  let anna := User.mk 2 "anna" "anna@example.org" (generate_password_hash "hemligt")
                      (Some "Anna") ACTIVE MODERATOR (Some 300%Z) (Some 400%Z)
                      (Some 1) None None false 100 in
  let r := Admin.members_edit s Demo.anna_session 2 true (Some "Anna")
             (Some "anna@example.org") (Some "admin") None in
  (NoDup (User.id <$> users s) ∧ current_user s Demo.anna_session = Some anna ∧
   User.role anna ≠ ADMIN) ∧
  response r = Redirect admin_members_list ∧
  User.role <$> users (db r) = User.role <$> users s.
Proof.
  intros s anna r.
  assert (NoDup (User.id <$> users s)) as Hnd
    by (apply (bool_decide_unpack _); by vm_compute).
  split; [split_and!; [exact Hnd|vm_compute; reflexivity|done]|].
  split; [vm_compute; reflexivity|].
  apply (members_edit_role_needs_administrator s Demo.anna_session anna 2 true
           (Some "Anna") (Some "anna@example.org") (Some "admin") None Hnd);
    [vm_compute; reflexivity|done].
Defined.

Lemma UserRole_of_value_value r : UserRole_of_value (UserRole_value r) = Some r.
Proof. by destruct r. Qed.

(** [X13].  An administrator can give a member any of the three roles, named by its
    value; a role value outside the three leaves the role as it is.  The
    e-mail address and the display name are taken from the form, a non-empty
    new password replaces the old one, and the state is not touched. *)
Theorem members_edit_administrator_sets_role
    s sess cu id member dn email new_role pw :
  current_user s sess = Some cu →
  User.role cu = ADMIN →
  Query.get User.id id (users s) = Some member →
  Query.first (λ x, bool_decide (User.email x = email)
                    && negb (bool_decide (User.id x = User.id member)))
              (users s) = None →
  let r := Admin.members_edit s sess id true dn (Some email) (Some new_role) pw in
  ∃ member',
    Query.get User.id id (users (db r)) = Some member' ∧
    (∀ r0, new_role = UserRole_value r0 → User.role member' = r0) ∧
    (UserRole_of_value new_role = None → User.role member' = User.role member) ∧
    User.email member' = email ∧
    User.display_name member' = dn ∧
    User.state member' = User.state member ∧
    (∀ p, pw = Some p → p ≠ "" → User.check_password member' p = true) ∧
    (pw = None ∨ pw = Some "" →
     User.password_hash member' = User.password_hash member).
Proof.
  intros Hcu Hadmin Hm Hfree r. subst r.
  unfold Admin.members_edit, Admin.admin_required, login_required.
  rewrite Hcu. unfold User.has_admin_access, User.is_admin_role.
  rewrite (bool_decide_eq_true_2 (User.role cu = ADMIN)) by done.
  cbn [orb negb]. rewrite Hm, Hfree. cbn [db reply users with_users].
  pose proof (get_Some _ _ _ _ Hm) as [_ Hid].
  eexists. split; [by eapply (get_save User.id)|].
  cbn [User.role User.email User.display_name User.state User.password_hash
       User.check_password].
  split_and!; try done.
  - intros r0 ->. by rewrite UserRole_of_value_value.
  - by intros ->.
  - intros p -> Hp. unfold Py.truthy.
    rewrite (bool_decide_eq_false_2 (p = "")) by done. cbn.
    by apply bool_decide_eq_true.
  - by intros [->| ->].
Qed.

Lemma members_edit_administrator_sets_role_witness :
  let s := db Demo.approved in
  let anna := User.mk 2 "anna" "anna@example.org" (generate_password_hash "hemligt")
                      (Some "anna") ACTIVE USER (Some 300%Z) (Some 400%Z) (Some 1)
                      None None false 100 in
  (current_user s Demo.admin_session = Some Demo.klubban ∧
   User.role Demo.klubban = ADMIN ∧
   Query.get User.id 2 (users s) = Some anna ∧
   Query.first (λ x, bool_decide (User.email x = "anna@example.org")
                     && negb (bool_decide (User.id x = User.id anna)))
               (users s) = None) ∧
  User.role <$> users (db Demo.promoted) = [ADMIN; MODERATOR] ∧
  ∃ member',
    Query.get User.id 2 (users (db Demo.promoted)) = Some member' ∧
    (∀ r0, "moderator" = UserRole_value r0 → User.role member' = r0) ∧
    (UserRole_of_value "moderator" = None → User.role member' = User.role anna) ∧
    User.email member' = "anna@example.org" ∧
    User.display_name member' = Some "Anna" ∧
    User.state member' = User.state anna ∧
    (∀ p, @None string = Some p → p ≠ "" → User.check_password member' p = true) ∧
    (@None string = None ∨ @None string = Some "" →
     User.password_hash member' = User.password_hash anna).
Proof.
  intros s anna. split; [vm_compute; by repeat split|].
  split; [vm_compute; reflexivity|].
  apply (members_edit_administrator_sets_role s Demo.admin_session Demo.klubban 2
           anna (Some "Anna") "anna@example.org" "moderator" None);
    vm_compute; reflexivity.
Defined.

(** [X14].  Editing one's profile: the leaderboard consent is on exactly when the
    form sends the box as "on", so a form without it withdraws the consent;
    an empty display name keeps the old one; identity and state of the
    account and all other accounts stay as they are. *)
Theorem profile_edit_opt_in_explicit s sess cu form_display_name form_opt_in :
  NoDup (User.id <$> users s) →
  current_user s sess = Some cu →
  let r := Profile.edit s sess true form_display_name form_opt_in in
  ∃ cu',
    Query.get User.id (User.id cu) (users (db r)) = Some cu' ∧
    (User.leaderboard_opt_in cu' = true ↔ form_opt_in = Some "on") ∧
    User.display_name cu'
    = (if Py.truthy (Py.strip form_display_name)
       then Some (Py.strip form_display_name) else User.display_name cu) ∧
    same_identity cu cu' ∧
    User.state cu' = User.state cu ∧
    (∀ u, u ∈ users s → User.id u ≠ User.id cu → u ∈ users (db r)) ∧
    length (users (db r)) = length (users s).
Proof.
  intros Hnd Hcu r. subst r. unfold Profile.edit, login_required. rewrite Hcu.
  cbn [db reply users with_users].
  pose proof (current_user_get _ _ _ Hcu) as Hget.
  eexists. split; [by eapply (get_save User.id)|].
  cbn [User.leaderboard_opt_in User.display_name User.state User.id].
  split_and!; try done.
  - by rewrite bool_decide_eq_true.
  - intros u Hu Hne. unfold Query.save. apply list_elem_of_fmap. exists u.
    cbn [User.id]. by rewrite bool_decide_eq_false_2.
  - apply save_length.
Qed.

Lemma profile_edit_opt_in_explicit_witness :
  let s := db Demo.approved in
  let anna := User.mk 2 "anna" "anna@example.org" (generate_password_hash "hemligt")
                      (Some "anna") ACTIVE USER (Some 300%Z) (Some 400%Z) (Some 1)
                      None None false 100 in
  let r := Profile.edit s Demo.anna_session true "  " (Some "on") in
  (NoDup (User.id <$> users s) ∧ current_user s Demo.anna_session = Some anna) ∧
  User.leaderboard_opt_in <$> users (db r) = [true; true] ∧
  User.leaderboard_opt_in
    <$> users (db (Profile.edit (db r) Demo.anna_session true "Anna B" None))
  = [true; false] ∧
  ∃ cu',
    Query.get User.id (User.id anna) (users (db r)) = Some cu' ∧
    (User.leaderboard_opt_in cu' = true ↔ Some "on" = Some "on") ∧
    User.display_name cu'
    = (if Py.truthy (Py.strip "  ") then Some (Py.strip "  ")
       else User.display_name anna) ∧
    same_identity anna cu' ∧
    User.state cu' = User.state anna ∧
    (∀ u, u ∈ users s → User.id u ≠ User.id anna → u ∈ users (db r)) ∧
    length (users (db r)) = length (users s).
Proof.
  intros s anna r.
  assert (NoDup (User.id <$> users s)) as Hnd
    by (apply (bool_decide_unpack _); by vm_compute).
  split; [split; [exact Hnd|vm_compute; reflexivity]|].
  do 2 (split; [vm_compute; reflexivity|]).
  apply (profile_edit_opt_in_explicit s Demo.anna_session anna "  " (Some "on") Hnd).
  vm_compute; reflexivity.
Defined.

End editing.

(** ** What requests do to the links *)

Section link_rows.

Implicit Types (s : Store) (sess : Session) (now : Z) (api : StravaApi)
  (k : StravaToken.t).

Lemma same_link_refl k : same_link k k.
Proof. by repeat split. Qed.

Lemma links_kept_frame s0 s s' :
  strava_tokens s0 = strava_tokens s → links_kept s0 s' → links_kept s s'.
Proof.
  intros Heq [H|k a r e Hk H|k Hid Hfresh Hu H]; rewrite Heq in *.
  - by apply links_same.
  - by eapply links_refreshed.
  - by eapply links_added.
Qed.

Lemma get_is_Some_elem (us : list User.t) u :
  u ∈ us → is_Some (Query.get User.id (User.id u) us).
Proof.
  intros Hu. eapply first_is_Some; [exact Hu|]. by apply bool_decide_eq_true.
Qed.

Lemma login_callback_links_kept now api secret s sess e v c :
  links_kept s (db (Strava.login_callback now api secret s sess e v c)).
Proof.
  unfold Strava.login_callback.
  destruct (Strava.arg e); [by apply links_same|].
  destruct (Strava.arg v) as [sv|]; [|by apply links_same].
  pose proof (validate_oauth_state_frame now s sv login_purpose) as (_ & Htok & _).
  destruct (Strava.validate_oauth_state now s sv login_purpose) as [s1 [st|msg]];
    cbn [fst] in Htok; apply (links_kept_frame s1); [done| |done|by apply links_same].
  destruct (Strava.arg c); [|by apply links_same].
  destruct (Strava.exchange_code_for_token _ _) as [td|]; [|by apply links_same].
  destruct (athlete_id (athlete td)) as [a|]; [|by apply links_same].
  case_bool_decide; [by apply links_same|].
  destruct (Query.first _ (strava_tokens s1)) as [k|] eqn:Ek.
  - destruct (Query.get _ _ _) as [u|]; [|by apply links_same].
    destruct (negb _); [repeat case_bool_decide; by apply links_same|].
    cbn [db reply]. eapply links_refreshed; [|done].
    by apply first_Some in Ek as [? _].
  - destruct (Strava.generate_username_from_strava _ _); [|by apply links_same].
    destruct (Strava.add_user _ s1) as [sa|] eqn:E2; [|by apply links_same].
    destruct (Strava.add_strava_token _ _ _ sa) as [sb|] eqn:E3;
      [|by apply links_same].
    cbn [db].
    apply add_user_frame in E2 as (Hu & Ht & _).
    apply add_strava_token_tokens in E3 as (Hu' & k & Hk & Hid & Huid & Ha & Hfresh).
    rewrite Ht in Hk, Hid, Hfresh.
    apply (links_added _ _ k); [done| |  |done].
    + intros x Hx. rewrite Huid, Ha. by apply Hfresh.
    + rewrite Huid, Hu', Hu.
      match goal with |- context [?l ++ [?u]] =>
        apply (get_is_Some_elem (l ++ [u]) u) end.
      apply elem_of_app. right. by apply list_elem_of_singleton.
Qed.

Lemma callback_links_kept now api s sess e v c :
  links_kept s (db (Strava.callback now api s sess e v c)).
Proof.
  unfold Strava.callback, login_required.
  destruct (current_user s sess) as [cu|] eqn:Ecu; [|by apply links_same].
  destruct (Strava.arg e); [by apply links_same|].
  destruct (Strava.arg v) as [sv|]; [|by apply links_same].
  pose proof (validate_oauth_state_frame now s sv connect_purpose) as (Hus & Htok & _).
  destruct (Strava.validate_oauth_state now s sv connect_purpose) as [s1 [st|msg]];
    cbn [fst] in Htok, Hus;
    apply (links_kept_frame s1); [done| |done|by apply links_same].
  destruct (negb _); [by apply links_same|].
  destruct (Strava.arg c); [|by apply links_same].
  destruct (Strava.exchange_code_for_token _ _) as [td|]; [|by apply links_same].
  match goal with |- context [if ?b then _ else _] => destruct b end;
    [by apply links_same|].
  destruct (Strava.strava_token_of s1 cu) as [k|] eqn:Ek.
  - cbn [db reply]. eapply links_refreshed; [|done].
    by apply strava_token_of_elem in Ek as [? _].
  - destruct (athlete_id (athlete td)) as [a|]; [|by apply links_same].
    destruct (Strava.add_strava_token _ _ _ s1) as [sa|] eqn:E2;
      [|by apply links_same].
    cbn [db reply].
    apply add_strava_token_tokens in E2 as (Hu' & k & Hk & Hid & Huid & Ha & Hfresh).
    apply (links_added _ _ k); [done| | |done].
    + intros x Hx. rewrite Huid, Ha. by apply Hfresh.
    + rewrite Huid, Hu', Hus. apply current_user_get in Ecu. by rewrite Ecu.
Qed.

Lemma disconnect_links_step s sess :
  links_step s (db (Strava.disconnect s sess)).
Proof.
  unfold Strava.disconnect, login_required.
  destruct (current_user s sess) as [cu|]; [|by apply links_step_kept, links_same].
  destruct (Strava.strava_token_of s cu) as [k|] eqn:Ek;
    [|by apply links_step_kept, links_same].
  cbn [db reply]. apply (links_removed _ _ k); [|done].
  by apply strava_token_of_elem in Ek as [? _].
Qed.

Lemma sync_links_kept fuel now api s sess :
  links_kept s (db (Strava.sync fuel now api s sess)).
Proof.
  unfold Strava.sync, login_required.
  destruct (current_user s sess) as [cu|]; [|by apply links_same].
  destruct (Strava.strava_token_of s cu) as [k|] eqn:Ek; [|by apply links_same].
  destruct (negb _); [by apply links_same|].
  apply strava_token_of_elem in Ek as [Hk _].
  unfold Strava.get_valid_token, Strava.refresh_access_token.
  destruct (StravaToken.is_expired now k).
  - destruct (api_token_refresh api _) as [d|]; [|by apply links_same].
    destruct (negb _); [by eapply links_refreshed|].
    destruct (Strava.sync_loop _ _ _ _ _ _ _ _); by eapply links_refreshed.
  - destruct (negb _); [by apply links_same|].
    destruct (Strava.sync_loop _ _ _ _ _ _ _ _); by apply links_same.
Qed.

Lemma disconnect_or_not (req : Request) :
  req = StravaDisconnect ∨ req ≠ StravaDisconnect.
Proof. destruct req; (by left) || (by right). Qed.

Lemma handle_links_kept now api req s sess :
  req ≠ StravaDisconnect → links_kept s (db (handle now api req s sess)).
Proof.
  intros Hreq. pose proof (other_handlers_keep_tokens now api req s sess) as H.
  destruct req; try (by apply links_same); try done; cbn [handle].
  - apply login_callback_links_kept.
  - apply callback_links_kept.
  - apply sync_links_kept.
Qed.

Lemma handle_links_step now api req s sess :
  links_step s (db (handle now api req s sess)).
Proof.
  destruct (disconnect_or_not req) as [->|Hne].
  - apply disconnect_links_step.
  - by apply links_step_kept, handle_links_kept.
Qed.

Lemma elem_of_save_inv {A} (key : A → nat) (r' x : A) (rows : list A) :
  x ∈ Query.save key r' rows → x = r' ∨ x ∈ rows.
Proof.
  unfold Query.save. intros H. apply list_elem_of_fmap in H as (y & -> & Hy).
  case_bool_decide; [by left|by right].
Qed.

Lemma elem_of_delete {A} (p : A → bool) (x : A) (rows : list A) :
  x ∈ Query.delete p rows ↔ x ∈ rows ∧ p x = false.
Proof.
  unfold Query.delete. rewrite !list_elem_of_In, filter_In, negb_true_iff.
  done.
Qed.

Lemma NoDup_fmap_inj_elem {A B} `{EqDecision B} (g : A → B) (l : list A) x y :
  NoDup (g <$> l) → x ∈ l → y ∈ l → g x = g y → x = y.
Proof.
  intros Hnd Hx Hy Hg.
  apply list_elem_of_lookup in Hx as [i Hi], Hy as [j Hj].
  assert (i = j) as ->; [|congruence].
  eapply NoDup_lookup; [exact Hnd| |]; rewrite list_lookup_fmap.
  - by rewrite Hi.
  - rewrite Hj. cbn. by rewrite Hg.
Qed.

Lemma links_step_wf s s' :
  links_step s s' → users_step s (users s') → links_wf s → links_wf s'.
Proof.
  intros Hstep Hus (Hu & Hid & Huid & Hfk).
  assert (NoDup (User.id <$> users s')) as Hu'.
  { assert (users_unique_ids : ∀ s0, users s0 = users s' →
              NoDup (User.id <$> users s0)); [|by eapply users_unique_ids].
    intros s0 Heq. rewrite Heq. clear s0 Heq.
    inversion Hus as [Heq|u u' Hin (Hi & _) Heq|u' Hi Hfresh Heq].
    - done.
    - by rewrite (save_NoDup User.id _ (users s) u u').
    - rewrite fmap_app. apply list.NoDup_app.
      split_and!; [done| |apply NoDup_singleton].
      intros y Hy Hy'. apply list_elem_of_singleton in Hy'. subst y.
      apply list_elem_of_fmap in Hy as (x & Hx & Hin).
      apply (new_id_fresh User.id) in Hin. congruence. }
  assert (∀ k, k ∈ strava_tokens s →
               is_Some (Query.get User.id (StravaToken.user_id k) (users s')))
    as Hfk'.
  { intros k Hk. destruct (Hfk k Hk) as [u Hget].
    apply get_Some in Hget as [Hin Hi].
    destruct (users_step_keeps s s' u Hus Hu Hin) as (u' & Hin' & Hi' & _).
    rewrite <- Hi, <- Hi'. by apply get_is_Some_elem. }
  unfold links_wf. split; [done|].
  destruct Hstep as [[H|k a r e Hk H|k Hkid Hfresh Hown H]|k Hk H]; rewrite H.
  - done.
  - rewrite !(save_NoDup StravaToken.id _ (strava_tokens s) k) by done.
    split_and!; try done. intros x Hx.
    apply elem_of_save_inv in Hx as [->|Hx]; [|by apply Hfk'].
    by apply (Hfk' k).
  - split_and!.
    + by apply (add_NoDup_key StravaToken.id).
    + rewrite fmap_app. apply list.NoDup_app.
      split_and!; [done| |apply NoDup_singleton].
      intros y Hy Hy'. apply list_elem_of_singleton in Hy'. subst y.
      apply list_elem_of_fmap in Hy as (x & Hx & Hin).
      destruct (Hfresh x Hin). congruence.
    + intros x Hx. apply elem_of_app in Hx as [Hx|Hx]; [by apply Hfk'|].
      apply list_elem_of_singleton in Hx. by subst x.
  - split_and!; [by apply delete_NoDup..|].
    intros x Hx. apply elem_of_delete in Hx as [Hx _]. by apply Hfk'.
Qed.

Lemma reachable_links_wf init s : links_wf init → reachable init s → links_wf s.
Proof.
  induction 2 as [|s now api req sess Hr IH]; [done|].
  eapply links_step_wf; [apply handle_links_step|apply handle_users_step|done].
Qed.

(** [X15].  In every database reached from a well-formed one, a user has at most one
    link, the user of every link exists, and so a login with Strava by a
    linked athlete never fails on a missing user. *)
Theorem user_linked_to_one_athlete init s :
  links_wf init → reachable init s →
  (∀ k1 k2, k1 ∈ strava_tokens s → k2 ∈ strava_tokens s →
            StravaToken.user_id k1 = StravaToken.user_id k2 → k1 = k2) ∧
  (∀ k, k ∈ strava_tokens s →
        ∃ u, u ∈ users s ∧ User.id u = StravaToken.user_id k) ∧
  (∀ now api secret sess e v c,
     response (Strava.login_callback now api secret s sess e v c)
     ≠ ServerError "AttributeError").
Proof.
  intros Hinit Hreach.
  destruct (reachable_links_wf _ _ Hinit Hreach) as (Hu & Hid & Huid & Hfk).
  split_and!.
  - intros k1 k2 H1 H2 Heq. by eapply (NoDup_fmap_inj_elem StravaToken.user_id).
  - intros k Hk. destruct (Hfk k Hk) as [u Hget].
    apply get_Some in Hget as [? ?]. eauto.
  - intros now api secret sess e v c. unfold Strava.login_callback.
    destruct (Strava.arg e); [done|].
    destruct (Strava.arg v) as [sv|]; [|done].
    pose proof (validate_oauth_state_frame now s sv login_purpose)
      as (Hus & Htok & _).
    destruct (Strava.validate_oauth_state now s sv login_purpose)
      as [s1 [st|msg]]; cbn [fst] in Htok, Hus; [|done].
    destruct (Strava.arg c); [|done].
    destruct (Strava.exchange_code_for_token _ _) as [td|]; [|done].
    destruct (athlete_id (athlete td)) as [a|]; [|done].
    case_bool_decide; [done|].
    destruct (Query.first _ (strava_tokens s1)) as [k|] eqn:Ek.
    + apply first_Some in Ek as [Hk _]. rewrite Htok in Hk.
      destruct (Hfk k Hk) as [u Hget]. rewrite Hus, Hget.
      destruct (negb _); [by repeat case_bool_decide|done].
    + destruct (Strava.generate_username_from_strava _ _); [|done].
      destruct (Strava.add_user _ s1) as [sa|]; [|done].
      by destruct (Strava.add_strava_token _ _ _ sa).
Qed.

Lemma user_linked_to_one_athlete_witness :
  let s := db Demo.admin_connecting in
  (links_wf Demo.start ∧ reachable Demo.start s) ∧
  (∀ k1 k2, k1 ∈ strava_tokens s → k2 ∈ strava_tokens s →
            StravaToken.user_id k1 = StravaToken.user_id k2 → k1 = k2) ∧
  (∀ k, k ∈ strava_tokens s →
        ∃ u, u ∈ users s ∧ User.id u = StravaToken.user_id k) ∧
  (∀ now api secret sess e v c,
     response (Strava.login_callback now api secret s sess e v c)
     ≠ ServerError "AttributeError").
Proof.
  intros s.
  assert (links_wf Demo.start) as Hinit.
  { unfold links_wf. split_and!; try (apply (bool_decide_unpack _); by vm_compute).
    intros k Hk. by apply elem_of_nil in Hk. }
  split; [split; [exact Hinit|exact demo_reachable]|].
  exact (user_linked_to_one_athlete Demo.start s Hinit demo_reachable).
Defined.

(** [X16].  Only a disconnect by its own user removes a link: after any other
    request every link is still there, for the same user and athlete. *)
Theorem requests_keep_links now api req s sess k :
  NoDup (StravaToken.id <$> strava_tokens s) →
  k ∈ strava_tokens s →
  (req = StravaDisconnect →
   ∀ cu, current_user s sess = Some cu → StravaToken.user_id k ≠ User.id cu) →
  ∃ k', k' ∈ strava_tokens (db (handle now api req s sess)) ∧ same_link k k'.
Proof.
  intros Hnd Hk Hreq.
  destruct (disconnect_or_not req) as [->|Hne].
  - specialize (Hreq eq_refl). cbn [handle].
    unfold Strava.disconnect, login_required.
    destruct (current_user s sess) as [cu|];
      [|exists k; split; [done|apply same_link_refl]].
    destruct (Strava.strava_token_of s cu) as [k0|] eqn:Ek;
      [|exists k; split; [done|apply same_link_refl]].
    apply strava_token_of_elem in Ek as [Hk0 Huid].
    exists k. split; [|apply same_link_refl]. cbn [db reply strava_tokens
      with_strava_tokens]. apply elem_of_delete. split; [done|].
    apply bool_decide_eq_false. intros Hid.
    assert (k = k0) as -> by by eapply (NoDup_fmap_inj_elem StravaToken.id).
    by eapply Hreq.
  - destruct (handle_links_kept now api req s sess Hne)
      as [H|k0 a r e Hk0 H|k0 Hkid Hfresh Hown H]; rewrite H.
    + exists k. split; [done|apply same_link_refl].
    + destruct (decide (StravaToken.id k = StravaToken.id k0)) as [Heq|Hneq].
      * exists (StravaToken.with_tokens a r e k0). split.
        -- unfold Query.save. apply list_elem_of_fmap. exists k.
           by rewrite bool_decide_eq_true_2.
        -- assert (k = k0) as -> by by eapply (NoDup_fmap_inj_elem StravaToken.id).
           by repeat split.
      * exists k. split; [|apply same_link_refl].
        unfold Query.save. apply list_elem_of_fmap. exists k.
        by rewrite bool_decide_eq_false_2.
    + exists k. split; [|apply same_link_refl]. apply elem_of_app. by left.
Qed.

Lemma requests_keep_links_witness :
  let s := db Demo.linked in
  let k := StravaToken.mk 1 2 77 "access" "refresh" 99999 in
  (NoDup (StravaToken.id <$> strava_tokens s) ∧ k ∈ strava_tokens s ∧
   current_user s Demo.admin_session = Some Demo.klubban ∧
   StravaToken.user_id k ≠ User.id Demo.klubban) ∧
  ∃ k', k' ∈ strava_tokens (db (handle 600 Demo.api StravaDisconnect s
                                       Demo.admin_session))
        ∧ same_link k k'.
Proof.
  intros s k.
  assert (NoDup (StravaToken.id <$> strava_tokens s)) as Hnd
    by (apply (bool_decide_unpack _); by vm_compute).
  assert (k ∈ strava_tokens s) as Hk by (vm_compute; constructor).
  split; [split_and!; [done|done|vm_compute; reflexivity|by vm_compute]|].
  apply (requests_keep_links 600 Demo.api StravaDisconnect s Demo.admin_session
           k Hnd Hk).
  intros _ cu Hcu. vm_compute in Hcu. injection Hcu as <-. by vm_compute.
Defined.

End link_rows.

(** ** The Strava routes *)

Section strava_routes.

Implicit Types (s : Store) (sess : Session) (now : Z) (api : StravaApi)
  (k : StravaToken.t) (cu : User.t).

Lemma first_orb_None {A} (p q : A → bool) (l : list A) :
  Query.first p l = None → Query.first q l = None →
  Query.first (λ x, p x || q x) l = None.
Proof.
  unfold Query.first. induction l as [|x l IH]; [done|]. cbn [find].
  destruct (p x); [done|]. destruct (q x); [done|]. exact IH.
Qed.

(** [X17].  A member who is active and has no link goes through [connect] and comes
    back through [callback] within ten minutes with a code Strava accepts
    for an athlete nobody is linked to: the member is then linked to that
    athlete with the credentials Strava gave, and is sent on to the first
    synchronisation. *)
Theorem connect_then_callback_links
    now now' api secret s sess cu code c token_data a :
  current_user s sess = Some cu →
  User.state cu = ACTIVE →
  Strava.strava_token_of s cu = None →
  secret ≠ "" →
  Query.first (λ v, bool_decide (StravaOAuthState.state v = secret))
              (strava_oauth_states s) = None →
  (now' < now + 600)%Z →
  Strava.arg code = Some c →
  Strava.exchange_code_for_token api c = Some token_data →
  athlete_id (athlete token_data) = Some a →
  Query.first (λ k, bool_decide (StravaToken.strava_athlete_id k = a))
              (strava_tokens s) = None →
  let r1 := Strava.connect now secret s sess in
  let r2 := Strava.callback now' api (db r1) (session r1) None (Some secret) code in
  response r1 = RedirectAuthorize strava_callback secret ∧
  response r2 = Redirect strava_sync ∧
  users (db r2) = users s ∧
  ∃ link,
    strava_tokens (db r2) = strava_tokens s ++ [link] ∧
    Strava.strava_token_of (db r2) cu = Some link ∧
    StravaToken.user_id link = User.id cu ∧
    StravaToken.strava_athlete_id link = a ∧
    StravaToken.access_token link = td_access_token token_data ∧
    StravaToken.refresh_token link = td_refresh_token token_data ∧
    StravaToken.expires_at link = td_expires_at token_data.
Proof.
  intros Hcu Hst Hlink Hsecret Hfresh Hnow Hc Hex Ha Hfree r1 r2.
  assert (r1 = reply (with_strava_oauth_states
                        (Query.add (StravaOAuthState.create now secret
                                      (Query.new_id StravaOAuthState.id
                                                    (strava_oauth_states s))
                                      connect_purpose (Some (User.id cu)))
                                   (strava_oauth_states s)) s)
                     sess [] (RedirectAuthorize strava_callback secret)) as Hr1.
  { subst r1. unfold Strava.connect, login_required, Strava.create_oauth_state.
    rewrite Hcu, Hst, Hlink, Hfresh. by rewrite bool_decide_eq_true_2. }
  split; [by rewrite Hr1|].
  subst r2. rewrite Hr1. cbn [db session reply].
  set (st := StravaOAuthState.create _ _ _ _ _).
  set (s1 := with_strava_oauth_states _ s).
  assert (current_user s1 sess = Some cu) as Hcu1 by exact Hcu.
  assert (Strava.validate_oauth_state now' s1 secret connect_purpose
          = (with_strava_oauth_states
               (Query.save StravaOAuthState.id (StravaOAuthState.mark_used now' st)
                           (strava_oauth_states s1)) s1,
             inl (StravaOAuthState.mark_used now' st))) as Hval.
  { apply validate_oauth_state_valid; [|subst st|done].
    - subst s1. cbn [strava_oauth_states with_strava_oauth_states].
      apply first_add; [done|]. by apply bool_decide_eq_true.
    - unfold StravaOAuthState.is_valid, StravaOAuthState.create,
        StravaOAuthState.minutes. cbn [StravaOAuthState.used_at
        StravaOAuthState.expires_at]. apply andb_true_iff.
      split; apply bool_decide_eq_true; [done|lia]. }
  unfold Strava.callback, login_required. rewrite Hcu1.
  assert (Strava.arg (Some secret) = Some secret) as ->.
  { unfold Strava.arg, Py.truthy. by rewrite bool_decide_eq_false_2. }
  cbn [Strava.arg]. rewrite Hval.
  cbn [StravaOAuthState.user_id StravaOAuthState.mark_used].
  rewrite (bool_decide_eq_true_2 (StravaOAuthState.user_id st = Some (User.id cu)))
    by done. cbn [negb]. rewrite Hc, Hex, Ha.
  subst s1 st. cbn [strava_tokens with_strava_oauth_states]. rewrite Hfree.
  unfold Strava.strava_token_of in *.
  cbn [strava_tokens with_strava_oauth_states]. rewrite Hlink.
  unfold Strava.add_strava_token.
  cbn [strava_tokens with_strava_oauth_states].
  rewrite (first_orb_None _ _ _ Hlink Hfree).
  cbn [db reply response users strava_tokens with_strava_tokens
       with_strava_oauth_states].
  split_and!; [done..|]. eexists. split; [reflexivity|].
  split; [|by split_and!].
  apply first_add; [done|]. by apply bool_decide_eq_true.
Qed.

Lemma connect_then_callback_links_witness :
  let s := db Demo.approved in
  let anna := User.mk 2 "anna" "anna@example.org" (generate_password_hash "hemligt")
                      (Some "anna") ACTIVE USER (Some 300%Z) (Some 400%Z) (Some 1)
                      None None false 100 in
  let token_data := mkTokenData Demo.anna_athlete "access" "refresh" 99999 in
  let r1 := Strava.connect 500 "S1" s Demo.anna_session in
  let r2 := Strava.callback 510 Demo.api (db r1) (session r1) None (Some "S1")
                            (Some "code") in
  (current_user s Demo.anna_session = Some anna ∧
   User.state anna = ACTIVE ∧
   Strava.strava_token_of s anna = None ∧
   Query.first (λ v, bool_decide (StravaOAuthState.state v = "S1"))
               (strava_oauth_states s) = None ∧
   Strava.exchange_code_for_token Demo.api "code" = Some token_data ∧
   Query.first (λ k, bool_decide (StravaToken.strava_athlete_id k = 77%Z))
               (strava_tokens s) = None) ∧
  response r1 = RedirectAuthorize strava_callback "S1" ∧
  response r2 = Redirect strava_sync ∧
  users (db r2) = users s ∧
  ∃ link,
    strava_tokens (db r2) = strava_tokens s ++ [link] ∧
    Strava.strava_token_of (db r2) anna = Some link ∧
    StravaToken.user_id link = User.id anna ∧
    StravaToken.strava_athlete_id link = 77%Z ∧
    StravaToken.access_token link = td_access_token token_data ∧
    StravaToken.refresh_token link = td_refresh_token token_data ∧
    StravaToken.expires_at link = td_expires_at token_data.
Proof.
  intros s anna token_data r1 r2. split; [vm_compute; by repeat split|].
  apply (connect_then_callback_links 500 510 Demo.api "S1" s Demo.anna_session
           anna (Some "code") "code" token_data 77%Z);
    try (vm_compute; reflexivity); done.
Defined.

(** [X18].  [connect] sends to Strava only an active member without a link, and
    then with a fresh state that is bound to that member, is for connecting
    and runs out after ten minutes; whoever is not sent to Strava leaves the
    database as it is. *)
Theorem connect_only_for_unlinked_active now secret s sess :
  let r := Strava.connect now secret s sess in
  (∀ e v, response r = RedirectAuthorize e v →
     ∃ cu, current_user s sess = Some cu ∧ User.state cu = ACTIVE ∧
           Strava.strava_token_of s cu = None ∧
           e = strava_callback ∧ v = secret ∧
           strava_oauth_states (db r)
           = strava_oauth_states s
             ++ [StravaOAuthState.mk
                   (Query.new_id StravaOAuthState.id (strava_oauth_states s))
                   secret (Some (User.id cu)) connect_purpose (now + 600)%Z None]) ∧
  ((∀ e v, response r ≠ RedirectAuthorize e v) → db r = s).
Proof.
  intros r. subst r. unfold Strava.connect, login_required.
  destruct (current_user s sess) as [cu|]; [|done].
  destruct (decide (User.state cu = ACTIVE)) as [Hst|Hst].
  - rewrite bool_decide_eq_true_2 by done. cbn [negb].
    destruct (Strava.strava_token_of s cu) eqn:Et; [done|].
    unfold Strava.create_oauth_state.
    destruct (Query.first _ (strava_oauth_states s)); [done|]. split.
    + intros e v [= <- <-]. exists cu. by split_and!.
    + intros H. by destruct (H strava_callback secret).
  - by rewrite bool_decide_eq_false_2.
Qed.

Lemma connect_only_for_unlinked_active_witness :
  let s := db Demo.approved in
  let anna := User.mk 2 "anna" "anna@example.org" (generate_password_hash "hemligt")
                      (Some "anna") ACTIVE USER (Some 300%Z) (Some 400%Z) (Some 1)
                      None None false 100 in
  let r := Strava.connect 500 "S1" s Demo.anna_session in
  response r = RedirectAuthorize strava_callback "S1" ∧
  ∃ cu, current_user s Demo.anna_session = Some cu ∧ User.state cu = ACTIVE ∧
        Strava.strava_token_of s cu = None ∧
        strava_callback = strava_callback ∧ "S1" = "S1" ∧
        strava_oauth_states (db r)
        = strava_oauth_states s
          ++ [StravaOAuthState.mk
                (Query.new_id StravaOAuthState.id (strava_oauth_states s))
                "S1" (Some (User.id cu)) connect_purpose (500 + 600)%Z None].
Proof.
  intros s anna r.
  assert (response r = RedirectAuthorize strava_callback "S1") as Hr
    by (vm_compute; reflexivity).
  split; [exact Hr|].
  exact (proj1 (connect_only_for_unlinked_active 500 "S1" s Demo.anna_session)
               strava_callback "S1" Hr).
Defined.

(** [X19].  A login with Strava by an athlete who is linked to an account opens a
    session for that account if it is [ACTIVE], and then stores the
    credentials Strava gave on the link and the time of the login on the
    account, as its [last_seen]; for an account in any other state it opens
    no session and leaves links and accounts as they are.  No mail is
    sent. *)
Theorem login_callback_gated_on_state
    now api secret s sess error state_value code v st c token_data a k u :
  Strava.arg error = None →
  Strava.arg state_value = Some v →
  Query.first (λ x, bool_decide (StravaOAuthState.state x = v))
              (strava_oauth_states s) = Some st →
  StravaOAuthState.is_valid now st = true →
  StravaOAuthState.purpose st = login_purpose →
  Strava.arg code = Some c →
  Strava.exchange_code_for_token api c = Some token_data →
  athlete_id (athlete token_data) = Some a →
  a ≠ 0%Z →
  Query.first (λ k, bool_decide (StravaToken.strava_athlete_id k = a))
              (strava_tokens s) = Some k →
  Query.get User.id (StravaToken.user_id k) (users s) = Some u →
  let r := Strava.login_callback now api secret s sess error state_value code in
  mails r = [] ∧
  (User.state u = ACTIVE →
   session r = login_user u true sess ∧
   response r = Redirect main_index ∧
   users (db r) = Query.save User.id (User.with_last_seen now u) (users s) ∧
   strava_tokens (db r)
   = Query.save StravaToken.id
       (StravaToken.with_tokens (td_access_token token_data)
          (td_refresh_token token_data) (td_expires_at token_data) k)
       (strava_tokens s)) ∧
  (User.state u ≠ ACTIVE →
   session r = sess ∧
   users (db r) = users s ∧
   strava_tokens (db r) = strava_tokens s ∧
   response r = (if bool_decide (User.state u = PENDING_APPROVAL)
                 then Redirect auth_pending_approval else Redirect auth_login)).
Proof.
  intros Herr Hsv E Hv Hp Hc Hex Ha Ha0 Hk Hu r.
  pose proof (validate_oauth_state_valid _ _ _ _ _ E Hv Hp) as Hval.
  subst r. unfold Strava.login_callback.
  rewrite Herr, Hsv, Hval, Hc, Hex, Ha.
  rewrite (bool_decide_eq_false_2 (a = 0%Z)) by done.
  cbn [strava_tokens users with_strava_oauth_states]. rewrite Hk, Hu.
  destruct (decide (User.state u = ACTIVE)) as [Hst|Hst].
  - rewrite (bool_decide_eq_true_2 (User.state u = ACTIVE)) by done.
    cbn [negb db reply session response mails users with_users
         with_strava_tokens with_strava_oauth_states strava_tokens].
    by split_and!.
  - rewrite (bool_decide_eq_false_2 (User.state u = ACTIVE)) by done.
    cbn [negb]. split_and!; [by repeat case_bool_decide|done|].
    intros _. by repeat case_bool_decide.
Qed.

Lemma login_callback_gated_on_state_witness :
  let s := db Demo.strava_login_started in
  let st := StravaOAuthState.mk 2 "S3" None login_purpose 1300 None in
  let token_data := mkTokenData Demo.anna_athlete "access" "refresh" 99999 in
  let k := StravaToken.mk 1 2 77 "access" "refresh" 99999 in
  let anna := User.mk 2 "anna" "anna@example.org" (generate_password_hash "hemligt")
                      (Some "anna") ACTIVE USER (Some 300%Z) (Some 400%Z) (Some 1)
                      None None false 100 in
  let r := Strava.login_callback 710 Demo.api "unused" s anonymous None (Some "S3")
                                 (Some "code") in
  (Query.first (λ x, bool_decide (StravaOAuthState.state x = "S3"))
               (strava_oauth_states s) = Some st ∧
   StravaOAuthState.is_valid 710 st = true ∧
   Strava.exchange_code_for_token Demo.api "code" = Some token_data ∧
   Query.first (λ k, bool_decide (StravaToken.strava_athlete_id k = 77%Z))
               (strava_tokens s) = Some k ∧
   Query.get User.id (StravaToken.user_id k) (users s) = Some anna) ∧
  User.last_seen <$> users (db r) = [0%Z; 710%Z] ∧
  mails r = [] ∧
  (User.state anna = ACTIVE →
   session r = login_user anna true anonymous ∧
   response r = Redirect main_index ∧
   users (db r) = Query.save User.id (User.with_last_seen 710 anna) (users s) ∧
   strava_tokens (db r)
   = Query.save StravaToken.id
       (StravaToken.with_tokens (td_access_token token_data)
          (td_refresh_token token_data) (td_expires_at token_data) k)
       (strava_tokens s)) ∧
  (User.state anna ≠ ACTIVE →
   session r = anonymous ∧
   users (db r) = users s ∧
   strava_tokens (db r) = strava_tokens s ∧
   response r = (if bool_decide (User.state anna = PENDING_APPROVAL)
                 then Redirect auth_pending_approval else Redirect auth_login)).
Proof.
  intros s st token_data k anna r. split; [vm_compute; by repeat split|].
  split; [vm_compute; reflexivity|].
  apply (login_callback_gated_on_state 710 Demo.api "unused" s anonymous None
           (Some "S3") (Some "code") "S3" st "code" token_data 77%Z k anna);
    try (vm_compute; reflexivity); done.
Defined.

(** [X20].  A disconnect removes the member's link and every activity stored for
    the member, and nothing of anyone else; afterwards a synchronisation is
    refused until the member connects again. *)
Theorem disconnect_removes_own_data fuel now api s sess cu k :
  NoDup (StravaToken.id <$> strava_tokens s) →
  NoDup (StravaToken.user_id <$> strava_tokens s) →
  current_user s sess = Some cu →
  Strava.strava_token_of s cu = Some k →
  let r := Strava.disconnect s sess in
  Strava.strava_token_of (db r) cu = None ∧
  (∀ x, x ∈ strava_tokens (db r) ↔
        x ∈ strava_tokens s ∧ StravaToken.user_id x ≠ User.id cu) ∧
  (∀ x, x ∈ strava_activities (db r) ↔
        x ∈ strava_activities s ∧ StravaActivity.user_id x ≠ User.id cu) ∧
  users (db r) = users s ∧
  let r' := Strava.sync fuel now api (db r) (session r) in
  response r' = Redirect strava_connect ∧ db r' = db r.
Proof.
  intros Hid Hnd Hcu Hk r.
  assert (r = reply (with_strava_tokens
                 (Query.delete (λ x, bool_decide (StravaToken.id x
                                                  = StravaToken.id k))
                               (strava_tokens s))
                 (with_strava_activities
                    (Query.delete (λ a, bool_decide (StravaActivity.user_id a
                                                     = User.id cu))
                                  (strava_activities s)) s))
              sess [("Strava-konto bortkopplat.", "success")]
              (Redirect (profile_view (User.username cu)))) as ->.
  { subst r. unfold Strava.disconnect, login_required. by rewrite Hcu, Hk. }
  cbn [db reply session strava_tokens strava_activities users with_strava_tokens
       with_strava_activities].
  apply strava_token_of_elem in Hk as [Hin Huid].
  assert (∀ x, x ∈ Query.delete (λ x, bool_decide (StravaToken.id x
                                                   = StravaToken.id k))
                                (strava_tokens s) ↔
               x ∈ strava_tokens s ∧ StravaToken.user_id x ≠ User.id cu) as Hdel.
  { intros x. rewrite elem_of_delete, bool_decide_eq_false. split.
    - intros [Hx Hne]. split; [done|]. intros Hux. apply Hne.
      assert (x = k) as -> by (eapply (NoDup_fmap_inj_elem StravaToken.user_id);
                               [done..|congruence]). done.
    - intros [Hx Hux]. split; [done|]. intros Heq. apply Hux.
      assert (x = k) as -> by by eapply (NoDup_fmap_inj_elem StravaToken.id).
      done. }
  assert (Query.first (λ x, bool_decide (StravaToken.user_id x = User.id cu))
            (Query.delete (λ x, bool_decide (StravaToken.id x = StravaToken.id k))
                          (strava_tokens s)) = None) as Hnone.
  { destruct (Query.first _ _) as [x|] eqn:E; [|done].
    apply first_Some in E as [Hx Hp]. apply bool_decide_eq_true in Hp.
    apply Hdel in Hx as [_ Hne]. done. }
  split; [exact Hnone|]. split; [exact Hdel|].
  split; [intros x; by rewrite elem_of_delete, bool_decide_eq_false|].
  split; [done|]. cbv zeta.
  - unfold Strava.sync, login_required.
    assert (current_user
              (with_strava_tokens
                 (Query.delete (λ x, bool_decide (StravaToken.id x
                                                  = StravaToken.id k))
                               (strava_tokens s))
                 (with_strava_activities
                    (Query.delete (λ a, bool_decide (StravaActivity.user_id a
                                                     = User.id cu))
                                  (strava_activities s)) s)) sess = Some cu)
      as -> by exact Hcu.
    unfold Strava.strava_token_of.
    cbn [strava_tokens with_strava_tokens]. by rewrite Hnone.
Qed.

Lemma disconnect_removes_own_data_witness :
  let s := db Demo.first_sync in
  let anna := User.mk 2 "anna" "anna@example.org" (generate_password_hash "hemligt")
                      (Some "anna") ACTIVE USER (Some 300%Z) (Some 400%Z) (Some 1)
                      None None false 100 in
  let k := StravaToken.mk 1 2 77 "access" "refresh" 99999 in
  let r := Strava.disconnect s Demo.anna_session in
  (NoDup (StravaToken.id <$> strava_tokens s) ∧
   NoDup (StravaToken.user_id <$> strava_tokens s) ∧
   current_user s Demo.anna_session = Some anna ∧
   Strava.strava_token_of s anna = Some k) ∧
  length (strava_activities s) = 2 ∧
  strava_activities (db r) = [] ∧
  Strava.strava_token_of (db r) anna = None ∧
  (∀ x, x ∈ strava_tokens (db r) ↔
        x ∈ strava_tokens s ∧ StravaToken.user_id x ≠ User.id anna) ∧
  (∀ x, x ∈ strava_activities (db r) ↔
        x ∈ strava_activities s ∧ StravaActivity.user_id x ≠ User.id anna) ∧
  users (db r) = users s ∧
  let r' := Strava.sync 7 530 Demo.api_three_pages (db r) (session r) in
  response r' = Redirect strava_connect ∧ db r' = db r.
Proof.
  intros s anna k r.
  assert (NoDup (StravaToken.id <$> strava_tokens s)) as Hid
    by (apply (bool_decide_unpack _); by vm_compute).
  assert (NoDup (StravaToken.user_id <$> strava_tokens s)) as Hnd
    by (apply (bool_decide_unpack _); by vm_compute).
  split; [split_and!; [done|done|vm_compute; reflexivity..]|].
  do 2 (split; [vm_compute; reflexivity|]).
  apply (disconnect_removes_own_data 7 530 Demo.api_three_pages s
           Demo.anna_session anna k Hid Hnd); vm_compute; reflexivity.
Defined.

(** [X21].  A synchronisation touches the stored activities only for an active
    member with a link whose access token is current or can be refreshed:
    without a link, in another state, or when a due refresh fails, the
    database stays as it is and the member is told why. *)
Theorem sync_refused_leaves_database fuel now api s sess cu :
  current_user s sess = Some cu →
  let r := Strava.sync fuel now api s sess in
  (Strava.strava_token_of s cu = None →
   db r = s ∧ response r = Redirect strava_connect ∧
   flashed r = [("Du maste forst koppla ditt Strava-konto.", "error")]) ∧
  (∀ k, Strava.strava_token_of s cu = Some k →
     (User.state cu ≠ ACTIVE →
      db r = s ∧ response r = Redirect (profile_view (User.username cu)) ∧
      flashed r
      = [("Du maste ha ett aktivt konto for att synka aktiviteter.", "error")]) ∧
     (User.state cu = ACTIVE → StravaToken.is_expired now k = true →
      api_token_refresh api (StravaToken.refresh_token k) = None →
      db r = s ∧ response r = Redirect strava_connect ∧
      flashed r
      = [("Kunde inte autentisera med Strava. Koppla om ditt konto.", "error")])).
Proof.
  intros Hcu r. subst r. unfold Strava.sync, login_required. rewrite Hcu.
  split.
  - by intros ->.
  - intros k ->. split.
    + intros Hst. by rewrite bool_decide_eq_false_2.
    + intros Hst Hexp Href. rewrite bool_decide_eq_true_2 by done.
      cbn [negb]. unfold Strava.get_valid_token, Strava.refresh_access_token.
      by rewrite Hexp, Href.
Qed.

Lemma sync_refused_leaves_database_witness :
  let s := db Demo.linked in
  let r := Strava.sync 7 520 Demo.api s Demo.admin_session in
  current_user s Demo.admin_session = Some Demo.klubban ∧
  (Strava.strava_token_of s Demo.klubban = None →
   db r = s ∧ response r = Redirect strava_connect ∧
   flashed r = [("Du maste forst koppla ditt Strava-konto.", "error")]) ∧
  (∀ k, Strava.strava_token_of s Demo.klubban = Some k →
     (User.state Demo.klubban ≠ ACTIVE →
      db r = s ∧ response r = Redirect (profile_view (User.username Demo.klubban)) ∧
      flashed r
      = [("Du maste ha ett aktivt konto for att synka aktiviteter.", "error")]) ∧
     (User.state Demo.klubban = ACTIVE → StravaToken.is_expired 520 k = true →
      api_token_refresh Demo.api (StravaToken.refresh_token k) = None →
      db r = s ∧ response r = Redirect strava_connect ∧
      flashed r
      = [("Kunde inte autentisera med Strava. Koppla om ditt konto.", "error")])).
Proof.
  intros s r. split; [vm_compute; reflexivity|].
  apply (sync_refused_leaves_database 7 520 Demo.api s Demo.admin_session
           Demo.klubban). vm_compute; reflexivity.
Defined.

(** [X22].  The access token a synchronisation works with is the one stored on the
    link when it starts working: the stored one while it has more than five
    minutes to live, else the one a refresh just stored together with its
    refresh token and expiry; a refresh never changes whose link it is. *)
Theorem get_valid_token_is_stored now api s k :
  NoDup (StravaToken.id <$> strava_tokens s) →
  k ∈ strava_tokens s →
  match Strava.get_valid_token now api s k with
  | (s', Some access_token) =>
      ∃ k', k' ∈ strava_tokens s' ∧ same_link k k' ∧
            StravaToken.access_token k' = access_token ∧
            (StravaToken.is_expired now k = false → s' = s ∧ k' = k) ∧
            (StravaToken.is_expired now k = true →
             ∃ d, api_token_refresh api (StravaToken.refresh_token k) = Some d ∧
                  k' = StravaToken.with_tokens (rd_access_token d)
                         (rd_refresh_token d) (rd_expires_at d) k) ∧
            (∀ x, x ∈ strava_tokens s → StravaToken.id x ≠ StravaToken.id k →
                  x ∈ strava_tokens s')
  | (s', None) =>
      s' = s ∧ StravaToken.is_expired now k = true ∧
      api_token_refresh api (StravaToken.refresh_token k) = None
  end.
Proof.
  intros Hnd Hk. unfold Strava.get_valid_token, Strava.refresh_access_token.
  destruct (StravaToken.is_expired now k) eqn:Hexp.
  - destruct (api_token_refresh api _) as [d|] eqn:Href; [|done].
    exists (StravaToken.with_tokens (rd_access_token d) (rd_refresh_token d)
                                    (rd_expires_at d) k).
    split_and!; [|by repeat split|done|done|by eauto|].
    + cbn [strava_tokens with_strava_tokens]. unfold Query.save.
      apply list_elem_of_fmap. exists k. by rewrite bool_decide_eq_true_2.
    + intros x Hx Hne. cbn [strava_tokens with_strava_tokens]. unfold Query.save.
      apply list_elem_of_fmap. exists x. by rewrite bool_decide_eq_false_2.
  - exists k. by split_and!.
Qed.

Lemma get_valid_token_is_stored_witness :
  let s := db Demo.linked in
  let k := StravaToken.mk 1 2 77 "access" "refresh" 99999 in
  let api := mkStravaApi (λ _, None)
               (λ r, if bool_decide (r = "refresh")
                     then Some (mkRefreshData "access2" "refresh2" 200000)
                     else None)
               (λ _ _ _ _, Some []) in
  (NoDup (StravaToken.id <$> strava_tokens s) ∧ k ∈ strava_tokens s) ∧
  Strava.get_valid_token 99800 api s k
  = (with_strava_tokens [StravaToken.mk 1 2 77 "access2" "refresh2" 200000] s,
     Some "access2") ∧
  match Strava.get_valid_token 99800 api s k with
  | (s', Some access_token) =>
      ∃ k', k' ∈ strava_tokens s' ∧ same_link k k' ∧
            StravaToken.access_token k' = access_token ∧
            (StravaToken.is_expired 99800 k = false → s' = s ∧ k' = k) ∧
            (StravaToken.is_expired 99800 k = true →
             ∃ d, api_token_refresh api (StravaToken.refresh_token k) = Some d ∧
                  k' = StravaToken.with_tokens (rd_access_token d)
                         (rd_refresh_token d) (rd_expires_at d) k) ∧
            (∀ x, x ∈ strava_tokens s → StravaToken.id x ≠ StravaToken.id k →
                  x ∈ strava_tokens s')
  | (s', None) =>
      s' = s ∧ StravaToken.is_expired 99800 k = true ∧
      api_token_refresh api (StravaToken.refresh_token k) = None
  end.
Proof.
  intros s k api.
  assert (NoDup (StravaToken.id <$> strava_tokens s)) as Hnd
    by (apply (bool_decide_unpack _); by vm_compute).
  assert (k ∈ strava_tokens s) as Hk by (vm_compute; constructor).
  split; [done|]. split; [vm_compute; reflexivity|].
  exact (get_valid_token_is_stored 99800 api s k Hnd Hk).
Defined.

(** [X23].  A login state is good for one callback.  Once a callback has been let
    through with it, whatever came of that, any later callback with the same
    state is refused as expired: it opens no session, changes nothing and
    so founds no second account, whenever it comes and whatever Strava
    answers. *)
Theorem login_callback_replay_refused
    now api secret s sess error state_value code v st :
  Strava.arg error = None →
  Strava.arg state_value = Some v →
  Query.first (λ x, bool_decide (StravaOAuthState.state x = v))
              (strava_oauth_states s) = Some st →
  StravaOAuthState.is_valid now st = true →
  StravaOAuthState.purpose st = login_purpose →
  let r := Strava.login_callback now api secret s sess error state_value code in
  ∀ now' api' secret' sess' code',
    let r' := Strava.login_callback now' api' secret' (db r) sess' error
                                    state_value code' in
    db r' = db r ∧ session r' = sess' ∧ mails r' = [] ∧
    flashed r' = [("State har gatt ut. Forsok igen.", "error")] ∧
    response r' = Redirect auth_login.
Proof.
  intros Herr Hsv E Hv Hp r now' api' secret' sess' code' r'.
  pose proof (validate_oauth_state_valid _ _ _ _ _ E Hv Hp) as Hval.
  assert (Query.first (λ x, bool_decide (StravaOAuthState.state x = v))
                      (strava_oauth_states (db r))
          = Some (StravaOAuthState.mark_used now st)) as Hused.
  { subst r. rewrite (login_callback_states _ _ _ _ _ _ _ _ v Herr Hsv), Hval.
    cbn [fst strava_oauth_states with_strava_oauth_states].
    eapply (first_save StravaOAuthState.id); [exact E|done|].
    apply first_Some in E as [_ E]. exact E. }
  subst r'. set (s1 := db r) in *. clearbody s1.
  unfold Strava.login_callback, Strava.validate_oauth_state.
  rewrite Herr, Hsv, Hused, oauth_state_mark_used_invalid.
  cbn [negb]. by split_and!.
Qed.

Lemma login_callback_replay_refused_witness :
  let s := db Demo.strava_login_started in
  let st := StravaOAuthState.mk 2 "S3" None login_purpose 1300 None in
  let r := Strava.login_callback 710 Demo.api_newcomer "drawn-secret" s anonymous
                                 None (Some "S3") (Some "code") in
  (Query.first (λ x, bool_decide (StravaOAuthState.state x = "S3"))
               (strava_oauth_states s) = Some st ∧
   StravaOAuthState.is_valid 710 st = true) ∧
  length (users (db r)) = S (length (users s)) ∧
  ∀ now' api' secret' sess' code',
    let r' := Strava.login_callback now' api' secret' (db r) sess' None
                                    (Some "S3") code' in
    db r' = db r ∧ session r' = sess' ∧ mails r' = [] ∧
    flashed r' = [("State har gatt ut. Forsok igen.", "error")] ∧
    response r' = Redirect auth_login.
Proof.
  intros s st r. split; [vm_compute; by repeat split|].
  split; [vm_compute; reflexivity|].
  apply (login_callback_replay_refused 710 Demo.api_newcomer "drawn-secret" s
           anonymous None (Some "S3") (Some "code") "S3" st);
    vm_compute; reflexivity.
Defined.

End strava_routes.

(** ** What a synchronisation does to the stored activities *)

Section stored_activities.

Implicit Types (s : Store) (sess : Session) (now : Z) (api : StravaApi)
  (rows : list StravaActivity.t) (uid count : nat).

Lemma extended_by_refl uid rows : extended_by uid rows rows 0.
Proof. exists rows, []. by rewrite app_nil_r. Qed.

Lemma owned_ride_key uid (l l' : list StravaActivity.t) :
  activity_key <$> l' = activity_key <$> l →
  Forall (λ a, StravaActivity.user_id a = uid
               ∧ StravaActivity.activity_type a = Some "Ride") l →
  Forall (λ a, StravaActivity.user_id a = uid
               ∧ StravaActivity.activity_type a = Some "Ride") l'.
Proof.
  revert l'. induction l as [|x l IH]; intros [|y l'] Heq Hall; try done.
  rewrite !fmap_cons in Heq. injection Heq as _ _ Hku Hkt Heq.
  apply list.Forall_cons in Hall as [[Hu Ht] Hall].
  apply list.Forall_cons. split; [|by apply IH].
  by rewrite Hku, Hkt.
Qed.

Lemma extended_by_trans uid rows rows1 rows2 n1 n2 :
  extended_by uid rows rows1 n1 → extended_by uid rows1 rows2 n2 →
  extended_by uid rows rows2 (n1 + n2).
Proof.
  intros (kept1 & new1 & -> & Hk1 & Hn1 & Hall1)
         (kept2 & new2 & -> & Hk2 & Hn2 & Hall2).
  rewrite fmap_app in Hk2. apply fmap_app_inv in Hk2 as (k & m & Hk & Hm & ->).
  exists k, (m ++ new2). split_and!.
  - by rewrite app_assoc.
  - congruence.
  - rewrite length_app. apply (f_equal length) in Hm.
    rewrite !length_fmap in Hm. lia.
  - apply Forall_app. split; [by eapply owned_ride_key|done].
Qed.

Lemma ingest_extends now uid rows count (c : ActivityData) :
  activities_unique rows →
  let r := Strava.ingest now uid (rows, count) c in
  ∃ n, extended_by uid rows r.1 n ∧ r.2 = count + n.
Proof.
  intros [Hid Hsid] r. subst r.
  destruct (decide (ad_type c = Some "Ride")) as [Hride|Hnot].
  2:{ rewrite ingest_not_ride by done. exists 0. split; [apply extended_by_refl|].
      cbn. lia. }
  destruct (Query.first (λ x, bool_decide (StravaActivity.strava_id x = ad_id c))
                        rows) as [r|] eqn:E.
  - destruct (ingest_existing now uid rows count c r Hride E)
      as (row & -> & Hrid & Hrsid & Hruid & Hrty & _).
    apply first_strava_id in E as [Hin _]. exists 0. cbn [fst snd].
    split; [|lia]. exists (Query.save StravaActivity.id row rows), [].
    split_and!; [by rewrite app_nil_r| |done|done].
    eapply (save_NoDup StravaActivity.id); [done..|].
    unfold activity_key. congruence.
  - destruct (ingest_new now uid rows count c Hride E)
      as (row & -> & _ & _ & Hruid & Hrty). exists 1. cbn [fst snd].
    split; [|lia]. exists rows, [row]. split_and!; try done.
    by apply Forall_singleton.
Qed.

Lemma ingest_fold_extends now uid (l : list ActivityData) : ∀ rows count,
  activities_unique rows →
  let r := foldl (Strava.ingest now uid) (rows, count) l in
  activities_unique r.1 ∧ ∃ n, extended_by uid rows r.1 n ∧ r.2 = count + n.
Proof.
  induction l as [|c l IH]; intros rows count Hu.
  { split; [done|]. exists 0. split; [apply extended_by_refl|]. cbn. lia. }
  cbn [foldl].
  destruct (ingest_step now uid rows count c Hu) as (Hu' & _).
  destruct (ingest_extends now uid rows count c Hu) as (n1 & He1 & Hc1).
  destruct (Strava.ingest now uid (rows, count) c) as [rows1 count1].
  cbn [fst snd] in *.
  destruct (IH rows1 count1 Hu') as (Hu2 & n2 & He2 & Hc2).
  split; [done|]. exists (n1 + n2). split; [by eapply extended_by_trans|lia].
Qed.

Lemma sync_loop_extends fuel now api tok after uid : ∀ page run run',
  activities_unique (Strava.run_rows run) →
  Strava.sync_loop fuel now api tok after uid page run = Some run' →
  activities_unique (Strava.run_rows run') ∧
  ∃ n, extended_by uid (Strava.run_rows run) (Strava.run_rows run') n ∧
       Strava.synced_count run' = Strava.synced_count run + n.
Proof.
  induction fuel as [|fuel IH]; intros page run run' Hu; [done|].
  cbn [Strava.sync_loop].
  assert (∀ asked,
    Some (Strava.mkSyncRun (Strava.run_rows run) (Strava.synced_count run) asked)
    = Some run' →
    activities_unique (Strava.run_rows run') ∧
    ∃ n, extended_by uid (Strava.run_rows run) (Strava.run_rows run') n ∧
         Strava.synced_count run' = Strava.synced_count run + n) as Hstop.
  { intros asked [= <-]. split; [done|]. exists 0.
    split; [apply extended_by_refl|]. cbn. lia. }
  destruct (Strava.fetch_strava_activities _ _ _ _ _) as [[|c l]|];
    [by apply Hstop| |by apply Hstop].
  destruct (ingest_fold_extends now uid (c :: l) (Strava.run_rows run)
              (Strava.synced_count run) Hu) as (Hu1 & n1 & He1 & Hc1).
  destruct (foldl _ _ _) as [rows1 count1]. cbn [fst snd] in *.
  case_bool_decide.
  - intros [= <-]. split; [done|]. by exists n1.
  - intros Hrun. apply IH in Hrun as (Hu2 & n2 & He2 & Hc2); [|done].
    cbn [Strava.run_rows Strava.synced_count] in *.
    split; [done|]. exists (n1 + n2). split; [by eapply extended_by_trans|lia].
Qed.

Lemma sync_activities_unique fuel now api s sess :
  activities_unique (strava_activities s) →
  activities_unique (strava_activities (db (Strava.sync fuel now api s sess))).
Proof.
  intros Hu. unfold Strava.sync, login_required.
  destruct (current_user s sess) as [cu|]; [|done].
  destruct (Strava.strava_token_of s cu) as [k|]; [|done].
  destruct (negb _); [done|].
  assert (strava_activities (Strava.get_valid_token now api s k).1
          = strava_activities s) as Hact.
  { unfold Strava.get_valid_token, Strava.refresh_access_token.
    destruct (StravaToken.is_expired now k); [|done].
    by destruct (api_token_refresh api _). }
  destruct (Strava.get_valid_token now api s k) as [s1 [tok|]];
    cbn [fst] in Hact; [|cbn [db reply]; by rewrite Hact].
  destruct (negb _); [cbn [db reply]; by rewrite Hact|]. rewrite Hact.
  destruct (Strava.sync_loop _ _ _ _ _ _ _ _) as [run|] eqn:Erun;
    [|cbn [db reply]; by rewrite Hact].
  by apply sync_loop_extends in Erun as (Hu' & _).
Qed.

(** [X24].  A synchronisation only appends rides of the member who runs it and
    rewrites data columns: every row that was stored keeps its place, key,
    Strava id, owner and type, whoever owns it.  The number the member is
    told is the number of rows appended, and no Strava id is stored twice
    afterwards. *)
Theorem sync_appends_own_rides fuel now api s sess cu :
  activities_unique (strava_activities s) →
  current_user s sess = Some cu →
  let r := Strava.sync fuel now api s sess in
  activities_unique (strava_activities (db r)) ∧
  ∃ n, extended_by (User.id cu) (strava_activities s) (strava_activities (db r)) n ∧
       (flashed r = [(pretty n +:+ " nya aktiviteter synkade fran Strava!", "success")]
        ∨ n = 0 ∧ strava_activities (db r) = strava_activities s).
Proof.
  intros Hu Hcu r. subst r. unfold Strava.sync, login_required. rewrite Hcu.
  assert (∀ r : Result, strava_activities (db r) = strava_activities s →
    activities_unique (strava_activities (db r)) ∧
    ∃ n, extended_by (User.id cu) (strava_activities s) (strava_activities (db r)) n ∧
         (flashed r
          = [(pretty n +:+ " nya aktiviteter synkade fran Strava!", "success")]
          ∨ n = 0 ∧ strava_activities (db r) = strava_activities s)) as Hsame.
  { intros r Heq. rewrite Heq. split; [done|]. exists 0.
    split; [apply extended_by_refl|by right]. }
  destruct (Strava.strava_token_of s cu) as [k|]; [|by apply Hsame].
  destruct (negb _); [by apply Hsame|].
  assert (strava_activities (Strava.get_valid_token now api s k).1
          = strava_activities s) as Hact.
  { unfold Strava.get_valid_token, Strava.refresh_access_token.
    destruct (StravaToken.is_expired now k); [|done].
    by destruct (api_token_refresh api _). }
  destruct (Strava.get_valid_token now api s k) as [s1 [tok|]];
    cbn [fst] in Hact; [|by apply Hsame].
  destruct (negb _); [by apply Hsame|]. rewrite Hact.
  destruct (Strava.sync_loop _ _ _ _ _ _ _ _) as [run|] eqn:Erun;
    [|by apply Hsame].
  apply sync_loop_extends in Erun as (Hu' & n & He & Hc); [|done].
  cbn [Strava.run_rows Strava.synced_count] in *.
  cbn [db reply flashed strava_activities with_strava_activities].
  split; [done|]. exists n. split; [done|]. left. by rewrite Hc.
Qed.

Lemma sync_appends_own_rides_witness :
  let s := db Demo.linked in
  let anna := User.mk 2 "anna" "anna@example.org" (generate_password_hash "hemligt")
                      (Some "anna") ACTIVE USER (Some 300%Z) (Some 400%Z) (Some 1)
                      None None false 100 in
  let r := Strava.sync 7 520 Demo.api_three_pages s Demo.anna_session in
  (activities_unique (strava_activities s) ∧
   current_user s Demo.anna_session = Some anna) ∧
  flashed r = [("2 nya aktiviteter synkade fran Strava!", "success")] ∧
  activities_unique (strava_activities (db r)) ∧
  ∃ n, extended_by (User.id anna) (strava_activities s)
                   (strava_activities (db r)) n ∧
       (flashed r = [(pretty n +:+ " nya aktiviteter synkade fran Strava!", "success")]
        ∨ n = 0 ∧ strava_activities (db r) = strava_activities s).
Proof.
  intros s anna r.
  assert (activities_unique (strava_activities s)) as Hu.
  { split; apply (bool_decide_unpack _); by vm_compute. }
  split; [split; [exact Hu|vm_compute; reflexivity]|].
  split; [vm_compute; reflexivity|].
  apply (sync_appends_own_rides 7 520 Demo.api_three_pages s Demo.anna_session
           anna Hu). vm_compute; reflexivity.
Defined.

(** The handlers other than the synchronisation and the disconnect do not
    write to [strava_activities]. *)
Lemma other_handlers_keep_activities now api req s sess :
  match req with
  | StravaDisconnect | StravaSync _ => True
  | _ => strava_activities (db (handle now api req s sess)) = strava_activities s
  end.
Proof.
  assert (∀ now secret uid s s',
            Auth.add_verification_token now secret uid s = Some s' →
            strava_activities s' = strava_activities s) as Hvt.
  { intros ????? H. unfold Auth.add_verification_token in H.
    destruct (Query.first _ _); [done|]. by injection H as <-. }
  assert (∀ now secret p o s s' v,
            Strava.create_oauth_state now secret p o s = Some (s', v) →
            strava_activities s' = strava_activities s) as Hos.
  { intros ??????? H. unfold Strava.create_oauth_state in H.
    destruct (Query.first _ _); [done|]. by injection H as <- <-. }
  assert (∀ u s s', Strava.add_user u s = Some s' →
                    strava_activities s' = strava_activities s) as Hau.
  { intros ??? H. unfold Strava.add_user in H.
    destruct (Query.first _ _); [done|]. by injection H as <-. }
  assert (∀ uid a d s s', Strava.add_strava_token uid a d s = Some s' →
                          strava_activities s' = strava_activities s) as Hat.
  { intros ????? H. unfold Strava.add_strava_token in H.
    destruct (Query.first _ _); [done|]. by injection H as <-. }
  destruct req; try done; cbn [handle].
  - unfold Auth.login. repeat case_match; done.
  - unfold Auth.signup. repeat case_match; try done. cbn [db reply].
    match goal with H : Auth.add_verification_token _ _ _ _ = Some _ |- _ =>
      apply Hvt in H as -> end. done.
  - unfold Auth.verify_email. repeat case_match; done.
  - unfold Auth.resend_verification. repeat case_match; try done;
      cbn [db reply];
      match goal with H : Auth.add_verification_token _ _ _ _ = Some _ |- _ =>
        apply Hvt in H as -> end; done.
  - unfold Auth.logout, login_required. repeat case_match; done.
  - unfold Admin.approve_user, Admin.admin_required, login_required.
    repeat case_match; done.
  - unfold Admin.reject_user, Admin.admin_required, login_required.
    repeat case_match; done.
  - unfold Admin.members_suspend, Admin.admin_required, login_required.
    repeat case_match; done.
  - unfold Admin.members_reactivate, Admin.admin_required, login_required.
    repeat case_match; done.
  - unfold Strava.strava_login. repeat case_match; try done; cbn [db reply].
    match goal with H : Strava.create_oauth_state _ _ _ _ _ = Some _ |- _ =>
      apply Hos in H as -> end. done.
  - unfold Strava.login_callback.
    destruct (Strava.arg error); [done|].
    destruct (Strava.arg state_value) as [sv|]; [|done].
    pose proof (validate_oauth_state_frame now s sv login_purpose) as (_ & _ & Ha).
    destruct (Strava.validate_oauth_state now s sv login_purpose)
      as [s1 [st|msg]]; cbn [fst] in Ha; rewrite <- Ha; [|done].
    repeat case_match; try done;
      match goal with H : Strava.add_strava_token _ _ _ _ = Some _ |- _ =>
        apply Hat in H as Ha2 end;
      match goal with H : Strava.add_user _ _ = Some _ |- _ =>
        apply Hau in H as Ha3 end;
      cbn [db]; congruence.
  - unfold Strava.connect, login_required. repeat case_match; try done;
      cbn [db reply].
    match goal with H : Strava.create_oauth_state _ _ _ _ _ = Some _ |- _ =>
      apply Hos in H as -> end. done.
  - unfold Strava.callback, login_required.
    destruct (current_user s sess) as [cu|]; [|done].
    destruct (Strava.arg error); [done|].
    destruct (Strava.arg state_value) as [sv|]; [|done].
    pose proof (validate_oauth_state_frame now s sv connect_purpose) as (_ & _ & Ha).
    destruct (Strava.validate_oauth_state now s sv connect_purpose)
      as [s1 [st|msg]]; cbn [fst] in Ha; rewrite <- Ha; [|done].
    repeat case_match; cbv zeta; try done;
      match goal with H : Strava.add_strava_token _ _ _ _ = Some _ |- _ =>
        apply Hat in H as Ha2 end; cbn [db reply]; congruence.
Qed.

Lemma handle_activities_unique now api req s sess :
  activities_unique (strava_activities s) →
  activities_unique (strava_activities (db (handle now api req s sess))).
Proof.
  intros Hu. pose proof (other_handlers_keep_activities now api req s sess) as H.
  destruct req; try (by rewrite H); cbn [handle].
  - unfold Strava.disconnect, login_required.
    destruct (current_user s sess) as [cu|]; [|done].
    destruct (Strava.strava_token_of s cu); [|done].
    destruct Hu. cbn [db reply strava_activities with_strava_tokens
                      with_strava_activities]. split; by apply delete_NoDup.
  - by apply sync_activities_unique.
Qed.

(** [X25].  In every database reached from one without duplicates, no Strava
    activity is stored twice, whoever synchronised it, and no two stored
    activities share a key. *)
Theorem reachable_activities_unique init s :
  activities_unique (strava_activities init) → reachable init s →
  ∀ a1 a2, a1 ∈ strava_activities s → a2 ∈ strava_activities s →
           (StravaActivity.strava_id a1 = StravaActivity.strava_id a2
            ∨ StravaActivity.id a1 = StravaActivity.id a2) →
           a1 = a2.
Proof.
  intros Hinit Hreach.
  assert (activities_unique (strava_activities s)) as [Hid Hsid].
  { induction Hreach as [|s now api req sess Hr IH]; [done|].
    by apply handle_activities_unique. }
  intros a1 a2 H1 H2 [Heq|Heq].
  - by eapply (NoDup_fmap_inj_elem StravaActivity.strava_id).
  - by eapply (NoDup_fmap_inj_elem StravaActivity.id).
Qed.

Lemma reachable_activities_unique_witness :
  let s := db Demo.second_sync in
  (activities_unique (strava_activities Demo.start) ∧ reachable Demo.start s) ∧
  StravaActivity.strava_id <$> strava_activities s = [5%Z; 6%Z] ∧
  ∀ a1 a2, a1 ∈ strava_activities s → a2 ∈ strava_activities s →
           (StravaActivity.strava_id a1 = StravaActivity.strava_id a2
            ∨ StravaActivity.id a1 = StravaActivity.id a2) →
           a1 = a2.
Proof.
  intros s.
  assert (activities_unique (strava_activities Demo.start)) as Hinit
    by (split; constructor).
  assert (reachable Demo.start s) as Hreach.
  { unfold s, Demo.second_sync, Demo.first_sync.
    do 2 apply reachable_request. unfold Demo.linked.
    do 6 apply reachable_request. apply reachable_init. }
  split; [done|]. split; [vm_compute; reflexivity|].
  exact (reachable_activities_unique Demo.start s Hinit Hreach).
Defined.

End stored_activities.

(** ** Durations and file names *)

Section formatting.

Implicit Types (a b : string) (n : Z).

Lemma pretty_N_go_no_colon (x : N) (t : string) :
  Py.contains_char ":" t = false → Py.contains_char ":" (pretty_N_go x t) = false.
Proof.
  revert t. induction (N.lt_wf_0 x) as [x _ IH]. intros t Ht.
  destruct (decide (x = 0)%N) as [->|Hx].
  - by rewrite pretty_N_go_0.
  - rewrite pretty_N_go_step by lia. apply IH; [apply N.div_lt; lia|].
    cbn [Py.contains_char]. rewrite Ht, orb_false_r.
    apply bool_decide_eq_false. unfold pretty_N_char. by repeat case_match.
Qed.

Lemma pretty_Z_no_colon n : (0 ≤ n)%Z → Py.contains_char ":" (pretty n) = false.
Proof.
  intros Hn. destruct n as [|p|p]; [done| |lia].
  unfold pretty, pretty_Z, pretty, pretty_positive, pretty, pretty_N.
  case_decide; [done|]. by apply pretty_N_go_no_colon.
Qed.

Lemma contains_char_app c a b :
  Py.contains_char c (a +:+ b) = Py.contains_char c a || Py.contains_char c b.
Proof.
  induction a as [|d a IH]; [done|]. simpl. by rewrite IH, orb_assoc.
Qed.

Lemma pad2_no_colon n : (0 ≤ n)%Z → Py.contains_char ":" (Strava.pad2 n) = false.
Proof.
  intros Hn. unfold Strava.pad2. case_bool_decide.
  - rewrite contains_char_app, pretty_Z_no_colon by done. done.
  - by apply pretty_Z_no_colon.
Qed.

(** Two texts that agree and have their first colon after [a] and after
    [a'] agree before and after it. *)
Lemma split_at_colon a a' b b' :
  Py.contains_char ":" a = false → Py.contains_char ":" a' = false →
  a +:+ ":" +:+ b = a' +:+ ":" +:+ b' → a = a' ∧ b = b'.
Proof.
  change (":" +:+ b) with (String ":"%char b).
  change (":" +:+ b') with (String ":"%char b').
  revert a'. induction a as [|c a IH]; intros [|c' a'] Ha Ha' Heq;
    simpl in *.
  - by injection Heq as ->.
  - injection Heq as <- _. by rewrite bool_decide_eq_true_2 in Ha'.
  - injection Heq as -> _. by rewrite bool_decide_eq_true_2 in Ha.
  - injection Heq as -> Heq.
    apply orb_false_iff in Ha as [_ Ha], Ha' as [_ Ha'].
    destruct (IH a' Ha Ha' Heq) as [-> ->]. done.
Qed.

Lemma pad2_inj_60 n n' :
  (0 ≤ n < 60)%Z → (0 ≤ n' < 60)%Z → Strava.pad2 n = Strava.pad2 n' → n = n'.
Proof.
  intros Hn Hn' Heq.
  assert (NoDup (Strava.pad2 <$> (Z.of_nat <$> seq 0 60))) as Hnd
    by (apply (bool_decide_unpack _); by vm_compute).
  assert (∀ m, (0 ≤ m < 60)%Z → m ∈ Z.of_nat <$> seq 0 60) as Hin.
  { intros m Hm. apply list_elem_of_fmap. exists (Z.to_nat m).
    split; [lia|]. apply elem_of_seq. lia. }
  eapply (NoDup_fmap_inj_elem Strava.pad2); [exact Hnd|by apply Hin..|done].
Qed.

Lemma format_time_nonneg n :
  (0 ≤ n)%Z →
  Strava.format_time (Some n)
  = if bool_decide (0 < n `div` 3600)%Z
    then pretty (n `div` 3600)%Z +:+ ":"
         +:+ Strava.pad2 ((n `mod` 3600) `div` 60)%Z +:+ ":"
         +:+ Strava.pad2 (n `mod` 60)%Z
    else pretty ((n `mod` 3600) `div` 60)%Z +:+ ":" +:+ Strava.pad2 (n `mod` 60)%Z.
Proof.
  intros Hn. unfold Strava.format_time. case_bool_decide as H0; [|done].
  by subst n.
Qed.

(** [X26].  Durations are shown so that they can be told apart: two durations that
    are not negative and are shown alike are equal; and a missing sum is
    shown as zero seconds. *)
Theorem format_time_injective n n' :
  (0 ≤ n)%Z → (0 ≤ n')%Z →
  Strava.format_time (Some n) = Strava.format_time (Some n') →
  n = n' ∧ Strava.format_time None = Strava.format_time (Some 0%Z).
Proof.
  intros Hn Hn' Heq. split; [|done].
  rewrite !format_time_nonneg in Heq by done.
  assert (0 ≤ n `div` 3600 ∧ 0 ≤ (n `mod` 3600) `div` 60 < 60
          ∧ 0 ≤ n `mod` 60 < 60)%Z as (Hh & Hm & Hs) by (Z.div_mod_to_equations; lia).
  assert (0 ≤ n' `div` 3600 ∧ 0 ≤ (n' `mod` 3600) `div` 60 < 60
          ∧ 0 ≤ n' `mod` 60 < 60)%Z as (Hh' & Hm' & Hs') by (Z.div_mod_to_equations; lia).
  assert (∀ x y : Z, (0 ≤ x)%Z → (0 ≤ y)%Z →
            Py.contains_char ":" (Strava.pad2 x +:+ ":" +:+ Strava.pad2 y) = true)
    as Hcolon.
  { intros x y Hx Hy. rewrite !contains_char_app. cbn [Py.contains_char].
    rewrite bool_decide_eq_true_2 by done. by rewrite orb_true_r. }
  repeat case_bool_decide.
  - apply split_at_colon in Heq as [Hhe Heq]; [|by apply pretty_Z_no_colon..].
    apply split_at_colon in Heq as [Hme Hse]; [|apply pad2_no_colon; lia..].
    apply (inj pretty) in Hhe. apply pad2_inj_60 in Hme, Hse; [|done..].
    Z.div_mod_to_equations; lia.
  - apply split_at_colon in Heq as [_ Heq]; [|by apply pretty_Z_no_colon; lia..].
    pose proof (pad2_no_colon (n' `mod` 60)%Z ltac:(lia)) as Hno.
    rewrite <- Heq, Hcolon in Hno by lia. done.
  - apply split_at_colon in Heq as [_ Heq]; [|by apply pretty_Z_no_colon; lia..].
    pose proof (pad2_no_colon (n `mod` 60)%Z ltac:(lia)) as Hno.
    rewrite Heq, Hcolon in Hno by lia. done.
  - apply split_at_colon in Heq as [Hme Hse]; [|by apply pretty_Z_no_colon; lia..].
    apply (inj pretty) in Hme. apply pad2_inj_60 in Hse; [|done..].
    Z.div_mod_to_equations; lia.
Qed.

Lemma format_time_injective_witness :
  (0 ≤ 3725 ∧ 0 ≤ 3725)%Z ∧
  Strava.format_time (Some 3725%Z) = "1:02:05" ∧
  Strava.format_time (Some 125%Z) = "2:05" ∧
  3725%Z = 3725%Z ∧ Strava.format_time None = Strava.format_time (Some 0%Z).
Proof.
  split; [lia|]. do 2 (split; [vm_compute; reflexivity|]).
  apply (format_time_injective 3725 3725); [lia|lia|reflexivity].
Defined.

Lemma after_last_dot_no_dot a :
  Py.contains_char "." a = false → Admin.after_last_dot a = None.
Proof.
  induction a as [|c a IH]; [done|]. cbn [Py.contains_char Admin.after_last_dot].
  intros H. apply orb_false_iff in H as [Hc Ha]. rewrite IH by done.
  apply bool_decide_eq_false in Hc. by rewrite bool_decide_eq_false_2.
Qed.

Lemma after_last_dot_app stem ext :
  Py.contains_char "." ext = false →
  Admin.after_last_dot (stem +:+ "." +:+ ext) = Some ext.
Proof.
  intros Hext. change ("." +:+ ext) with (String "."%char ext).
  induction stem as [|c stem IH]; simpl.
  - by rewrite after_last_dot_no_dot.
  - by rewrite IH.
Qed.

(** [X27].  A file name is accepted by its last extension only, compared without
    regard to case: what stands before the last dot does not matter, and a
    name without a dot is refused. *)
Theorem allowed_file_last_extension allowed stem ext :
  Py.contains_char "." ext = false →
  Admin.allowed_file allowed (stem +:+ "." +:+ ext)
  = bool_decide (Py.lower ext ∈ allowed) ∧
  Admin.allowed_file allowed ext = false.
Proof.
  intros Hext. unfold Admin.allowed_file.
  by rewrite after_last_dot_app, after_last_dot_no_dot.
Qed.

Lemma allowed_file_last_extension_witness :
  Py.contains_char "." "JPG" = false ∧
  Admin.allowed_file Admin.ALLOWED_EXTENSIONS "tur.php.JPG" = true ∧
  Admin.allowed_file Admin.ALLOWED_EXTENSIONS "tur.jpg.php" = false ∧
  Admin.allowed_file Admin.ALLOWED_EXTENSIONS ("tur.php" +:+ "." +:+ "JPG")
  = bool_decide (Py.lower "JPG" ∈ Admin.ALLOWED_EXTENSIONS) ∧
  Admin.allowed_file Admin.ALLOWED_EXTENSIONS "JPG" = false.
Proof.
  split; [reflexivity|]. do 2 (split; [vm_compute; reflexivity|]).
  apply (allowed_file_last_extension Admin.ALLOWED_EXTENSIONS "tur.php" "JPG").
  reflexivity.
Defined.

End formatting.

(** ** Where the account state machine is respected *)

Section graph.

Implicit Types (s : Store) (sess : Session) (now : Z) (api : StravaApi).

Ltac grow_leaf :=
  cbn [db reply users with_users with_email_verification_tokens
       with_strava_oauth_states with_strava_tokens with_strava_activities
       with_activities];
  by left.

(** The handlers outside the administration that do not verify an e-mail
    address leave the rows of [users] as they are, append one, or write to
    one without touching its state. *)
Lemma unguarded_handlers_grow now api req s sess :
  match req with
  | AdminApproveUser _ | AdminRejectUser _ _ | AdminMembersReactivate _
  | AdminMembersSuspend _ _ | AuthVerifyEmail _ => True
  | _ => users (db (handle now api req s sess)) = users s
         ∨ (∃ u', users (db (handle now api req s sess)) = users s ++ [u'])
         ∨ ∃ u u', Query.get User.id (User.id u') (users s) = Some u ∧
                   User.state u' = User.state u ∧
                   users (db (handle now api req s sess))
                   = Query.save User.id u' (users s)
  end.
Proof.
  destruct req; try done; cbn [handle].
  - unfold Auth.login. repeat case_match; grow_leaf.
  - unfold Auth.signup. repeat case_match; try grow_leaf.
    match goal with H : Auth.add_verification_token _ _ _ _ = Some _ |- _ =>
      apply add_verification_token_frame in H as (Hu & _) end.
    cbn [db reply]. rewrite Hu. right. left. by eexists.
  - unfold Auth.resend_verification. repeat case_match; try grow_leaf;
      cbn [db reply];
      match goal with H : Auth.add_verification_token _ _ _ _ = Some _ |- _ =>
        apply add_verification_token_frame in H as (-> & _) end; by left.
  - unfold Auth.logout, login_required. repeat case_match; grow_leaf.
  - unfold Strava.strava_login. repeat case_match; try grow_leaf.
    match goal with H : Strava.create_oauth_state _ _ _ _ _ = Some _ |- _ =>
      apply create_oauth_state_frame in H as (Hu & _) end.
    cbn [db reply]. rewrite Hu. by left.
  - unfold Strava.login_callback.
    destruct (Strava.arg error); [grow_leaf|].
    destruct (Strava.arg state_value) as [sv|]; [|grow_leaf].
    pose proof (validate_oauth_state_frame now s sv login_purpose) as (Hu & _).
    destruct (Strava.validate_oauth_state now s sv login_purpose)
      as [s1 [st|msg]]; cbn [fst] in Hu; rewrite <- Hu; [|grow_leaf].
    repeat case_match; try grow_leaf;
      first
        [ match goal with H : Strava.add_strava_token _ _ _ _ = Some _ |- _ =>
            apply add_strava_token_tokens in H as (Hu2 & _) end;
          match goal with H : Strava.add_user _ _ = Some _ |- _ =>
            apply add_user_frame in H as (Hu3 & _ & Hfresh) end;
          cbn [db]; rewrite Hu2, Hu3; right; left; by eexists
        | match goal with H : Query.get User.id _ (users s1) = Some ?u |- _ =>
            pose proof (get_Some _ _ _ _ H) as [_ Hj];
            right; right; exists u, (User.with_last_seen now u);
            split_and!; [cbn [User.id User.with_last_seen]; by rewrite Hj
                        |done|done] end ].
  - unfold Strava.connect, login_required. repeat case_match; try grow_leaf.
    match goal with H : Strava.create_oauth_state _ _ _ _ _ = Some _ |- _ =>
      apply create_oauth_state_frame in H as (Hu & _) end.
    cbn [db reply]. rewrite Hu. by left.
  - unfold Strava.callback, login_required.
    destruct (current_user s sess) as [cu|]; [|grow_leaf].
    destruct (Strava.arg error); [grow_leaf|].
    destruct (Strava.arg state_value) as [sv|]; [|grow_leaf].
    pose proof (validate_oauth_state_frame now s sv connect_purpose) as (Hu & _).
    destruct (Strava.validate_oauth_state now s sv connect_purpose)
      as [s1 [st|msg]]; cbn [fst] in Hu; rewrite <- Hu; [|grow_leaf].
    repeat case_match; try grow_leaf;
      match goal with H : Strava.add_strava_token _ _ _ _ = Some _ |- _ =>
        apply add_strava_token_tokens in H as (Hu2 & _) end;
      cbn [db reply]; rewrite Hu2; by left.
  - unfold Strava.disconnect, login_required. repeat case_match; grow_leaf.
  - unfold Strava.sync, login_required.
    destruct (current_user s sess) as [cu|]; [|grow_leaf].
    destruct (Strava.strava_token_of s cu) as [k|]; [|grow_leaf].
    destruct (negb _); [grow_leaf|].
    assert (users (Strava.get_valid_token now api s k).1 = users s) as Hu.
    { unfold Strava.get_valid_token, Strava.refresh_access_token.
      destruct (StravaToken.is_expired now k); [|done].
      by destruct (api_token_refresh api _). }
    destruct (Strava.get_valid_token now api s k) as [s1 o]. cbn [fst] in Hu.
    rewrite <- Hu. repeat case_match; grow_leaf.
Qed.

(** [X28].  Suspension and e-mail verification are the only requests that can take
    an account off the graph of states: after any other request each
    account is in the state it was in or has moved along one edge. *)
Theorem requests_follow_graph now api req s sess i a b :
  (∀ id reason, req ≠ AdminMembersSuspend id reason) →
  (∀ token, req ≠ AuthVerifyEmail token) →
  state_of i s = Some a →
  state_of i (db (handle now api req s sess)) = Some b →
  a = b ∨ legal_transition a b = true.
Proof.
  intros Hsus Hver Ha Hb.
  pose proof (unguarded_handlers_grow now api req s sess) as Hgrow.
  assert (users (db (handle now api req s sess)) = users s
          ∨ (∃ u', users (db (handle now api req s sess)) = users s ++ [u'])
          ∨ (∃ u u', Query.get User.id (User.id u') (users s) = Some u ∧
                     User.state u' = User.state u ∧
                     users (db (handle now api req s sess))
                     = Query.save User.id u' (users s))
          → a = b) as Hkeep.
  { intros [Heq|[[u' Heq]|(u & u' & Hget & Hst & Heq)]].
    - unfold state_of in *. rewrite Heq in Hb. congruence.
    - unfold state_of in *. rewrite Heq in Hb.
      destruct (Query.get User.id i (users s)) as [u|] eqn:Eu; [|done].
      unfold Query.get in *. rewrite (first_app_Some _ _ [u'] _ Eu) in Hb.
      congruence.
    - rewrite (state_of_save i (User.id u') s _ u' u Heq Hget eq_refl) in Hb.
      case_bool_decide as Hi; [|congruence]. subst i.
      unfold state_of in Ha. rewrite Hget in Ha. cbn in Ha. congruence. }
  destruct req;
    try (left; by apply Hkeep);
    try (refine (guarded_handlers_follow_graph now api _ s sess i a b _ Ha Hb);
         done).
  - by destruct (Hver token).
  - by destruct (Hsus id reason).
Qed.

Lemma requests_follow_graph_witness :
  (state_of 2 (db Demo.verified) = Some PENDING_APPROVAL ∧
   state_of 2 (db Demo.approved) = Some ACTIVE) ∧
  (PENDING_APPROVAL = ACTIVE ∨ legal_transition PENDING_APPROVAL ACTIVE = true).
Proof.
  split; [vm_compute; by split|].
  apply (requests_follow_graph 400 Demo.api (AdminApproveUser 2) (db Demo.verified)
           Demo.admin_session 2 PENDING_APPROVAL ACTIVE);
    [done|done|vm_compute; reflexivity..].
Defined.

(** [X29].  Reactivation is for closed accounts only.  A suspended or rejected
    member comes back [ACTIVE] with both reasons cleared and the same
    identity; for a member in any other state the request is answered with a
    warning and changes nothing. *)
Theorem members_reactivate_only_closed s sess cu id member :
  current_user s sess = Some cu →
  User.has_admin_access cu = true →
  Query.get User.id id (users s) = Some member →
  let r := Admin.members_reactivate s sess id in
  (User.state member = SUSPENDED ∨ User.state member = REJECTED →
   ∃ member',
     Query.get User.id id (users (db r)) = Some member' ∧
     User.state member' = ACTIVE ∧
     User.rejection_reason member' = None ∧
     User.suspended_reason member' = None ∧
     same_identity member member' ∧
     mails r = []) ∧
  (User.state member ≠ SUSPENDED → User.state member ≠ REJECTED →
   db r = s ∧
   flashed r = [("Denna anvandare ar inte avstangd eller avvisad.", "warning")] ∧
   response r = Redirect admin_members_list).
Proof.
  intros Hcu Hadm Hm r. subst r.
  unfold Admin.members_reactivate, Admin.admin_required, login_required.
  rewrite Hcu, Hadm, Hm. cbn [negb]. split.
  - intros Hst.
    assert (bool_decide (User.state member = SUSPENDED)
            || bool_decide (User.state member = REJECTED) = true) as ->.
    { apply orb_true_iff. destruct Hst; [left|right]; by apply bool_decide_eq_true. }
    cbn [negb db reply users with_users mails].
    pose proof (get_Some _ _ _ _ Hm) as [_ Hmid].
    eexists. split; [by eapply (get_save User.id)|]. by repeat split.
  - intros Hs Hr. by rewrite !bool_decide_eq_false_2.
Qed.

Lemma members_reactivate_only_closed_witness :
  let s := db Demo.rejected in
  let anna := User.mk 2 "anna" "anna@example.org" (generate_password_hash "hemligt")
                      (Some "anna") REJECTED USER (Some 300%Z) None None
                      (Some "spam") None false 100 in
  let r := Admin.members_reactivate s Demo.admin_session 2 in
  (current_user s Demo.admin_session = Some Demo.klubban ∧
   User.has_admin_access Demo.klubban = true ∧
   Query.get User.id 2 (users s) = Some anna) ∧
  (User.state anna = SUSPENDED ∨ User.state anna = REJECTED →
   ∃ member',
     Query.get User.id 2 (users (db r)) = Some member' ∧
     User.state member' = ACTIVE ∧
     User.rejection_reason member' = None ∧
     User.suspended_reason member' = None ∧
     same_identity anna member' ∧
     mails r = []) ∧
  (User.state anna ≠ SUSPENDED → User.state anna ≠ REJECTED →
   db r = s ∧
   flashed r = [("Denna anvandare ar inte avstangd eller avvisad.", "warning")] ∧
   response r = Redirect admin_members_list).
Proof.
  intros s anna r. split; [vm_compute; by repeat split|].
  apply (members_reactivate_only_closed s Demo.admin_session Demo.klubban 2 anna);
    vm_compute; reflexivity.
Defined.

End graph.
